(** * Greenland inversions: velocity-grid windowing, point-list export and
      solver-input templating

    A shallow embedding of [dems/make_dems.py] (the velocity part of [main],
    lines 38-93) and of [sif_template.py] ([generate_sif_file]), together
    with the properties of the bounding-box detection, the cropping, the
    point-list export, the idempotent skip and the glacier-name validation.

    Conventions of the embedding:
    - a numpy 2-D array is the list of its rows (so an array without rows
      has no columns either); a 1-D array is a list;
    - a float is a binary64 primitive float, so that [vx != -2.0e+9] is the
      IEEE comparison (a NaN cell differs from the sentinel);
    - Python integers are [Z], and so are the 64-bit indices of numpy, which
      stay far from their bounds here; an index or a slice bound is
      normalised the way CPython and numpy do it (a negative one is counted
      from the end);
    - an exception is a value of [exn]; a computation of [main] is a
      function from the state of the outside world to a result and the new
      state, and the state survives a raise, so that what was written before
      the exception can be observed;
    - the file system is a set of directories and a finite map from paths to
      file contents. *)

From Stdlib Require Import ZArith Lia String Ascii.
From Stdlib Require Import Floats.PrimFloat Floats.FloatOps Floats.SpecFloat.
From stdpp Require Import gmap strings list pretty.

Local Open Scope Z_scope.

(** ** Python values and exceptions *)

Inductive exn : Type :=
  | ValueError (msg : string)
  | IndexError
  | KeyError (key : string)
  | OSError (path : string).

Inductive result (A : Type) : Type :=
  | Ok (a : A)
  | Raise (e : exn).
Arguments Ok {A} a.
Arguments Raise {A} e.

Definition rbind {A B} (r : result A) (k : A → result B) : result B :=
  match r with
  | Ok a => k a
  | Raise e => Raise e
  end.

Abbreviation axis := (list float).
Abbreviation field := (list (list float)).

(** The sentinel of line 56. *)
Definition sentinel : float := (-2.0e+9)%float.

(** [v != -2.0e+9], one cell of the mask of line 56. *)
Definition ne_sentinel (v : float) : bool := negb (PrimFloat.eqb v sentinel).

(** ** Indexing and slicing *)

(** [a[k]] for an integer [k]: a negative index counts from the end, and an
    index outside the array raises [IndexError]. *)
Definition py_index {A} (a : list A) (k : Z) : result A :=
  let n := Z.of_nat (length a) in
  let k' := if k <? 0 then k + n else k in
  if (k' <? 0) || (n <=? k') then Raise IndexError
  else match a !! Z.to_nat k' with
       | Some v => Ok v
       | None => Raise IndexError
       end.

(** [a[i, j]] on a 2-D array. *)
Definition py_index2 {A} (a : list (list A)) (i j : Z) : result A :=
  rbind (py_index a i) (λ row, py_index row j).

(** The adjustment of one bound of a slice of step 1 over a sequence of
    length [n]: a negative bound is counted from the end, and the result is
    clipped to [0..n]. It never raises. *)
Definition slice_bound (n : nat) (k : Z) : nat :=
  let n' := Z.of_nat n in
  if k <? 0 then Z.to_nat (Z.max 0 (k + n')) else Z.to_nat (Z.min k n').

(** [a[start:stop]]. *)
Definition slice {A} (a : list A) (start stop : Z) : list A :=
  let lo := slice_bound (length a) start in
  let hi := slice_bound (length a) stop in
  take (hi - lo) (drop lo a).

(** [a[i0:i1, j0:j1]] on a 2-D array. *)
Definition slice2 {A} (a : list (list A)) (i0 i1 j0 j1 : Z) : list (list A) :=
  map (λ row, slice row j0 j1) (slice a i0 i1).

(** ** [np.where] on a 2-D mask, and the builtins [min] and [max] *)

(** The hits of one row, from column [j] on. *)
Fixpoint where_row (i j : Z) (row : list bool) : list (Z * Z) :=
  match row with
  | [] => []
  | b :: row' => (if b then [(i, j)] else []) ++ where_row i (j + 1) row'
  end.

(** The hits of the rows from row [i] on, in row-major order. *)
Fixpoint where_from (i : Z) (mask : list (list bool)) : list (Z * Z) :=
  match mask with
  | [] => []
  | row :: mask' => where_row i 0 row ++ where_from (i + 1) mask'
  end.

(** [np.where(mask)]: the row indices and the column indices of the true
    cells. *)
Definition np_where (mask : list (list bool)) : list Z * list Z :=
  let hits := where_from 0 mask in (map fst hits, map snd hits).

(** [min(l)] and [max(l)]; both raise [ValueError] on an empty sequence
    (the text of the message is the one of CPython up to 3.11). *)
Definition py_min (l : list Z) : result Z :=
  match l with
  | [] => Raise (ValueError "min() arg is an empty sequence")
  | x :: l' => Ok (foldl Z.min x l')
  end.

Definition py_max (l : list Z) : result Z :=
  match l with
  | [] => Raise (ValueError "max() arg is an empty sequence")
  | x :: l' => Ok (foldl Z.max x l')
  end.

(** ** Bounding box (lines 56-58) *)

Record box : Type := Box { imin : Z; imax : Z; jmin : Z; jmax : Z }.

(** Lines 56-58 with the literal 2 of the source as the parameter [margin]:
<<
    (I, J) = np.where(vx != -2.0e+9)
    (imin, imax) = (min(I)-2, max(I)+2)
    (jmin, jmax) = (min(J)-2, max(J)+2)
>> *)
Definition detect_margin (margin : Z) (vx : field) : result box :=
  let '(Is, Js) := np_where (map (map ne_sentinel) vx) in
  rbind (py_min Is) (λ a,
  rbind (py_max Is) (λ b,
  rbind (py_min Js) (λ c,
  rbind (py_max Js) (λ d,
  Ok (Box (a - margin) (b + margin) (c - margin) (d + margin)))))).

(** The detection as [main] runs it. *)
Definition detect (vx : field) : result box := detect_margin 2 vx.

(** ** Cropping (lines 61-69) *)

Record cropped : Type := Cropped {
  c_vx : field; c_vy : field; c_ex : field; c_ey : field;
  c_x : axis; c_y : axis;
  c_nx : Z; c_ny : Z
}.

(** Lines 61-69. Every array is sliced on its own with the same bounds, and
    [nx], [ny] are computed from the box, not from the sliced arrays. *)
Definition crop (b : box) (x y : axis) (vx vy ex ey : field) : cropped :=
  let vx' := slice2 vx (imin b) (imax b + 1) (jmin b) (jmax b + 1) in
  let vy' := slice2 vy (imin b) (imax b + 1) (jmin b) (jmax b + 1) in
  let ex' := slice2 ex (imin b) (imax b + 1) (jmin b) (jmax b + 1) in
  let ey' := slice2 ey (imin b) (imax b + 1) (jmin b) (jmax b + 1) in
  let x' := slice x (jmin b) (jmax b + 1) in
  let y' := slice y (imin b) (imax b + 1) in
  Cropped vx' vy' ex' ey' x' y' (jmax b - jmin b + 1) (imax b - imin b + 1).

(** ** The outside world *)

(** The directories and the files of the file system, what was printed, and
    the names of the grid files read so far (in order). *)
Record world : Type := World {
  dirs : gset string;
  files : gmap string string;
  stdout : list string;
  geodat_reads : list string
}.

Definition set_dirs (d : gset string) (w : world) : world :=
  World d (files w) (stdout w) (geodat_reads w).
Definition set_files (f : gmap string string) (w : world) : world :=
  World (dirs w) f (stdout w) (geodat_reads w).
Definition set_stdout (o : list string) (w : world) : world :=
  World (dirs w) (files w) o (geodat_reads w).
Definition set_geodat_reads (r : list string) (w : world) : world :=
  World (dirs w) (files w) (stdout w) r.

(** A statement of [main]: it runs in a world and leaves a result and a
    world; after a raise the world is the one in which the raise happened. *)
Definition M (A : Type) : Type := world → result A * world.

Definition retM {A} (a : A) : M A := λ w, (Ok a, w).
Definition raiseM {A} (e : exn) : M A := λ w, (Raise e, w).
Definition bindM {A B} (m : M A) (k : A → M B) : M B :=
  λ w, match m w with
       | (Ok a, w') => k a w'
       | (Raise e, w') => (Raise e, w')
       end.
Definition liftM {A} (r : result A) : M A := λ w, (r, w).

#[global] Instance M_ret : MRet M := @retM.
#[global] Instance M_bind : MBind M := λ A B k m, bindM m k.

(** [for v in l: body(v)]. *)
Fixpoint for_each {A} (l : list A) (body : A → M unit) : M unit :=
  match l with
  | [] => retM tt
  | v :: l' => bindM (body v) (λ _, for_each l' body)
  end.

(** [a() or b()], with Python's short circuit. *)
Definition orM (a b : M bool) : M bool :=
  bindM a (λ x, if x then retM true else b).

(** [range(n)]. *)
Definition py_range (n : Z) : list Z := map Z.of_nat (seq 0 (Z.to_nat n)).

(** The line feed. *)
Definition nl : string := String "010"%char EmptyString.

(** The parent directory of a path: what precedes its last slash, if it has
    one. *)
Fixpoint dirname (p : string) : option string :=
  match p with
  | EmptyString => None
  | String c p' =>
      match dirname p' with
      | Some d => Some (String c d)
      | None => if Ascii.eqb c "/"%char then Some EmptyString else None
      end
  end.

(** The path is a directory; the path is a file. *)
Definition is_dir (w : world) (p : string) : bool := bool_decide (p ∈ dirs w).
Definition is_file (w : world) (p : string) : bool :=
  bool_decide (is_Some (files w !! p)).

(** [os.path.exists(p)]. *)
Definition path_exists (w : world) (p : string) : bool :=
  is_dir w p || is_file w p.

Definition os_path_exists (p : string) : M bool :=
  λ w, (Ok (path_exists w p), w).

(** [os.makedirs(p)]: fails when the path exists. Only the directory itself
    is recorded, not the intermediate ones. *)
Definition os_makedirs (p : string) : M unit :=
  λ w, if path_exists w p then (Raise (OSError p), w)
       else (Ok tt, set_dirs ({[p]} ∪ dirs w) w).

(** [open(p, 'w')]: the path must not be a directory and its parent, when it
    names one, must be a directory (the root and the current directory
    always are); the file is created or truncated. The handle is the path.
    The model is for the paths the program builds itself, a directory name,
    a slash and a file name: it resolves neither [.] nor [..] and gives the
    empty path no special treatment. *)
Definition open_w (p : string) : M string :=
  λ w, if is_dir w p then (Raise (OSError p), w)
       else match dirname p with
            | Some d =>
                if bool_decide (d = EmptyString) || is_dir w d
                then (Ok p, set_files (<[p := EmptyString]> (files w)) w)
                else (Raise (OSError p), w)
            | None => (Ok p, set_files (<[p := EmptyString]> (files w)) w)
            end.

(** [fid.write(s)]: the text is appended to the file behind the handle.
    Buffering is not modelled: what is written is in the file at once, where
    the program has it in the file when the handle is closed or, after an
    exception, when the process ends. The contents of the world after a
    raise are thus those of the file system once the process has ended. *)
Definition file_write (fid : string) (s : string) : M unit :=
  λ w, (Ok tt, set_files (alter (λ c, c +:+ s) fid (files w)) w).

(** [fid.close()]. *)
Definition file_close (fid : string) : M unit := retM tt.

(** [print(s)]. *)
Definition print (s : string) : M unit :=
  λ w, (Ok tt, set_stdout (stdout w ++ [s]) w).

(** The dictionary of lines 13-17, in insertion order. *)
Definition velocity_data : list (string * string) :=
  [ ("helheim", "TSX_E66.50N_27Jan09_07Feb09");
    ("kangerd", "TSX_E68.80N_28Jan09_08Feb09");
    ("jakobshavn", "mosaicOffsets") ].

(** [d[k]] on a dictionary. *)
Fixpoint dict_get (d : list (string * string)) (k : string) : result string :=
  match d with
  | [] => Raise (KeyError k)
  | (k', v) :: d' => if String.eqb k k' then Ok v else dict_get d' k
  end.

(** ASCII case mapping and [str.title], for the default file name of
    [generate_sif_file]. *)
Definition is_lower (c : ascii) : bool :=
  let n := nat_of_ascii c in (97 <=? n)%nat && (n <=? 122)%nat.
Definition is_upper (c : ascii) : bool :=
  let n := nat_of_ascii c in (65 <=? n)%nat && (n <=? 90)%nat.
Definition to_upper (c : ascii) : ascii :=
  if is_lower c then ascii_of_nat (nat_of_ascii c - 32) else c.
Definition to_lower (c : ascii) : ascii :=
  if is_upper c then ascii_of_nat (nat_of_ascii c + 32) else c.

Fixpoint title_from (prev_cased : bool) (s : string) : string :=
  match s with
  | EmptyString => EmptyString
  | String c s' =>
      String (if prev_cased then to_lower c else to_upper c)
             (title_from (is_lower c || is_upper c) s')
  end.

(** [s.title()] on an ASCII string. *)
Definition title (s : string) : string := title_from false s.

Section Program.

(** The conversion of a float to text by [str.format]. *)
Variable float_str : float → string.

(** [geodat.read_geodat], which is not part of the sources at hand: the
    grid file of a given name decodes to the axes [x], [y] and one 2-D
    array, or the read raises. *)
Variable read_geodat : string → result (axis * axis * field).

(** The template of [generate_sif_file] (lines 30-381) filled in by
    [str.format] with the regularization, the glacier name and the number
    of iterations. *)
Variable format_sif : float → string → Z → string.

Definition read_geodat_M (name : string) : M (axis * axis * field) :=
  λ w, (read_geodat name, set_geodat_reads (geodat_reads w ++ [name]) w).

(** ** Export (lines 72-88) *)

(** One [fid.write('{0} {1} {2}\n'.format(x[j], y[i], f[i,j]))]. *)
Definition write_point (fid : string) (x y : axis) (f : field) (i j : Z)
  : M unit :=
  xj ← liftM (py_index x j);
  yi ← liftM (py_index y i);
  v ← liftM (py_index2 f i j);
  file_write fid
    (float_str xj +:+ " " +:+ float_str yi +:+ " " +:+ float_str v +:+ nl).

(** Lines 72-88. *)
Definition export (glacier : string) (c : cropped) : M unit :=
  fidu ← open_w (glacier +:+ "/UDEM.xy");
  fidv ← open_w (glacier +:+ "/VDEM.xy");
  fideu ← open_w (glacier +:+ "/EUDEM.xy");
  fidev ← open_w (glacier +:+ "/EVDEM.xy");
  for_each [fidu; fidv; fideu; fidev] (λ fid,
    file_write fid (pretty (c_nx c) +:+ nl +:+ pretty (c_ny c) +:+ nl));;
  for_each (py_range (c_nx c)) (λ j,
    for_each (py_range (c_ny c)) (λ i,
      write_point fidu (c_x c) (c_y c) (c_vx c) i j;;
      write_point fidv (c_x c) (c_y c) (c_vy c) i j;;
      write_point fideu (c_x c) (c_y c) (c_ex c) i j;;
      write_point fidev (c_x c) (c_y c) (c_ey c) i j));;
  for_each [fidu; fidv; fideu; fidev] file_close.

(** ** The velocity data of one glacier (lines 39-93) *)

(** Lines 48-91, the work done when the outputs are not there yet. The
    [del] statements change nothing of what is modelled. *)
Definition make_velocity (glacier : string) : M unit :=
  name ← liftM (dict_get velocity_data glacier);
  let filename := "../data/" +:+ glacier +:+ "/" +:+ name in
  '(x, y, vx) ← read_geodat_M (filename +:+ ".vx");
  '(_, _, vy) ← read_geodat_M (filename +:+ ".vy");
  '(_, _, ex) ← read_geodat_M (filename +:+ ".ex");
  '(_, _, ey) ← read_geodat_M (filename +:+ ".ey");
  b ← liftM (detect vx);
  export glacier (crop b x y vx vy ex ey).

(** Lines 39-93, the body of the loop over the glaciers. *)
Definition velocity_body (glacier : string) : M unit :=
  e ← os_path_exists glacier;
  (if negb e then os_makedirs glacier else retM tt);;
  made ← orM (os_path_exists (glacier +:+ "/UDEM.xy"))
         (orM (os_path_exists (glacier +:+ "/VDEM.xy"))
         (orM (os_path_exists (glacier +:+ "/EUDEM.xy"))
              (os_path_exists (glacier +:+ "/EVDEM.xy"))));
  (if negb made then make_velocity glacier else retM tt);;
  print ("Done making velocity data for " +:+ glacier).

(** Lines 38-93. *)
Definition make_velocity_data : M unit :=
  for_each (map fst velocity_data) velocity_body.

(** ** [generate_sif_file] *)

Definition glacier_names : list string := ["jakobshavn"; "helheim"; "kangerd"].

Definition generate_sif_file (glacier_name : string) (file_name : option string)
    (regularization : float) (max_iterations : Z) : M unit :=
  if negb (bool_decide (glacier_name ∈ glacier_names)) then
    raiseM (ValueError
      "Glacier name must be either jakobshavn, helheim or kangerd.")
  else
    let file_name :=
      match file_name with
      | None => "elmer/Robin_Beta_" +:+ title glacier_name +:+ ".sif"
      | Some f => f
      end in
    let text := format_sif regularization glacier_name max_iterations in
    output_file ← open_w file_name;
    file_write output_file text.

(** ** The point-list format, to state what the export writes *)

(** The four files hold the four contents. *)
Definition holds4 (w : world) (p1 p2 p3 p4 c1 c2 c3 c4 : string) : Prop :=
  files w !! p1 = Some c1 ∧ files w !! p2 = Some c2 ∧
  files w !! p3 = Some c3 ∧ files w !! p4 = Some c4.

(** The text of the point of column [j] and row [i], when the axes and the
    field reach that far. *)
Definition point_text (x y : axis) (f : field) (j i : nat) : option string :=
  xj ← x !! j; yi ← y !! i; row ← f !! i; v ← row !! j;
  Some (float_str xj +:+ " " +:+ float_str yi +:+ " " +:+ float_str v
        +:+ nl).

(** The concatenation of a list of texts. *)
Fixpoint cat (l : list string) : string :=
  match l with
  | [] => EmptyString
  | s :: l' => s +:+ cat l'
  end.

(** [content] is the point list of the [ny] x [nx] field [f] over the axes
    [x] and [y]: the line of [nx], the line of [ny], and then [nx * ny]
    lines, the one of column [j] and row [i] at position [j * ny + i]
    (columns outermost). *)
Definition xy_format (content : string) (nx ny : nat) (x y : axis) (f : field)
  : Prop :=
  ∃ lines : list string,
    content = pretty (Z.of_nat nx) +:+ nl +:+ pretty (Z.of_nat ny) +:+ nl
              +:+ cat lines ∧
    length lines = (nx * ny)%nat ∧
    ∀ j i, (j < nx)%nat → (i < ny)%nat →
      ∃ s, lines !! (j * ny + i)%nat = Some s ∧ point_text x y f j i = Some s.

(** The lines of column [j] for the rows [0..ny-1], and the lines of the
    columns [0..nx-1] one after the other; a point that does not exist
    contributes an empty text. *)
Definition column_lines (x y : axis) (f : field) (ny j : nat) : list string :=
  map (λ i, default EmptyString (point_text x y f j i)) (seq 0 ny).

Definition point_lines (x y : axis) (f : field) (nx ny : nat) : list string :=
  flat_map (column_lines x y f ny) (seq 0 nx).

(** The axes and the field have a point for every column below [nx] and
    every row below [ny]. *)
Definition covers (x y : axis) (f : field) (nx ny : nat) : Prop :=
  ∀ j i, (j < nx)%nat → (i < ny)%nat → is_Some (point_text x y f j i).

(** The output directory of the glacier is there and none of the four
    outputs is a directory. *)
Definition out_ready (w : world) (glacier : string) : bool :=
  is_dir w glacier &&
  negb (is_dir w (glacier +:+ "/UDEM.xy")) &&
  negb (is_dir w (glacier +:+ "/VDEM.xy")) &&
  negb (is_dir w (glacier +:+ "/EUDEM.xy")) &&
  negb (is_dir w (glacier +:+ "/EVDEM.xy")).

(** The four output files of the glacier are the point lists of the four
    fields of [c], all four with the header [nx], [ny] and over the axes of
    [c]. *)
Definition exported (w : world) (glacier : string) (nx ny : nat) (c : cropped)
  : Prop :=
  ∃ cu cv ceu cev : string,
    holds4 w (glacier +:+ "/UDEM.xy") (glacier +:+ "/VDEM.xy")
             (glacier +:+ "/EUDEM.xy") (glacier +:+ "/EVDEM.xy")
             cu cv ceu cev ∧
    xy_format cu nx ny (c_x c) (c_y c) (c_vx c) ∧
    xy_format cv nx ny (c_x c) (c_y c) (c_vy c) ∧
    xy_format ceu nx ny (c_x c) (c_y c) (c_ex c) ∧
    xy_format cev nx ny (c_x c) (c_y c) (c_ey c).

End Program.

(** ** Concrete data for the examples *)

(** A float printer for the examples: Python's text of a float whose value is
    an integer below 10^16 in magnitude ([-2000000000.0], [1.0]) and of the
    special values; the other floats, which the examples do not use, are
    all printed as [<float>]. The properties below hold for every printer. *)
Definition float_repr (v : float) : string :=
  match Prim2SF v with
  | S754_zero s => if s then "-0.0" else "0.0"
  | S754_infinity s => if s then "-inf" else "inf"
  | S754_nan => "nan"
  | S754_finite s m e =>
      let z :=
        if 0 <=? e then Some (Z.pos m * 2 ^ e)
        else if Z.pos m mod 2 ^ (- e) =? 0 then Some (Z.pos m / 2 ^ (- e))
        else None in
      match z with
      | Some z =>
          if z <? 10 ^ 16
          then (if s then "-" else "") +:+ pretty z +:+ ".0"
          else "<float>"
      | None => "<float>"
      end
  end.

(** The world before anything was made, and a world in which the directory
    of Helheim is there. *)
Definition world0 : world := World ∅ ∅ [] [].
Definition world_helheim : world := World {["helheim"]} ∅ [] [].

(** The 5x5 field of the end-to-end example: the sentinel everywhere but in
    the block of rows 1-2 and columns 1-2. *)
Definition block5 (a b c d : float) : field :=
  [ [sentinel; sentinel; sentinel; sentinel; sentinel];
    [sentinel; a; b; sentinel; sentinel];
    [sentinel; c; d; sentinel; sentinel];
    [sentinel; sentinel; sentinel; sentinel; sentinel];
    [sentinel; sentinel; sentinel; sentinel; sentinel] ].

Definition vx5 : field := block5 1 2 3 4.
Definition x5 : axis := [0; 100; 200; 300; 400]%float.
Definition y5 : axis := [10; 20; 30; 40; 50]%float.

(** Grid files that all decode to [vx5] over [x5], [y5]. *)
Definition geodat5 (name : string) : result (axis * axis * field) :=
  Ok (x5, y5, vx5).

(** A 5x5 field whose only valid cell is the centre, a 6x6 field, and grid
    files of which the [.vy] one has the 6x6 shape. *)
Definition centre5 : field :=
  [ [sentinel; sentinel; sentinel; sentinel; sentinel];
    [sentinel; sentinel; sentinel; sentinel; sentinel];
    [sentinel; sentinel; 7%float; sentinel; sentinel];
    [sentinel; sentinel; sentinel; sentinel; sentinel];
    [sentinel; sentinel; sentinel; sentinel; sentinel] ].

Definition wide6 : field := replicate 6 (replicate 6 8%float).

Definition geodat_mixed (name : string) : result (axis * axis * field) :=
  if String.eqb name "../data/helheim/TSX_E66.50N_27Jan09_07Feb09.vy"
  then Ok (x5 ++ [500%float], y5 ++ [60%float], wide6)
  else Ok (x5, y5, centre5).

(** A 5x5 field of valid cells. *)
Definition flat5 : field := replicate 5 (replicate 5 8%float).

(** A field that is the sentinel everywhere. *)
Definition empty22 : field := [[sentinel; sentinel]; [sentinel; sentinel]].

(** A world in which the four outputs of Helheim exist, with contents that
    are no point lists. *)
Definition world_made : world :=
  World {["helheim"]}
        (list_to_map [("helheim/UDEM.xy", "junk"); ("helheim/VDEM.xy", "");
                      ("helheim/EUDEM.xy", "1"); ("helheim/EVDEM.xy", "x")])
        [] [].

(** A cropped grid of two rows and two columns. *)
Definition cropped22 : cropped :=
  Cropped [[1; 2]; [3; 4]]%float [[5; 6]; [7; 8]]%float
          [[0; 0]; [0; 0]]%float [[9; 9]; [9; 9]]%float
          [100; 200]%float [10; 20]%float 2 2.

(** ** Notions used to state the properties *)

(** The cell [(i, j)] of the field exists and differs from the sentinel. *)
Definition valid_cell (f : field) (i j : nat) : bool :=
  match f !! i with
  | Some row =>
      match row !! j with
      | Some v => ne_sentinel v
      | None => false
      end
  | None => false
  end.

(** [rlo..rhi] x [clo..chi] is the tightest rectangle around the valid cells:
    every valid cell is inside, and each of its four sides holds one. *)
Definition tightest (f : field) (rlo rhi clo chi : nat) : Prop :=
  (∀ i j, valid_cell f i j = true →
          (rlo ≤ i ≤ rhi)%nat ∧ (clo ≤ j ≤ chi)%nat) ∧
  (∃ j, valid_cell f rlo j = true) ∧
  (∃ j, valid_cell f rhi j = true) ∧
  (∃ i, valid_cell f i clo = true) ∧
  (∃ i, valid_cell f i chi = true).

(** The box lies inside an array of [ny] rows and [nx] columns, and its
    numbers of rows and of columns. *)
Definition in_range (b : box) (ny nx : nat) : Prop :=
  (0 ≤ imin b ∧ imin b ≤ imax b ∧ imax b < Z.of_nat ny) ∧
  (0 ≤ jmin b ∧ jmin b ≤ jmax b ∧ jmax b < Z.of_nat nx).

Definition box_ny (b : box) : nat := Z.to_nat (imax b - imin b + 1).
Definition box_nx (b : box) : nat := Z.to_nat (jmax b - jmin b + 1).

(** The array has [ny] rows of [nx] cells each. *)
Definition has_shape {A} (f : list (list A)) (ny nx : nat) : bool :=
  bool_decide (length f = ny) &&
  forallb (λ row, bool_decide (length row = nx)) f.

(** Every cell of the field compares equal to the sentinel. *)
Definition all_sentinel (f : field) : bool :=
  forallb (forallb (λ v, PrimFloat.eqb v sentinel)) f.

(** ** The rest of [main] (lines 24-35 and 96-144) *)

(** How a call of [main] ends: by [sys.exit], by returning, or by an
    exception. *)
Inductive outcome : Type :=
  | Exited (status : Z)
  | Returned
  | Raised (e : exn).

(** The double quote. *)
Definition dq : string := String "034"%char EmptyString.

(** The base of the addresses (line 100). *)
Definition url : string := "http://students.washington.edu/shapero/".

Section MainProgram.

Variable float_str : float → string.
Variable read_geodat : string → result (axis * axis * field).

(** [os.system]: the shell runs the command, which does to the world what
    it does, and its exit status comes back. It raises nothing. *)
Variable os_system : string → world → Z * world.

(** [postprocess_jak.main], which is not part of the sources at hand. *)
Variable postprocess_jak_main : M unit.

Definition os_system_M (cmd : string) : M Z :=
  λ w, (Ok (fst (os_system cmd w)), snd (os_system cmd w)).

(** Lines 102-110: the bed elevation of each glacier is fetched unless it is
    there; the status of the command is dropped. *)
Definition bed_dems (dem_source : string) : M unit :=
  let bed_dem_url := url +:+ "bed_dems/" +:+ dem_source +:+ "/" in
  for_each ["helheim"; "kangerd"; "jakobshavn"] (λ glacier,
    e ← os_path_exists (glacier +:+ "/zbDEM.xy");
    (if negb e then
       _ ← os_system_M ("wget " +:+ bed_dem_url +:+ glacier
                        +:+ "/zbDEM.xy -P " +:+ glacier);
       retM tt
     else retM tt);;
    print ("Done making bed elevation data for " +:+ glacier)).

(** Lines 113-120. *)
Definition surface_dems : M unit :=
  let surface_dem_url := url +:+ "surface_dems/" in
  for_each ["helheim"; "kangerd"] (λ glacier,
    e ← os_path_exists (glacier +:+ "/zsDEM.xy");
    (if negb e then
       _ ← os_system_M ("wget " +:+ surface_dem_url +:+ glacier
                        +:+ "/zsDEM.xy -P " +:+ glacier);
       retM tt
     else retM tt);;
    print ("Done making surface elevation for " +:+ glacier)).

(** Lines 123-138: the surface of Jakobshavn is written from its own grid
    file, with [nx] and [ny] taken from the axes. *)
Definition jakobshavn_surface : M unit :=
  e ← os_path_exists "jakobshavn/zsDEM.xy";
  (if negb e then
     '(x, y, s) ← read_geodat_M read_geodat "../data/jakobshavn/dem13Mar.smooth";
     let nx := Z.of_nat (length x) in
     let ny := Z.of_nat (length y) in
     fid ← open_w "jakobshavn/zsDEM.xy";
     file_write fid (pretty nx +:+ nl +:+ pretty ny +:+ nl);;
     for_each (py_range nx) (λ j,
       for_each (py_range ny) (λ i,
         write_point float_str fid x y s i j));;
     file_close fid
   else retM tt);;
  print "Done making surface elevation for Jakobshavn".

(** Lines 37-144, what [main] does once the DEM source is accepted. *)
Definition main_body (dem_source : string) : M unit :=
  make_velocity_data float_str read_geodat;;
  bed_dems dem_source;;
  surface_dems;;
  jakobshavn_surface;;
  postprocess_jak_main;;
  print "Done post-processing Jakobshavn velocity data".

(** The message of lines 33-34. *)
Definition unrecognized_dem (dem_source : string) : string :=
  "Unrecognized DEM source " +:+ dem_source +:+ ", should be" +:+ nl +:+
  "either " +:+ dq +:+ "cresis" +:+ dq +:+ " or " +:+ dq +:+ "morlighem"
  +:+ dq +:+ nl.

(** [main], from the value of the option [--dem] on: the parsing of [argv]
    by [argparse] is not modelled. *)
Definition main (dem_source : string) : world → outcome * world :=
  λ w,
    if negb (bool_decide (dem_source ∈ ["morlighem"; "cresis"])) then
      (Exited 1, snd (print (unrecognized_dem dem_source) w))
    else
      match main_body dem_source w with
      | (Ok _, w') => (Returned, w')
      | (Raise e, w') => (Raised e, w')
      end.

End MainProgram.

(** ** Further notions *)

(** Every valid cell of the field of [ny] rows and [nx] columns is at least
    two cells away from each border. *)
Definition padded2 (f : field) (ny nx : nat) : Prop :=
  ∀ i j, valid_cell f i j = true →
    (2 ≤ i ∧ i + 2 < ny ∧ 2 ≤ j ∧ j + 2 < nx)%nat.

(** The second world differs from the first at most in the contents of the
    files that satisfy [P], and no file of the first is missing from it. *)
Definition only_files (P : string → Prop) (w w' : world) : Prop :=
  dirs w' = dirs w ∧ stdout w' = stdout w ∧
  geodat_reads w' = geodat_reads w ∧
  (∀ p, ¬ P p → files w' !! p = files w !! p) ∧
  (∀ p, is_file w p = true → is_file w' p = true).

(** The four outputs of a glacier. *)
Definition outputs (glacier : string) : list string :=
  [glacier +:+ "/UDEM.xy"; glacier +:+ "/VDEM.xy";
   glacier +:+ "/EUDEM.xy"; glacier +:+ "/EVDEM.xy"].

(** The statement [m] only moves the world along [R]. *)
Definition respects {A} (R : world → world → Prop) (m : M A) : Prop :=
  ∀ w, R w (snd (m w)).

(** What the work on one glacier may do to the file system: change or
    create its four outputs and make its directory; no file disappears. *)
Definition glacier_rel (glacier : string) (w w' : world) : Prop :=
  (∀ p, p ∉ outputs glacier → files w' !! p = files w !! p) ∧
  (∀ p, is_file w p = true → is_file w' p = true) ∧
  (∀ d, d ∈ dirs w' ↔ d ∈ dirs w ∨ (d = glacier ∧ d ∈ dirs w')).

(** Everything [main] makes is there: for each glacier its directory, one
    velocity output, the bed and the surface. *)
Definition all_made (w : world) : bool :=
  forallb (λ glacier,
    path_exists w glacier &&
    path_exists w (glacier +:+ "/UDEM.xy") &&
    path_exists w (glacier +:+ "/zbDEM.xy") &&
    path_exists w (glacier +:+ "/zsDEM.xy"))
    ["helheim"; "kangerd"; "jakobshavn"].

(** What is printed when everything is made already, up to the
    post-processing. *)
Definition done_messages : list string :=
  ["Done making velocity data for helheim";
   "Done making velocity data for kangerd";
   "Done making velocity data for jakobshavn";
   "Done making bed elevation data for helheim";
   "Done making bed elevation data for kangerd";
   "Done making bed elevation data for jakobshavn";
   "Done making surface elevation for helheim";
   "Done making surface elevation for kangerd";
   "Done making surface elevation for Jakobshavn"].

(** The default destinations of the solver input files. *)
Definition default_sif (glacier_name : string) : string :=
  if String.eqb glacier_name "helheim" then "elmer/Robin_Beta_Helheim.sif"
  else if String.eqb glacier_name "jakobshavn"
       then "elmer/Robin_Beta_Jakobshavn.sif"
       else "elmer/Robin_Beta_Kangerd.sif".

(** Grid files that all decode to [centre5], and grid files that all decode
    to a field without data. *)
Definition geodat_centre (name : string) : result (axis * axis * field) :=
  Ok (x5, y5, centre5).
Definition geodat_empty (name : string) : result (axis * axis * field) :=
  Ok ([100; 200]%float, [10; 20]%float, empty22).

(** A world with the directory of the solver files, in which the input file
    of Helheim exists. *)
Definition world_elmer : world :=
  World {["elmer"]} {["elmer/Robin_Beta_Helheim.sif" := "old"]} [] [].

(** A world in which everything is made, and grid files for the surface of
    Jakobshavn. *)
Definition world_all_made : world :=
  World {["helheim"; "kangerd"; "jakobshavn"]}
        (list_to_map
           [("helheim/UDEM.xy", ""); ("helheim/zbDEM.xy", "");
            ("helheim/zsDEM.xy", ""); ("kangerd/UDEM.xy", "");
            ("kangerd/zbDEM.xy", ""); ("kangerd/zsDEM.xy", "");
            ("jakobshavn/UDEM.xy", ""); ("jakobshavn/zbDEM.xy", "");
            ("jakobshavn/zsDEM.xy", "")])
        [] [].

Definition world_jakobshavn : world := World {["jakobshavn"]} ∅ [] [].

Definition surface22 : field := [[1; 2]; [3; 4]]%float.
Definition geodat_surface (name : string) : result (axis * axis * field) :=
  Ok ([100; 200]%float, [10; 20]%float, surface22).

(** A shell that does nothing and fails, and a post-processor that does
    nothing. *)
Definition shell_fails (cmd : string) (w : world) : Z * world := (1, w).
Definition postprocess_nothing : M unit := retM tt.

(** ** Properties of the Python primitives *)

Lemma foldl_min_spec (l : list Z) (x : Z) :
  (foldl Z.min x l = x ∨ foldl Z.min x l ∈ l) ∧
  foldl Z.min x l ≤ x ∧ ∀ y, y ∈ l → foldl Z.min x l ≤ y.
Proof.
  revert x; induction l as [|a l IH]; intros x; simpl.
  - split; [by left|]. split; [lia|]. intros y Hy. by apply elem_of_nil in Hy.
  - destruct (IH (Z.min x a)) as (Hin & Hle & Hall).
    split; [|split].
    + destruct Hin as [Heq|Hin]; [|right; by constructor].
      destruct (Z.min_spec x a) as [[_ Hm]|[_ Hm]]; [left|right]; rewrite Heq.
      * exact Hm.
      * rewrite Hm. constructor.
    + lia.
    + intros y Hy. apply elem_of_cons in Hy as [->|Hy]; [lia|by apply Hall].
Qed.

Lemma foldl_max_spec (l : list Z) (x : Z) :
  (foldl Z.max x l = x ∨ foldl Z.max x l ∈ l) ∧
  x ≤ foldl Z.max x l ∧ ∀ y, y ∈ l → y ≤ foldl Z.max x l.
Proof.
  revert x; induction l as [|a l IH]; intros x; simpl.
  - split; [by left|]. split; [lia|]. intros y Hy. by apply elem_of_nil in Hy.
  - destruct (IH (Z.max x a)) as (Hin & Hle & Hall).
    split; [|split].
    + destruct Hin as [Heq|Hin]; [|right; by constructor].
      destruct (Z.max_spec x a) as [[_ Hm]|[_ Hm]]; [right|left]; rewrite Heq.
      * rewrite Hm. constructor.
      * exact Hm.
    + lia.
    + intros y Hy. apply elem_of_cons in Hy as [->|Hy]; [lia|by apply Hall].
Qed.

(** [min] of a non-empty sequence is its least element. *)
Lemma py_min_spec (l : list Z) :
  l ≠ [] → ∃ m, py_min l = Ok m ∧ m ∈ l ∧ ∀ y, y ∈ l → m ≤ y.
Proof.
  destruct l as [|x l]; [done|]. intros _. simpl.
  destruct (foldl_min_spec l x) as (Hin & Hle & Hall).
  eexists; split; [reflexivity|]. split.
  - destruct Hin as [->|Hin]; [constructor|by constructor].
  - intros y Hy. apply elem_of_cons in Hy as [->|Hy]; [done|by apply Hall].
Qed.

(** [max] of a non-empty sequence is its greatest element. *)
Lemma py_max_spec (l : list Z) :
  l ≠ [] → ∃ m, py_max l = Ok m ∧ m ∈ l ∧ ∀ y, y ∈ l → y ≤ m.
Proof.
  destruct l as [|x l]; [done|]. intros _. simpl.
  destruct (foldl_max_spec l x) as (Hin & Hle & Hall).
  eexists; split; [reflexivity|]. split.
  - destruct Hin as [->|Hin]; [constructor|by constructor].
  - intros y Hy. apply elem_of_cons in Hy as [->|Hy]; [done|by apply Hall].
Qed.

(** The hits of a row are its true cells. *)
Lemma where_row_spec (i j0 : Z) (row : list bool) (a b : Z) :
  (a, b) ∈ where_row i j0 row ↔
  a = i ∧ ∃ j : nat, b = j0 + Z.of_nat j ∧ row !! j = Some true.
Proof.
  revert j0; induction row as [|c row IH]; intros j0; simpl.
  - split; [intros H; by apply elem_of_nil in H|].
    intros (_ & j & _ & Hj). by rewrite lookup_nil in Hj.
  - rewrite elem_of_app, IH. split.
    + intros [Hhead|(-> & j & -> & Hj)].
      * destruct c; [|by apply elem_of_nil in Hhead].
        apply list_elem_of_singleton in Hhead as [= -> ->].
        split; [done|]. exists 0%nat. split; [lia|done].
      * split; [done|]. exists (S j). split; [lia|done].
    + intros (-> & [|j] & -> & Hj).
      * simpl in Hj. injection Hj as ->. left.
        replace (j0 + Z.of_nat 0) with j0 by lia. constructor.
      * right. split; [done|]. exists j. split; [lia|done].
Qed.

(** The hits of a mask are its true cells. *)
Lemma where_from_spec (i0 : Z) (mask : list (list bool)) (a b : Z) :
  (a, b) ∈ where_from i0 mask ↔
  ∃ (i j : nat) row,
    a = i0 + Z.of_nat i ∧ b = Z.of_nat j ∧
    mask !! i = Some row ∧ row !! j = Some true.
Proof.
  revert i0; induction mask as [|r mask IH]; intros i0; simpl.
  - split; [intros H; by apply elem_of_nil in H|].
    intros (i & j & row & _ & _ & Hi & _). by rewrite lookup_nil in Hi.
  - rewrite elem_of_app, where_row_spec, IH. split.
    + intros [(-> & j & -> & Hj)|(i & j & row & -> & -> & Hi & Hj)].
      * exists 0%nat, j, r. split_and!; (done || lia).
      * exists (S i), j, row. split_and!; (done || lia).
    + intros ([|i] & j & row & -> & -> & Hi & Hj).
      * simpl in Hi. injection Hi as ->. left.
        split; [lia|]. exists j. split; [lia|done].
      * right. exists i, j, row. split_and!; (done || lia).
Qed.

(** The mask of line 56 is true where the cell is valid. *)
Lemma mask_lookup (f : field) (i j : nat) :
  (∃ row, map (map ne_sentinel) f !! i = Some row ∧ row !! j = Some true) ↔
  valid_cell f i j = true.
Proof.
  unfold valid_cell. rewrite list_lookup_fmap.
  destruct (f !! i) as [r|]; simpl.
  - split.
    + intros (row & [= <-] & Hj). rewrite list_lookup_fmap in Hj.
      destruct (r !! j); simpl in Hj; [by injection Hj|done].
    + intros Hv. eexists; split; [reflexivity|].
      rewrite list_lookup_fmap. destruct (r !! j); simpl; [by f_equal|done].
  - split; [intros (row & [=] & _)|done].
Qed.

Lemma hits_valid (f : field) (a b : Z) :
  (a, b) ∈ where_from 0 (map (map ne_sentinel) f) ↔
  ∃ i j : nat, a = Z.of_nat i ∧ b = Z.of_nat j ∧ valid_cell f i j = true.
Proof.
  rewrite where_from_spec. split.
  - intros (i & j & row & -> & -> & Hi & Hj).
    exists i, j. split_and!; [lia|done|]. apply mask_lookup; eauto.
  - intros (i & j & -> & -> & Hv). apply mask_lookup in Hv as (row & Hi & Hj).
    exists i, j, row. split_and!; (done || lia).
Qed.

(** ** Properties of the detection *)

Lemma hits_rows (f : field) (a : Z) :
  a ∈ map fst (where_from 0 (map (map ne_sentinel) f)) ↔
  ∃ i j : nat, a = Z.of_nat i ∧ valid_cell f i j = true.
Proof.
  rewrite list_elem_of_fmap. split.
  - intros ([a' b] & -> & Hin). apply hits_valid in Hin as (i & j & -> & _ & Hv).
    by exists i, j.
  - intros (i & j & -> & Hv). exists (Z.of_nat i, Z.of_nat j).
    split; [done|]. apply hits_valid. by exists i, j.
Qed.

Lemma hits_cols (f : field) (b : Z) :
  b ∈ map snd (where_from 0 (map (map ne_sentinel) f)) ↔
  ∃ i j : nat, b = Z.of_nat j ∧ valid_cell f i j = true.
Proof.
  rewrite list_elem_of_fmap. split.
  - intros ([a b'] & -> & Hin). apply hits_valid in Hin as (i & j & _ & -> & Hv).
    by exists i, j.
  - intros (i & j & -> & Hv). exists (Z.of_nat i, Z.of_nat j).
    split; [done|]. apply hits_valid. by exists i, j.
Qed.

(** With a valid cell in the field, the detection returns the tightest
    rectangle widened by the margin on each side. *)
Lemma detect_margin_tightest (m : Z) (f : field) :
  (∃ i j, valid_cell f i j = true) →
  ∃ rlo rhi clo chi : nat,
    detect_margin m f =
      Ok (Box (Z.of_nat rlo - m) (Z.of_nat rhi + m)
              (Z.of_nat clo - m) (Z.of_nat chi + m)) ∧
    tightest f rlo rhi clo chi.
Proof.
  intros (i0 & j0 & Hv0). unfold detect_margin, np_where.
  set (hits := where_from 0 (map (map ne_sentinel) f)).
  assert (Hrows : map fst hits ≠ []).
  { intros Hnil. assert (Hin : Z.of_nat i0 ∈ map fst hits)
      by (apply hits_rows; eauto).
    rewrite Hnil in Hin. by apply elem_of_nil in Hin. }
  assert (Hcols : map snd hits ≠ []).
  { intros Hnil. assert (Hin : Z.of_nat j0 ∈ map snd hits)
      by (apply hits_cols; eauto).
    rewrite Hnil in Hin. by apply elem_of_nil in Hin. }
  destruct (py_min_spec _ Hrows) as (a & -> & Ha & Hamin).
  destruct (py_max_spec _ Hrows) as (b & -> & Hb & Hbmax).
  destruct (py_min_spec _ Hcols) as (c & -> & Hc & Hcmin).
  destruct (py_max_spec _ Hcols) as (d & -> & Hd & Hdmax).
  apply hits_rows in Ha as (rlo & ja & -> & Hva).
  apply hits_rows in Hb as (rhi & jb & -> & Hvb).
  apply hits_cols in Hc as (ic & clo & -> & Hvc).
  apply hits_cols in Hd as (id & chi & -> & Hvd).
  exists rlo, rhi, clo, chi. split; [done|].
  split; [|by eauto 10].
  intros i j Hv.
  assert (Hi : Z.of_nat i ∈ map fst hits) by (apply hits_rows; eauto).
  assert (Hj : Z.of_nat j ∈ map snd hits) by (apply hits_cols; eauto).
  specialize (Hamin _ Hi). specialize (Hbmax _ Hi).
  specialize (Hcmin _ Hj). specialize (Hdmax _ Hj). lia.
Qed.

(** There is only one tightest rectangle. *)
Lemma tightest_unique (f : field) (a b c d a' b' c' d' : nat) :
  tightest f a b c d → tightest f a' b' c' d' →
  a = a' ∧ b = b' ∧ c = c' ∧ d = d'.
Proof.
  intros (Hin & [ja Ha] & [jb Hb] & [ic Hc] & [id Hd])
         (Hin' & [ja' Ha'] & [jb' Hb'] & [ic' Hc'] & [id' Hd']).
  pose proof (Hin _ _ Ha'). pose proof (Hin _ _ Hb').
  pose proof (Hin _ _ Hc'). pose proof (Hin _ _ Hd').
  pose proof (Hin' _ _ Ha). pose proof (Hin' _ _ Hb).
  pose proof (Hin' _ _ Hc). pose proof (Hin' _ _ Hd). lia.
Qed.

(** The detection finds any rectangle known to be the tightest. *)
Lemma detect_margin_of_tightest (m : Z) (f : field) (a b c d : nat) :
  tightest f a b c d →
  detect_margin m f =
    Ok (Box (Z.of_nat a - m) (Z.of_nat b + m)
            (Z.of_nat c - m) (Z.of_nat d + m)).
Proof.
  intros Ht.
  destruct (detect_margin_tightest m f) as (a' & b' & c' & d' & -> & Ht').
  { destruct Ht as (_ & [j Hj] & _). eauto. }
  destruct (tightest_unique _ _ _ _ _ _ _ _ _ Ht Ht') as (-> & -> & -> & ->).
  done.
Qed.

(** Without a valid cell, [min(I)] raises. *)
Lemma detect_margin_empty (m : Z) (f : field) :
  (∀ i j, valid_cell f i j = false) →
  detect_margin m f = Raise (ValueError "min() arg is an empty sequence").
Proof.
  intros Hnone. unfold detect_margin, np_where.
  destruct (where_from 0 (map (map ne_sentinel) f)) as [|[a b] hits] eqn:Hh.
  - done.
  - assert (Hin : (a, b) ∈ where_from 0 (map (map ne_sentinel) f))
      by (rewrite Hh; constructor).
    apply hits_valid in Hin as (i & j & _ & _ & Hv).
    by rewrite Hnone in Hv.
Qed.

(** ** Properties of slicing and cropping *)

Lemma slice_bound_nat (n k : nat) : slice_bound n (Z.of_nat k) = (k `min` n)%nat.
Proof.
  unfold slice_bound. destruct (Z.ltb_spec (Z.of_nat k) 0); lia.
Qed.

(** With bounds that are not negative a slice is a [take] of a [drop]. *)
Lemma slice_nat {A} (l : list A) (a b : nat) :
  slice l (Z.of_nat a) (Z.of_nat b) = take (b - a) (drop a l).
Proof.
  unfold slice. rewrite !slice_bound_nat.
  destruct (decide (length l ≤ a)%nat) as [Hge|Hlt].
  - rewrite (drop_ge l a) by done. rewrite drop_ge by lia. by rewrite !take_nil.
  - replace (a `min` length l)%nat with a by lia.
    destruct (decide (b ≤ length l)%nat) as [Hb|Hb].
    + by replace (b `min` length l)%nat with b by lia.
    + rewrite !take_ge; [done| |]; rewrite length_drop; lia.
Qed.

Lemma slice_lookup {A} (l : list A) (a b k : nat) :
  (a + k < b)%nat → slice l (Z.of_nat a) (Z.of_nat b) !! k = l !! (a + k)%nat.
Proof.
  intros Hk. rewrite slice_nat, lookup_take_lt by lia. apply lookup_drop.
Qed.

Lemma slice_lookup_ge {A} (l : list A) (a b k : nat) :
  (b ≤ a + k)%nat → slice l (Z.of_nat a) (Z.of_nat b) !! k = None.
Proof.
  intros Hk. rewrite slice_nat. apply lookup_take_ge. lia.
Qed.

Lemma slice_length {A} (l : list A) (a b : nat) :
  (a ≤ b)%nat → (b ≤ length l)%nat →
  length (slice l (Z.of_nat a) (Z.of_nat b)) = (b - a)%nat.
Proof.
  intros Hab Hb. rewrite slice_nat, length_take, length_drop. lia.
Qed.

Lemma has_shape_spec {A} (f : list (list A)) (ny nx : nat) :
  has_shape f ny nx = true ↔
  length f = ny ∧ ∀ i row, f !! i = Some row → length row = nx.
Proof.
  unfold has_shape. rewrite andb_true_iff, bool_decide_eq_true, forallb_forall.
  split; intros [Hlen Hrows]; (split; [done|]).
  - intros i row Hi. eapply bool_decide_eq_true_1, Hrows.
    apply list_elem_of_In, list_elem_of_lookup. eauto.
  - intros row Hin. apply list_elem_of_In, list_elem_of_lookup in Hin as [i Hi].
    apply bool_decide_eq_true_2. eauto.
Qed.

(** A 2-D slice whose bounds lie inside the array has the shape of the
    bounds. *)
Lemma slice2_shape {A} (f : list (list A)) (ny nx a b c d : nat) :
  has_shape f ny nx = true →
  (a ≤ b)%nat → (b ≤ ny)%nat → (c ≤ d)%nat → (d ≤ nx)%nat →
  has_shape (slice2 f (Z.of_nat a) (Z.of_nat b) (Z.of_nat c) (Z.of_nat d))
            (b - a) (d - c) = true.
Proof.
  intros [Hlen Hrows]%has_shape_spec Hab Hb Hcd Hd.
  apply has_shape_spec. unfold slice2. split.
  - rewrite length_map. apply slice_length; lia.
  - intros i row Hi. rewrite list_lookup_fmap in Hi.
    destruct (slice f (Z.of_nat a) (Z.of_nat b) !! i) as [r|] eqn:Hr;
      [|done]. injection Hi as <-.
    rewrite slice_nat in Hr. apply lookup_take_Some in Hr as [Hr _].
    rewrite lookup_drop in Hr. apply Hrows in Hr.
    apply slice_length; lia.
Qed.

(** The cells of a 2-D slice with non-negative bounds. *)
Lemma slice2_lookup {A} (f : list (list A)) (a b c d i j : nat) :
  (a + i < b)%nat → (c + j < d)%nat →
  slice2 f (Z.of_nat a) (Z.of_nat b) (Z.of_nat c) (Z.of_nat d) !! i
    ≫= (λ row, row !! j)
  = f !! (a + i)%nat ≫= (λ row, row !! (c + j)%nat).
Proof.
  intros Hi Hj. unfold slice2. rewrite list_lookup_fmap, slice_lookup by done.
  destruct (f !! (a + i)%nat) as [row|]; simpl; [|done].
  by apply slice_lookup.
Qed.

Lemma valid_cell_bind (f : field) (i j : nat) :
  valid_cell f i j =
  match f !! i ≫= (λ row, row !! j) with
  | Some v => ne_sentinel v
  | None => false
  end.
Proof. unfold valid_cell. by destruct (f !! i). Qed.

Lemma valid_cell_slice2 (f : field) (a b c d i j : nat) :
  valid_cell (slice2 f (Z.of_nat a) (Z.of_nat b) (Z.of_nat c) (Z.of_nat d)) i j
  = if decide ((a + i < b)%nat ∧ (c + j < d)%nat)
    then valid_cell f (a + i) (c + j) else false.
Proof.
  case_decide as Hd.
  - destruct Hd. by rewrite !valid_cell_bind, slice2_lookup.
  - unfold valid_cell, slice2. rewrite list_lookup_fmap.
    destruct (decide (a + i < b)%nat).
    + rewrite slice_lookup by done.
      destruct (f !! (a + i)%nat) as [row|]; simpl; [|done].
      rewrite slice_lookup_ge; [done|lia].
    + rewrite slice_lookup_ge; [done|lia].
Qed.

(** A slice from [-1] to the length is the last element: the negative start
    is counted from the end. *)
Lemma slice_last {A} (l : list A) (n : nat) (v : A) :
  length l = S n → l !! n = Some v →
  slice l (-1) (Z.of_nat (S n)) = [v].
Proof.
  intros Hlen Hv. unfold slice, slice_bound. rewrite Hlen.
  replace (-1 <? 0) with true by done.
  destruct (Z.ltb_spec (Z.of_nat (S n)) 0); [lia|].
  replace (Z.to_nat (Z.max 0 (-1 + Z.of_nat (S n)))) with n by lia.
  replace (Z.to_nat (Z.min (Z.of_nat (S n)) (Z.of_nat (S n)))) with (S n)
    by lia.
  replace (S n - n)%nat with 1%nat by lia.
  rewrite (drop_S l v n Hv). simpl. by rewrite take_0.
Qed.

Lemma slice2_last {A} (f : list (list A)) (ny nx : nat) :
  has_shape f (S ny) (S nx) = true →
  ∃ row v, f !! ny = Some row ∧ row !! nx = Some v ∧
           slice2 f (-1) (Z.of_nat (S ny)) (-1) (Z.of_nat (S nx)) = [[v]].
Proof.
  intros [Hlen Hrows]%has_shape_spec.
  destruct (lookup_lt_is_Some_2 f ny) as [row Hrow]; [lia|].
  pose proof (Hrows _ _ Hrow) as Hrl.
  destruct (lookup_lt_is_Some_2 row nx) as [v Hv]; [lia|].
  exists row, v. split; [done|]. split; [done|].
  unfold slice2. rewrite (slice_last f ny row Hlen Hrow). simpl.
  by rewrite (slice_last row nx v Hrl Hv).
Qed.

(** ** Properties of the statements *)

Lemma string_app_assoc (a b c : string) : (a +:+ b) +:+ c = a +:+ (b +:+ c).
Proof.
  induction a as [|ch a IH]; [done|].
  change (String ch ((a +:+ b) +:+ c) = String ch (a +:+ (b +:+ c))).
  by rewrite IH.
Qed.

Lemma string_app_nil_r (a : string) : a +:+ EmptyString = a.
Proof.
  induction a as [|ch a IH]; [done|].
  change (String ch (a +:+ EmptyString) = String ch a). by rewrite IH.
Qed.

(** The parent of [g/name] is [g] when [name] has no slash. *)
Lemma dirname_app (g name : string) :
  dirname name = None →
  dirname (g +:+ String "/"%char name) = Some g.
Proof.
  intros Hname. induction g as [|ch g IH].
  - change (dirname (String "/"%char name) = Some EmptyString).
    simpl. by rewrite Hname.
  - change (dirname (String ch (g +:+ String "/"%char name))
            = Some (String ch g)).
    simpl. by rewrite IH.
Qed.

Lemma py_index_nat {A} (l : list A) (k : nat) (v : A) :
  l !! k = Some v → py_index l (Z.of_nat k) = Ok v.
Proof.
  intros Hk. pose proof (lookup_lt_Some _ _ _ Hk) as Hlt. unfold py_index.
  destruct (Z.ltb_spec (Z.of_nat k) 0); [lia|].
  destruct (Z.ltb_spec (Z.of_nat k) 0); [lia|].
  destruct (Z.leb_spec (Z.of_nat (length l)) (Z.of_nat k)); [lia|].
  simpl. by rewrite Nat2Z.id, Hk.
Qed.

Lemma for_each_map {A B} (g : A → B) (l : list A) (body : B → M unit) :
  for_each (map g l) body = for_each l (λ a, body (g a)).
Proof. induction l as [|a l IH]; simpl; [done|]. by rewrite IH. Qed.

(** A loop whose body keeps an invariant indexed by the elements already
    visited runs to its end and establishes the invariant for the whole
    list. *)
Lemma for_each_inv {A} (Inv : list A → world → Prop) (body : A → M unit)
    (l : list A) :
  (∀ pre v post w, l = pre ++ v :: post → Inv pre w →
     ∃ w', body v w = (Ok tt, w') ∧ Inv (pre ++ [v]) w') →
  ∀ w, Inv [] w → ∃ w', for_each l body w = (Ok tt, w') ∧ Inv l w'.
Proof.
  intros Hstep.
  assert (Hgen : ∀ rest pre w, l = pre ++ rest → Inv pre w →
            ∃ w', for_each rest body w = (Ok tt, w') ∧ Inv l w').
  { induction rest as [|v rest IH]; intros pre w Hl Hinv.
    - exists w. split; [done|]. by rewrite Hl, app_nil_r.
    - destruct (Hstep pre v rest w Hl Hinv) as (w1 & Hb & Hinv1).
      destruct (IH (pre ++ [v]) w1) as (w2 & Hrest & Hinv2).
      { by rewrite <- app_assoc. }
      { done. }
      exists w2. split; [|done]. simpl. unfold bindM. by rewrite Hb. }
  intros w Hinv. by apply (Hgen l [] w).
Qed.

Lemma lookup_flat_map_block {B} (g : nat → list B) (n m s j i : nat) :
  (∀ k, length (g k) = n) → (j < m)%nat → (i < n)%nat →
  flat_map g (seq s m) !! (j * n + i)%nat = g (s + j)%nat !! i.
Proof.
  intros Hlen. revert s j; induction m as [|m IH]; intros s j Hj Hi; [lia|].
  simpl. destruct j as [|j].
  - rewrite lookup_app_l by (rewrite Hlen; lia). by rewrite Nat.add_0_r.
  - rewrite lookup_app_r by (rewrite Hlen; lia). rewrite Hlen.
    replace (S j * n + i - n)%nat with (j * n + i)%nat by lia.
    rewrite IH by lia. by replace (S s + j)%nat with (s + S j)%nat by lia.
Qed.

Lemma length_flat_map_block {B} (g : nat → list B) (n m s : nat) :
  (∀ k, length (g k) = n) → length (flat_map g (seq s m)) = (m * n)%nat.
Proof.
  intros Hlen. revert s; induction m as [|m IH]; intros s; [done|].
  simpl. by rewrite length_app, Hlen, IH.
Qed.

Section ExportProps.

Variable float_str : float → string.

Lemma cat_app (l1 l2 : list string) : cat (l1 ++ l2) = cat l1 +:+ cat l2.
Proof.
  induction l1 as [|s l1 IH]; simpl; [done|].
  by rewrite IH, string_app_assoc.
Qed.

Lemma write_point_ok fid x y f (i j : nat) s w :
  point_text float_str x y f j i = Some s →
  write_point float_str fid x y f (Z.of_nat i) (Z.of_nat j) w
  = file_write fid s w.
Proof.
  unfold point_text. intros Hs.
  destruct (x !! j) as [xj|] eqn:Hx; simpl in Hs; [|done].
  destruct (y !! i) as [yi|] eqn:Hy; simpl in Hs; [|done].
  destruct (f !! i) as [row|] eqn:Hf; simpl in Hs; [|done].
  destruct (row !! j) as [v|] eqn:Hr; simpl in Hs; [|done].
  injection Hs as <-.
  unfold write_point, py_index2, mbind, M_bind, bindM, liftM.
  rewrite (py_index_nat _ _ _ Hx), (py_index_nat _ _ _ Hy),
    (py_index_nat _ _ _ Hf). simpl.
  by rewrite (py_index_nat _ _ _ Hr).
Qed.

(** One pass of the inner body appends one line to each file. *)
Lemma point_step p1 p2 p3 p4 x y f1 f2 f3 f4 (i j : nat)
    s1 s2 s3 s4 c1 c2 c3 c4 w :
  NoDup [p1; p2; p3; p4] →
  point_text float_str x y f1 j i = Some s1 →
  point_text float_str x y f2 j i = Some s2 →
  point_text float_str x y f3 j i = Some s3 →
  point_text float_str x y f4 j i = Some s4 →
  holds4 w p1 p2 p3 p4 c1 c2 c3 c4 →
  ∃ w',
    (write_point float_str p1 x y f1 (Z.of_nat i) (Z.of_nat j);;
     write_point float_str p2 x y f2 (Z.of_nat i) (Z.of_nat j);;
     write_point float_str p3 x y f3 (Z.of_nat i) (Z.of_nat j);;
     write_point float_str p4 x y f4 (Z.of_nat i) (Z.of_nat j)) w
    = (Ok tt, w') ∧
    holds4 w' p1 p2 p3 p4 (c1 +:+ s1) (c2 +:+ s2) (c3 +:+ s3) (c4 +:+ s4).
Proof.
  intros Hnd H1 H2 H3 H4 (Hc1 & Hc2 & Hc3 & Hc4).
  assert (p1 ≠ p2 ∧ p1 ≠ p3 ∧ p1 ≠ p4 ∧ p2 ≠ p3 ∧ p2 ≠ p4 ∧ p3 ≠ p4)
    as (? & ? & ? & ? & ? & ?).
  { rewrite !NoDup_cons, !not_elem_of_cons in Hnd. tauto. }
  unfold mbind, M_bind, bindM.
  rewrite (write_point_ok _ _ _ _ _ _ _ _ H1). simpl.
  rewrite (write_point_ok _ _ _ _ _ _ _ _ H2). simpl.
  rewrite (write_point_ok _ _ _ _ _ _ _ _ H3). simpl.
  rewrite (write_point_ok _ _ _ _ _ _ _ _ H4). simpl.
  eexists; split; [reflexivity|]. unfold holds4; simpl.
  split_and!.
  - rewrite !lookup_alter_ne by done. by rewrite lookup_alter_eq, Hc1.
  - rewrite !lookup_alter_ne by done.
    rewrite lookup_alter_eq, lookup_alter_ne by done. by rewrite Hc2.
  - rewrite lookup_alter_ne by done.
    rewrite lookup_alter_eq, !lookup_alter_ne by done. by rewrite Hc3.
  - rewrite lookup_alter_eq, !lookup_alter_ne by done. by rewrite Hc4.
Qed.

Lemma py_range_nat (n : nat) : py_range (Z.of_nat n) = map Z.of_nat (seq 0 n).
Proof. unfold py_range. by rewrite Nat2Z.id. Qed.

(** The inner loop appends the lines of one column to each file. *)
Lemma column_loop p1 p2 p3 p4 x y f1 f2 f3 f4 (nx ny j : nat) c1 c2 c3 c4 w :
  NoDup [p1; p2; p3; p4] →
  covers float_str x y f1 nx ny → covers float_str x y f2 nx ny →
  covers float_str x y f3 nx ny → covers float_str x y f4 nx ny →
  (j < nx)%nat →
  holds4 w p1 p2 p3 p4 c1 c2 c3 c4 →
  ∃ w',
    for_each (py_range (Z.of_nat ny)) (λ i,
      write_point float_str p1 x y f1 i (Z.of_nat j);;
      write_point float_str p2 x y f2 i (Z.of_nat j);;
      write_point float_str p3 x y f3 i (Z.of_nat j);;
      write_point float_str p4 x y f4 i (Z.of_nat j)) w = (Ok tt, w') ∧
    holds4 w' p1 p2 p3 p4
      (c1 +:+ cat (column_lines float_str x y f1 ny j))
      (c2 +:+ cat (column_lines float_str x y f2 ny j))
      (c3 +:+ cat (column_lines float_str x y f3 ny j))
      (c4 +:+ cat (column_lines float_str x y f4 ny j)).
Proof.
  intros Hnd Hf1 Hf2 Hf3 Hf4 Hj Hw.
  rewrite py_range_nat, for_each_map.
  set (line := λ f i, default EmptyString (point_text float_str x y f j i)).
  apply (for_each_inv (λ pre w,
    holds4 w p1 p2 p3 p4
      (c1 +:+ cat (map (line f1) pre)) (c2 +:+ cat (map (line f2) pre))
      (c3 +:+ cat (map (line f3) pre)) (c4 +:+ cat (map (line f4) pre)))).
  - intros pre i post w1 Hl Hinv.
    assert (Hi : (i < ny)%nat).
    { assert (Hin : i ∈ seq 0 ny) by (rewrite Hl; set_solver).
      apply elem_of_seq in Hin. lia. }
    destruct (Hf1 j i Hj Hi) as [s1 H1], (Hf2 j i Hj Hi) as [s2 H2],
      (Hf3 j i Hj Hi) as [s3 H3], (Hf4 j i Hj Hi) as [s4 H4].
    destruct (point_step _ _ _ _ _ _ _ _ _ _ _ _ _ _ _ _ _ _ _ _ _
                Hnd H1 H2 H3 H4 Hinv) as (w2 & Hrun & Hinv2).
    exists w2. split; [done|].
    rewrite !map_app, !cat_app. simpl. unfold line at 2 4 6 8.
    rewrite H1, H2, H3, H4. simpl.
    by rewrite !string_app_nil_r, <- !string_app_assoc.
  - simpl. by rewrite !string_app_nil_r.
Qed.

(** The outer loop appends all the lines, column after column. *)
Lemma columns_loop p1 p2 p3 p4 x y f1 f2 f3 f4 (nx ny : nat) c1 c2 c3 c4 w :
  NoDup [p1; p2; p3; p4] →
  covers float_str x y f1 nx ny → covers float_str x y f2 nx ny →
  covers float_str x y f3 nx ny → covers float_str x y f4 nx ny →
  holds4 w p1 p2 p3 p4 c1 c2 c3 c4 →
  ∃ w',
    for_each (py_range (Z.of_nat nx)) (λ j,
      for_each (py_range (Z.of_nat ny)) (λ i,
        write_point float_str p1 x y f1 i j;;
        write_point float_str p2 x y f2 i j;;
        write_point float_str p3 x y f3 i j;;
        write_point float_str p4 x y f4 i j)) w = (Ok tt, w') ∧
    holds4 w' p1 p2 p3 p4
      (c1 +:+ cat (point_lines float_str x y f1 nx ny))
      (c2 +:+ cat (point_lines float_str x y f2 nx ny))
      (c3 +:+ cat (point_lines float_str x y f3 nx ny))
      (c4 +:+ cat (point_lines float_str x y f4 nx ny)).
Proof.
  intros Hnd Hf1 Hf2 Hf3 Hf4 Hw.
  rewrite py_range_nat, for_each_map. unfold point_lines.
  apply (for_each_inv (λ pre w,
    holds4 w p1 p2 p3 p4
      (c1 +:+ cat (flat_map (column_lines float_str x y f1 ny) pre))
      (c2 +:+ cat (flat_map (column_lines float_str x y f2 ny) pre))
      (c3 +:+ cat (flat_map (column_lines float_str x y f3 ny) pre))
      (c4 +:+ cat (flat_map (column_lines float_str x y f4 ny) pre)))).
  - intros pre j post w1 Hl Hinv.
    assert (Hj : (j < nx)%nat).
    { assert (Hin : j ∈ seq 0 nx) by (rewrite Hl; set_solver).
      apply elem_of_seq in Hin. lia. }
    destruct (column_loop _ _ _ _ _ _ _ _ _ _ nx ny j _ _ _ _ _
                Hnd Hf1 Hf2 Hf3 Hf4 Hj Hinv) as (w2 & Hrun & Hinv2).
    exists w2. split; [done|].
    rewrite !flat_map_app, !cat_app. simpl.
    by rewrite !app_nil_r, <- !string_app_assoc.
  - simpl. by rewrite !string_app_nil_r.
Qed.

Lemma length_column_lines x y f ny j :
  length (column_lines float_str x y f ny j) = ny.
Proof. unfold column_lines. by rewrite length_map, length_seq. Qed.

(** The lines of a covered field, behind the header, are a point list. *)
Lemma point_lines_format x y f (nx ny : nat) :
  covers float_str x y f nx ny →
  xy_format float_str
    ((pretty (Z.of_nat nx) +:+ nl +:+ pretty (Z.of_nat ny) +:+ nl)
       +:+ cat (point_lines float_str x y f nx ny)) nx ny x y f.
Proof.
  intros Hcov. exists (point_lines float_str x y f nx ny). split_and!.
  - by rewrite !string_app_assoc.
  - apply length_flat_map_block, length_column_lines.
  - intros j i Hj Hi. destruct (Hcov j i Hj Hi) as [s Hs]. exists s.
    split; [|done]. unfold point_lines.
    rewrite (lookup_flat_map_block _ ny) by (done || apply length_column_lines).
    unfold column_lines. rewrite list_lookup_fmap, lookup_seq_lt by done.
    simpl. by rewrite Hs.
Qed.

Lemma bindM_ok {A B} (m : M A) (k : A → M B) (a : A) (w w' : world) :
  m w = (Ok a, w') → bindM m k w = k a w'.
Proof. intros Hm. unfold bindM. by rewrite Hm. Qed.

Lemma bindM_raise {A B} (m : M A) (k : A → M B) (e : exn) (w w' : world) :
  m w = (Raise e, w') → bindM m k w = (Raise e, w').
Proof. intros Hm. unfold bindM. by rewrite Hm. Qed.

Lemma open_w_ok (p d : string) (w : world) :
  is_dir w p = false → dirname p = Some d → is_dir w d = true →
  open_w p w = (Ok p, set_files (<[p := EmptyString]> (files w)) w).
Proof.
  intros Hp Hd Hdir. unfold open_w. rewrite Hp, Hd, Hdir.
  by rewrite orb_true_r.
Qed.

Lemma out_paths_NoDup (glacier : string) :
  NoDup [glacier +:+ "/UDEM.xy"; glacier +:+ "/VDEM.xy";
         glacier +:+ "/EUDEM.xy"; glacier +:+ "/EVDEM.xy"].
Proof.
  rewrite !NoDup_cons, !not_elem_of_cons.
  split_and!; try (by intros ?%(inj (String.app glacier)));
    try apply not_elem_of_nil. constructor.
Qed.

(** The header is written to the four files just opened. *)
Lemma header_loop p1 p2 p3 p4 (header : string) (w : world) :
  NoDup [p1; p2; p3; p4] →
  holds4 w p1 p2 p3 p4 EmptyString EmptyString EmptyString EmptyString →
  ∃ w',
    for_each [p1; p2; p3; p4] (λ fid, file_write fid header) w = (Ok tt, w') ∧
    holds4 w' p1 p2 p3 p4 header header header header.
Proof.
  intros Hnd (Hc1 & Hc2 & Hc3 & Hc4).
  assert (p1 ≠ p2 ∧ p1 ≠ p3 ∧ p1 ≠ p4 ∧ p2 ≠ p3 ∧ p2 ≠ p4 ∧ p3 ≠ p4)
    as (? & ? & ? & ? & ? & ?).
  { rewrite !NoDup_cons, !not_elem_of_cons in Hnd. tauto. }
  eexists; split; [reflexivity|]. unfold holds4; simpl.
  split_and!.
  - rewrite !lookup_alter_ne by done. by rewrite lookup_alter_eq, Hc1.
  - rewrite !lookup_alter_ne by done.
    rewrite lookup_alter_eq, lookup_alter_ne by done. by rewrite Hc2.
  - rewrite lookup_alter_ne by done.
    rewrite lookup_alter_eq, !lookup_alter_ne by done. by rewrite Hc3.
  - rewrite lookup_alter_eq, !lookup_alter_ne by done. by rewrite Hc4.
Qed.

(** With the output directory in place and fields that cover the box, the
    export succeeds and leaves, in each file, the header and the lines of
    its field. *)
Lemma export_ok (glacier : string) (c : cropped) (nx ny : nat) (w : world) :
  out_ready w glacier = true →
  c_nx c = Z.of_nat nx → c_ny c = Z.of_nat ny →
  covers float_str (c_x c) (c_y c) (c_vx c) nx ny →
  covers float_str (c_x c) (c_y c) (c_vy c) nx ny →
  covers float_str (c_x c) (c_y c) (c_ex c) nx ny →
  covers float_str (c_x c) (c_y c) (c_ey c) nx ny →
  let header := pretty (Z.of_nat nx) +:+ nl +:+ pretty (Z.of_nat ny) +:+ nl in
  ∃ w',
    export float_str glacier c w = (Ok tt, w') ∧
    holds4 w' (glacier +:+ "/UDEM.xy") (glacier +:+ "/VDEM.xy")
      (glacier +:+ "/EUDEM.xy") (glacier +:+ "/EVDEM.xy")
      (header +:+ cat (point_lines float_str (c_x c) (c_y c) (c_vx c) nx ny))
      (header +:+ cat (point_lines float_str (c_x c) (c_y c) (c_vy c) nx ny))
      (header +:+ cat (point_lines float_str (c_x c) (c_y c) (c_ex c) nx ny))
      (header +:+ cat (point_lines float_str (c_x c) (c_y c) (c_ey c) nx ny)).
Proof.
  intros Hready Hnx Hny Hf1 Hf2 Hf3 Hf4 header.
  unfold out_ready in Hready. rewrite !andb_true_iff, !negb_true_iff in Hready.
  destruct Hready as ((((Hdir & Hu) & Hv) & Heu) & Hev).
  pose proof (out_paths_NoDup glacier) as Hnd.
  unfold export, mbind, M_bind.
  erewrite bindM_ok by
    (apply (open_w_ok _ glacier);
     [exact Hu | exact (dirname_app glacier "UDEM.xy" eq_refl) | exact Hdir]).
  erewrite bindM_ok by
    (apply (open_w_ok _ glacier);
     [exact Hv | exact (dirname_app glacier "VDEM.xy" eq_refl) | exact Hdir]).
  erewrite bindM_ok by
    (apply (open_w_ok _ glacier);
     [exact Heu | exact (dirname_app glacier "EUDEM.xy" eq_refl) | exact Hdir]).
  erewrite bindM_ok by
    (apply (open_w_ok _ glacier);
     [exact Hev | exact (dirname_app glacier "EVDEM.xy" eq_refl) | exact Hdir]).
  rewrite Hnx, Hny. fold header.
  match goal with |- ∃ w', bindM _ _ ?w0 = _ ∧ _ => set (w1 := w0) end.
  destruct (header_loop _ _ _ _ header w1 Hnd) as (w2 & Hhdr & Hw2).
  { assert (Hne := Hnd). rewrite !NoDup_cons, !not_elem_of_cons in Hne.
    subst w1. unfold holds4. simpl. split_and!.
    - rewrite !lookup_insert_ne by intuition congruence. apply lookup_insert_eq.
    - rewrite !lookup_insert_ne by intuition congruence. apply lookup_insert_eq.
    - rewrite !lookup_insert_ne by intuition congruence. apply lookup_insert_eq.
    - apply lookup_insert_eq. }
  rewrite (bindM_ok _ _ _ _ _ Hhdr).
  destruct (columns_loop _ _ _ _ _ _ _ _ _ _ nx ny _ _ _ _ _
              Hnd Hf1 Hf2 Hf3 Hf4 Hw2) as (w3 & Hloop & Hw3).
  rewrite (bindM_ok _ _ _ _ _ Hloop).
  exists w3. split; [reflexivity|done].
Qed.

End ExportProps.

(** ** The detection (lines 56-58) *)

(** C1. For every field with at least one cell that differs from the
    sentinel, and for every margin [m], the detection returns exactly
    [(min(rows) - m, max(rows) + m, min(cols) - m, max(cols) + m)], where
    [min(rows)..max(rows)] x [min(cols)..max(cols)] is the tightest rectangle
    around the non-sentinel cells; nothing is clamped to the array. The code
    runs it with [m = 2]. *)
Theorem detect_exact_box (m : Z) (f : field) :
  (∃ i j, valid_cell f i j = true) →
  ∃ rlo rhi clo chi : nat,
    tightest f rlo rhi clo chi ∧
    detect_margin m f =
      Ok (Box (Z.of_nat rlo - m) (Z.of_nat rhi + m)
              (Z.of_nat clo - m) (Z.of_nat chi + m)) ∧
    detect f =
      Ok (Box (Z.of_nat rlo - 2) (Z.of_nat rhi + 2)
              (Z.of_nat clo - 2) (Z.of_nat chi + 2)).
Proof.
  intros Hv.
  destruct (detect_margin_tightest m f Hv) as (rlo & rhi & clo & chi & Hd & Ht).
  exists rlo, rhi, clo, chi. split; [done|]. split; [done|].
  by apply detect_margin_of_tightest.
Qed.

Lemma all_sentinel_no_valid (f : field) :
  all_sentinel f = true → ∀ i j, valid_cell f i j = false.
Proof.
  unfold all_sentinel, valid_cell. rewrite forallb_forall. intros Hall i j.
  destruct (f !! i) as [row|] eqn:Hi; [|done].
  destruct (row !! j) as [v|] eqn:Hj; [|done].
  assert (Hrow : forallb (λ v, PrimFloat.eqb v sentinel) row = true).
  { apply Hall, list_elem_of_In, list_elem_of_lookup. eauto. }
  rewrite forallb_forall in Hrow. unfold ne_sentinel.
  rewrite Hrow; [done|]. apply list_elem_of_In, list_elem_of_lookup. eauto.
Qed.

(** C5. For every field all of whose cells equal the sentinel, the detection
    returns no box: [min(I)] raises [ValueError] on the empty index array,
    which is how the code signals the empty dataset. *)
Theorem detect_all_sentinel_raises (f : field) :
  all_sentinel f = true →
  detect f = Raise (ValueError "min() arg is an empty sequence") ∧
  ∀ m, detect_margin m f = Raise (ValueError "min() arg is an empty sequence").
Proof.
  intros Hall. pose proof (all_sentinel_no_valid f Hall) as Hnone.
  split; [|intros m]; by apply detect_margin_empty.
Qed.

(** ** Valid cells and shapes *)


(** ** The export (lines 72-88) and the crop (lines 61-69) *)

Section ExportTheorems.

Variable float_str : float → string.

Lemma covers_of_shape (x y : axis) (f : field) (nx ny : nat) :
  length x = nx → length y = ny → has_shape f ny nx = true →
  covers float_str x y f nx ny.
Proof.
  intros Hx Hy [Hlen Hrows]%has_shape_spec j i Hj Hi. unfold point_text.
  destruct (lookup_lt_is_Some_2 x j) as [xj ->]; [lia|].
  destruct (lookup_lt_is_Some_2 y i) as [yi ->]; [lia|].
  destruct (lookup_lt_is_Some_2 f i) as [row Hrow]; [lia|].
  rewrite Hrow. simpl.
  destruct (lookup_lt_is_Some_2 row j) as [v ->];
    [rewrite (Hrows _ _ Hrow); lia|].
  simpl. eauto.
Qed.

(** The export of fields that all have the shape [(ny, nx)] over axes of
    these lengths. *)
Lemma export_shaped (glacier : string) (c : cropped) (nx ny : nat) (w : world) :
  out_ready w glacier = true →
  c_nx c = Z.of_nat nx → c_ny c = Z.of_nat ny →
  length (c_x c) = nx → length (c_y c) = ny →
  has_shape (c_vx c) ny nx = true → has_shape (c_vy c) ny nx = true →
  has_shape (c_ex c) ny nx = true → has_shape (c_ey c) ny nx = true →
  ∃ w', export float_str glacier c w = (Ok tt, w') ∧
        exported float_str w' glacier nx ny c.
Proof.
  intros Hready Hnx Hny Hx Hy H1 H2 H3 H4.
  pose proof (covers_of_shape _ _ _ _ _ Hx Hy H1) as Hc1.
  pose proof (covers_of_shape _ _ _ _ _ Hx Hy H2) as Hc2.
  pose proof (covers_of_shape _ _ _ _ _ Hx Hy H3) as Hc3.
  pose proof (covers_of_shape _ _ _ _ _ Hx Hy H4) as Hc4.
  destruct (export_ok float_str glacier c nx ny w Hready Hnx Hny
              Hc1 Hc2 Hc3 Hc4) as (w' & Hrun & Hfiles).
  exists w'. split; [done|].
  eexists _, _, _, _. split; [exact Hfiles|].
  split_and!; by apply point_lines_format.
Qed.

(** A box inside an array of [ny] rows and [nx] columns has
    [imax - imin + 1] rows and [jmax - jmin + 1] columns, and so has the
    slice it cuts out. *)
Lemma slice2_in_range {A} (b : box) (f : list (list A)) (ny nx : nat) :
  has_shape f ny nx = true → in_range b ny nx →
  has_shape (slice2 f (imin b) (imax b + 1) (jmin b) (jmax b + 1))
            (box_ny b) (box_nx b) = true.
Proof.
  intros Hf [Hi Hj]. unfold box_ny, box_nx.
  destruct b as [i0 i1 j0 j1]; simpl in *.
  replace i0 with (Z.of_nat (Z.to_nat i0)) at 1 by lia.
  replace (i1 + 1) with (Z.of_nat (Z.to_nat (i1 + 1))) at 1 by lia.
  replace j0 with (Z.of_nat (Z.to_nat j0)) at 1 by lia.
  replace (j1 + 1) with (Z.of_nat (Z.to_nat (j1 + 1))) at 1 by lia.
  replace (Z.to_nat (i1 - i0 + 1))
    with (Z.to_nat (i1 + 1) - Z.to_nat i0)%nat by lia.
  replace (Z.to_nat (j1 - j0 + 1))
    with (Z.to_nat (j1 + 1) - Z.to_nat j0)%nat by lia.
  apply (slice2_shape f ny nx); (done || lia).
Qed.

Lemma slice_in_range {A} (l : list A) (lo hi : Z) :
  0 ≤ lo ≤ hi → hi < Z.of_nat (length l) →
  length (slice l lo (hi + 1)) = Z.to_nat (hi - lo + 1).
Proof.
  intros Hlo Hhi.
  replace lo with (Z.of_nat (Z.to_nat lo)) at 1 by lia.
  replace (hi + 1) with (Z.of_nat (Z.to_nat (hi + 1))) at 1 by lia.
  rewrite slice_length by lia. lia.
Qed.

(** The crop by a box that is inside every array, whatever the shapes of
    the arrays are, followed by the export. *)
Lemma crop_export_ok (glacier : string) (b : box) (x y : axis)
    (vx vy ex ey : field) (ny1 nx1 ny2 nx2 ny3 nx3 ny4 nx4 : nat) (w : world) :
  has_shape vx ny1 nx1 = true → has_shape vy ny2 nx2 = true →
  has_shape ex ny3 nx3 = true → has_shape ey ny4 nx4 = true →
  in_range b ny1 nx1 → in_range b ny2 nx2 →
  in_range b ny3 nx3 → in_range b ny4 nx4 →
  in_range b (length y) (length x) →
  out_ready w glacier = true →
  let c := crop b x y vx vy ex ey in
  (c_nx c = Z.of_nat (box_nx b) ∧ c_ny c = Z.of_nat (box_ny b) ∧
   length (c_x c) = box_nx b ∧ length (c_y c) = box_ny b ∧
   has_shape (c_vx c) (box_ny b) (box_nx b) = true ∧
   has_shape (c_vy c) (box_ny b) (box_nx b) = true ∧
   has_shape (c_ex c) (box_ny b) (box_nx b) = true ∧
   has_shape (c_ey c) (box_ny b) (box_nx b) = true) ∧
  ∃ w', export float_str glacier c w = (Ok tt, w') ∧
        exported float_str w' glacier (box_nx b) (box_ny b) c.
Proof.
  intros H1 H2 H3 H4 R1 R2 R3 R4 Rxy Hready c.
  assert (Hshapes :
    c_nx c = Z.of_nat (box_nx b) ∧ c_ny c = Z.of_nat (box_ny b) ∧
    length (c_x c) = box_nx b ∧ length (c_y c) = box_ny b ∧
    has_shape (c_vx c) (box_ny b) (box_nx b) = true ∧
    has_shape (c_vy c) (box_ny b) (box_nx b) = true ∧
    has_shape (c_ex c) (box_ny b) (box_nx b) = true ∧
    has_shape (c_ey c) (box_ny b) (box_nx b) = true).
  { subst c. unfold crop; simpl. destruct Rxy as [Ry Rx].
    split_and!.
    - unfold box_nx. lia.
    - unfold box_ny. lia.
    - apply slice_in_range; lia.
    - apply slice_in_range; lia.
    - by apply (slice2_in_range b vx ny1 nx1).
    - by apply (slice2_in_range b vy ny2 nx2).
    - by apply (slice2_in_range b ex ny3 nx3).
    - by apply (slice2_in_range b ey ny4 nx4). }
  split; [exact Hshapes|].
  destruct Hshapes as (? & ? & ? & ? & ? & ? & ? & ?).
  by apply export_shaped.
Qed.

(** When the [y] axis has a single value but [ny] is at least 2, the export
    raises [IndexError] at the second point, after the header and the first
    line went to each file. *)
Lemma export_raises_second_row (glacier : string) (c : cropped) (nx ny : nat)
    (s1 s2 s3 s4 : string) (w : world) :
  out_ready w glacier = true →
  c_nx c = Z.of_nat (S nx) → c_ny c = Z.of_nat (S (S ny)) →
  length (c_y c) = 1%nat →
  point_text float_str (c_x c) (c_y c) (c_vx c) 0 0 = Some s1 →
  point_text float_str (c_x c) (c_y c) (c_vy c) 0 0 = Some s2 →
  point_text float_str (c_x c) (c_y c) (c_ex c) 0 0 = Some s3 →
  point_text float_str (c_x c) (c_y c) (c_ey c) 0 0 = Some s4 →
  let header := pretty (c_nx c) +:+ nl +:+ pretty (c_ny c) +:+ nl in
  ∃ w',
    export float_str glacier c w = (Raise IndexError, w') ∧
    holds4 w' (glacier +:+ "/UDEM.xy") (glacier +:+ "/VDEM.xy")
      (glacier +:+ "/EUDEM.xy") (glacier +:+ "/EVDEM.xy")
      (header +:+ s1) (header +:+ s2) (header +:+ s3) (header +:+ s4).
Proof.
  intros Hready Hnx Hny Hy H1 H2 H3 H4 header.
  unfold out_ready in Hready. rewrite !andb_true_iff, !negb_true_iff in Hready.
  destruct Hready as ((((Hdir & Hu) & Hv) & Heu) & Hev).
  pose proof (out_paths_NoDup glacier) as Hnd.
  unfold export, mbind, M_bind.
  erewrite bindM_ok by
    (apply (open_w_ok _ glacier);
     [exact Hu | exact (dirname_app glacier "UDEM.xy" eq_refl) | exact Hdir]).
  erewrite bindM_ok by
    (apply (open_w_ok _ glacier);
     [exact Hv | exact (dirname_app glacier "VDEM.xy" eq_refl) | exact Hdir]).
  erewrite bindM_ok by
    (apply (open_w_ok _ glacier);
     [exact Heu | exact (dirname_app glacier "EUDEM.xy" eq_refl) | exact Hdir]).
  erewrite bindM_ok by
    (apply (open_w_ok _ glacier);
     [exact Hev | exact (dirname_app glacier "EVDEM.xy" eq_refl) | exact Hdir]).
  fold header.
  match goal with |- ∃ w', bindM _ _ ?w0 = _ ∧ _ => set (w1 := w0) end.
  destruct (header_loop _ _ _ _ header w1 Hnd) as (w2 & Hhdr & Hw2).
  { assert (Hne := Hnd). rewrite !NoDup_cons, !not_elem_of_cons in Hne.
    subst w1. unfold holds4. simpl. split_and!.
    - rewrite !lookup_insert_ne by intuition congruence. apply lookup_insert_eq.
    - rewrite !lookup_insert_ne by intuition congruence. apply lookup_insert_eq.
    - rewrite !lookup_insert_ne by intuition congruence. apply lookup_insert_eq.
    - apply lookup_insert_eq. }
  rewrite (bindM_ok _ _ _ _ _ Hhdr).
  destruct (point_step float_str _ _ _ _ _ _ _ _ _ _ 0 0 _ _ _ _ _ _ _ _ _
              Hnd H1 H2 H3 H4 Hw2) as (w3 & Hfirst & Hw3).
  exists w3. split; [|done].
  rewrite Hnx, Hny, !py_range_nat.
  apply bindM_raise. cbn [seq map for_each].
  apply bindM_raise. rewrite (bindM_ok _ _ _ _ _ Hfirst).
  apply bindM_raise. unfold mbind, M_bind. apply bindM_raise.
  unfold write_point, mbind, M_bind.
  destruct (c_x c) as [|x0 xs] eqn:Hx; [done|].
  destruct (c_y c) as [|y0 [|y1 ys]] eqn:Hyy; [done| |done].
  done.
Qed.

(** C3. For fields of shape [(ny, nx)] over an [x] axis of length [nx] and a
    [y] axis of length [ny], the export succeeds and each of the four files
    is: the line of [nx], the line of [ny], and then exactly [nx * ny] lines,
    the line at position [j * ny + i] (columns outermost, rows innermost)
    being the texts of [x[j]], [y[i]] and [field[i][j]] separated by single
    spaces and ended by a line feed. *)
Theorem export_point_list (glacier : string) (c : cropped) (nx ny : nat)
    (w : world) :
  out_ready w glacier = true →
  c_nx c = Z.of_nat nx → c_ny c = Z.of_nat ny →
  length (c_x c) = nx → length (c_y c) = ny →
  has_shape (c_vx c) ny nx = true → has_shape (c_vy c) ny nx = true →
  has_shape (c_ex c) ny nx = true → has_shape (c_ey c) ny nx = true →
  ∃ w', export float_str glacier c w = (Ok tt, w') ∧
    ∀ name f,
      (name, f) ∈ [("/UDEM.xy", c_vx c); ("/VDEM.xy", c_vy c);
                   ("/EUDEM.xy", c_ex c); ("/EVDEM.xy", c_ey c)] →
      ∃ lines : list string,
        files w' !! (glacier +:+ name) =
          Some (pretty (Z.of_nat nx) +:+ nl +:+ pretty (Z.of_nat ny) +:+ nl
                +:+ cat lines) ∧
        length lines = (nx * ny)%nat ∧
        ∀ (j i : nat) (xj yi : float) (row : list float) (v : float),
          c_x c !! j = Some xj → c_y c !! i = Some yi →
          f !! i = Some row → row !! j = Some v →
          lines !! (j * ny + i)%nat =
            Some (float_str xj +:+ " " +:+ float_str yi +:+ " "
                  +:+ float_str v +:+ nl).
Proof.
  intros Hready Hnx Hny Hx Hy H1 H2 H3 H4.
  destruct (export_shaped glacier c nx ny w Hready Hnx Hny Hx Hy H1 H2 H3 H4)
    as (w' & Hrun & (cu & cv & ceu & cev & (Fu & Fv & Feu & Fev)
                     & Xu & Xv & Xeu & Xev)).
  exists w'. split; [done|].
  assert (Hone : ∀ content f, xy_format float_str content nx ny (c_x c) (c_y c) f →
    has_shape f ny nx = true →
    ∃ lines : list string,
      content = pretty (Z.of_nat nx) +:+ nl +:+ pretty (Z.of_nat ny) +:+ nl
                +:+ cat lines ∧
      length lines = (nx * ny)%nat ∧
      ∀ (j i : nat) (xj yi : float) (row : list float) (v : float),
        c_x c !! j = Some xj → c_y c !! i = Some yi →
        f !! i = Some row → row !! j = Some v →
        lines !! (j * ny + i)%nat =
          Some (float_str xj +:+ " " +:+ float_str yi +:+ " "
                +:+ float_str v +:+ nl)).
  { intros content f (lines & Hc & Hlen & Hlines) Hf.
    exists lines. split; [done|]. split; [done|].
    intros j i xj yi row v Hxj Hyi Hrow Hv.
    assert (Hj : (j < nx)%nat) by (apply lookup_lt_Some in Hxj; lia).
    assert (Hi : (i < ny)%nat) by (apply lookup_lt_Some in Hyi; lia).
    destruct (Hlines j i Hj Hi) as (s & Hs & Hpt). rewrite Hs. f_equal.
    unfold point_text in Hpt. rewrite Hxj, Hyi in Hpt. simpl in Hpt.
    rewrite Hrow in Hpt. simpl in Hpt. rewrite Hv in Hpt. simpl in Hpt.
    by injection Hpt. }
  intros name f Hin. rewrite !elem_of_cons in Hin.
  destruct Hin as [[= -> ->]|[[= -> ->]|[[= -> ->]|[[= -> ->]|Hin]]]];
    [| | | |by apply elem_of_nil in Hin].
  - destruct (Hone cu _ Xu H1) as (lines & -> & ?). by exists lines.
  - destruct (Hone cv _ Xv H2) as (lines & -> & ?). by exists lines.
  - destruct (Hone ceu _ Xeu H3) as (lines & -> & ?). by exists lines.
  - destruct (Hone cev _ Xev H4) as (lines & -> & ?). by exists lines.
Qed.

(** C4. For co-registered fields of one shape [(ny0, nx0)] over axes of the
    lengths [nx0] and [ny0] and for every box inside that shape, each cropped
    field has the shape [(imax - imin + 1, jmax - jmin + 1)], the cropped [y]
    axis has as many values as there are rows and the cropped [x] axis as
    many as there are columns, and the export writes four point lists that
    have the same header [nx], [ny] and are laid over the same two cropped
    axes. *)
Theorem crop_export_consistent (glacier : string) (b : box) (x y : axis)
    (vx vy ex ey : field) (ny0 nx0 : nat) (w : world) :
  has_shape vx ny0 nx0 = true → has_shape vy ny0 nx0 = true →
  has_shape ex ny0 nx0 = true → has_shape ey ny0 nx0 = true →
  length x = nx0 → length y = ny0 →
  in_range b ny0 nx0 →
  out_ready w glacier = true →
  let c := crop b x y vx vy ex ey in
  let ny := Z.to_nat (imax b - imin b + 1) in
  let nx := Z.to_nat (jmax b - jmin b + 1) in
  has_shape (c_vx c) ny nx = true ∧ has_shape (c_vy c) ny nx = true ∧
  has_shape (c_ex c) ny nx = true ∧ has_shape (c_ey c) ny nx = true ∧
  length (c_y c) = ny ∧ length (c_x c) = nx ∧
  c_nx c = Z.of_nat nx ∧ c_ny c = Z.of_nat ny ∧
  ∃ w', export float_str glacier c w = (Ok tt, w') ∧
        exported float_str w' glacier nx ny c.
Proof.
  intros H1 H2 H3 H4 Hx Hy Hb Hready c ny nx.
  assert (Hxy : in_range b (length y) (length x)) by by rewrite Hx, Hy.
  destruct (crop_export_ok glacier b x y vx vy ex ey _ _ _ _ _ _ _ _ w
              H1 H2 H3 H4 Hb Hb Hb Hb Hxy Hready)
    as ((? & ? & ? & ? & ? & ? & ? & ?) & Hexp).
  by split_and!.
Qed.

(** C6, as the code has it. The crop compares no shapes and raises nothing:
    each array is sliced on its own. Whenever the box lies inside each of
    the four fields and inside the axes, whatever their shapes, every
    cropped field has the shape of the box and the export succeeds. *)
Theorem crop_checks_no_shape (glacier : string) (b : box) (x y : axis)
    (vx vy ex ey : field) (ny1 nx1 ny2 nx2 ny3 nx3 ny4 nx4 : nat) (w : world) :
  has_shape vx ny1 nx1 = true → has_shape vy ny2 nx2 = true →
  has_shape ex ny3 nx3 = true → has_shape ey ny4 nx4 = true →
  in_range b ny1 nx1 → in_range b ny2 nx2 →
  in_range b ny3 nx3 → in_range b ny4 nx4 →
  in_range b (length y) (length x) →
  out_ready w glacier = true →
  let c := crop b x y vx vy ex ey in
  let ny := Z.to_nat (imax b - imin b + 1) in
  let nx := Z.to_nat (jmax b - jmin b + 1) in
  has_shape (c_vx c) ny nx = true ∧ has_shape (c_vy c) ny nx = true ∧
  has_shape (c_ex c) ny nx = true ∧ has_shape (c_ey c) ny nx = true ∧
  ∃ w', export float_str glacier c w = (Ok tt, w') ∧
        exported float_str w' glacier nx ny c.
Proof.
  intros H1 H2 H3 H4 R1 R2 R3 R4 Rxy Hready c ny nx.
  destruct (crop_export_ok glacier b x y vx vy ex ey _ _ _ _ _ _ _ _ w
              H1 H2 H3 H4 R1 R2 R3 R4 Rxy Hready)
    as ((? & ? & ? & ? & ? & ? & ? & ?) & Hexp).
  by split_and!.
Qed.

End ExportTheorems.


(** ** The work on one glacier (lines 39-93) *)

Section VelocityTheorems.

Variable float_str : float → string.
Variable read_geodat : string → result (axis * axis * field).

Lemma path_exists_makedirs (w : world) (d p : string) :
  path_exists w p = true →
  path_exists (set_dirs ({[d]} ∪ dirs w) w) p = true.
Proof.
  unfold path_exists, is_dir, is_file. simpl.
  rewrite !orb_true_iff, !bool_decide_eq_true.
  intros [Hd|Hf]; [left|by right]. apply elem_of_union. by right.
Qed.

(** Past the test of the directory: if one of the four outputs exists,
    nothing is done but the print. *)
Lemma velocity_skip_tail (glacier : string) (w : world) :
  path_exists w (glacier +:+ "/UDEM.xy") = true ∨
  path_exists w (glacier +:+ "/VDEM.xy") = true ∨
  path_exists w (glacier +:+ "/EUDEM.xy") = true ∨
  path_exists w (glacier +:+ "/EVDEM.xy") = true →
  (made ← orM (os_path_exists (glacier +:+ "/UDEM.xy"))
          (orM (os_path_exists (glacier +:+ "/VDEM.xy"))
          (orM (os_path_exists (glacier +:+ "/EUDEM.xy"))
               (os_path_exists (glacier +:+ "/EVDEM.xy"))));
   (if negb made then make_velocity float_str read_geodat glacier
    else retM tt);;
   print ("Done making velocity data for " +:+ glacier)) w
  = (Ok tt,
     set_stdout (stdout w ++ ["Done making velocity data for " +:+ glacier]) w).
Proof.
  intros Hany.
  unfold mbind, M_bind, orM, bindM, os_path_exists, retM, print.
  destruct (path_exists w (glacier +:+ "/UDEM.xy")); [done|].
  destruct (path_exists w (glacier +:+ "/VDEM.xy")); [done|].
  destruct (path_exists w (glacier +:+ "/EUDEM.xy")); [done|].
  destruct (path_exists w (glacier +:+ "/EVDEM.xy")); [done|].
  by destruct Hany as [?|[?|[?|?]]].
Qed.

(** If one of the four outputs exists, the body does nothing but print. *)
Lemma velocity_body_skip_any (glacier : string) (w : world) :
  path_exists w (glacier +:+ "/UDEM.xy") = true ∨
  path_exists w (glacier +:+ "/VDEM.xy") = true ∨
  path_exists w (glacier +:+ "/EUDEM.xy") = true ∨
  path_exists w (glacier +:+ "/EVDEM.xy") = true →
  ∃ w', velocity_body float_str read_geodat glacier w = (Ok tt, w') ∧
        files w' = files w ∧ geodat_reads w' = geodat_reads w ∧
        stdout w' = stdout w ++ ["Done making velocity data for " +:+ glacier].
Proof.
  intros Hany. unfold velocity_body.
  unfold mbind at 1, M_bind at 1, bindM at 1, os_path_exists at 1.
  destruct (path_exists w glacier) eqn:He; cbn [negb].
  - unfold mbind at 1, M_bind at 1, bindM at 1, retM at 1.
    rewrite (velocity_skip_tail glacier w Hany). by eexists.
  - unfold mbind at 1, M_bind at 1, bindM at 1, os_makedirs. rewrite He.
    rewrite velocity_skip_tail.
    + by eexists.
    + destruct Hany as [?|[?|[?|?]]];
        [left|right; left|right; right; left|right; right; right];
        by apply path_exists_makedirs.
Qed.

(** C7. When the four output files of a glacier exist, whatever they hold,
    the loop body goes straight to its final message: no grid file is read
    and no file is created or changed, so nothing is detected, cropped or
    exported. (The test is made before any of that work, and one existing
    output is already enough for the skip.) *)
Theorem velocity_body_skips_when_made (glacier : string) (w : world) :
  path_exists w (glacier +:+ "/UDEM.xy") = true →
  path_exists w (glacier +:+ "/VDEM.xy") = true →
  path_exists w (glacier +:+ "/EUDEM.xy") = true →
  path_exists w (glacier +:+ "/EVDEM.xy") = true →
  ∃ w', velocity_body float_str read_geodat glacier w = (Ok tt, w') ∧
        files w' = files w ∧ geodat_reads w' = geodat_reads w ∧
        stdout w' = stdout w ++ ["Done making velocity data for " +:+ glacier].
Proof.
  intros Hu _ _ _. apply velocity_body_skip_any. by left.
Qed.

Lemma detect_block5 (a b c d : float) :
  ne_sentinel a = true → ne_sentinel b = true →
  ne_sentinel c = true → ne_sentinel d = true →
  detect (block5 a b c d) = Ok (Box (-1) 4 (-1) 4).
Proof.
  intros Ha Hb Hc Hd. unfold detect, detect_margin, block5. cbn [map].
  rewrite Ha, Hb, Hc, Hd.
  replace (ne_sentinel sentinel) with false by (by vm_compute).
  reflexivity.
Qed.

(** C2, as the code has it. On the 5x5 field that is the sentinel everywhere
    but in the block of rows 1-2 and columns 1-2, the detection yields the
    box [(-1, 4, -1, 4)]. The crop with this box raises nothing: the start
    [-1] of each slice is counted from the end, so that each of the four
    cropped fields is the single cell [(4, 4)] of its field and each cropped
    axis is its last value, while [nx = ny = 6]. The failure comes
    afterwards, in the export, as the [IndexError] of [y[1]], after the
    header and one line were written to each of the four files. *)
Theorem block5_crop_wraps (a b c d : float) (x y : axis) (vy ex ey : field)
    (glacier : string) (w : world) :
  ne_sentinel a = true → ne_sentinel b = true →
  ne_sentinel c = true → ne_sentinel d = true →
  length x = 5%nat → length y = 5%nat →
  has_shape vy 5 5 = true → has_shape ex 5 5 = true →
  has_shape ey 5 5 = true →
  out_ready w glacier = true →
  detect (block5 a b c d) = Ok (Box (-1) 4 (-1) 4) ∧
  ∃ (x4 y4 v2 v3 v4 : float),
    x !! 4%nat = Some x4 ∧ y !! 4%nat = Some y4 ∧
    vy !! 4%nat ≫= (λ row, row !! 4%nat) = Some v2 ∧
    ex !! 4%nat ≫= (λ row, row !! 4%nat) = Some v3 ∧
    ey !! 4%nat ≫= (λ row, row !! 4%nat) = Some v4 ∧
    crop (Box (-1) 4 (-1) 4) x y (block5 a b c d) vy ex ey =
      Cropped [[sentinel]] [[v2]] [[v3]] [[v4]] [x4] [y4] 6 6 ∧
    ∃ w',
      export float_str glacier
        (crop (Box (-1) 4 (-1) 4) x y (block5 a b c d) vy ex ey) w
      = (Raise IndexError, w') ∧
      files w' !! (glacier +:+ "/UDEM.xy") =
        Some (("6" +:+ nl +:+ "6" +:+ nl) +:+
              (float_str x4 +:+ " " +:+ float_str y4 +:+ " "
               +:+ float_str sentinel +:+ nl)) ∧
      files w' !! (glacier +:+ "/VDEM.xy") =
        Some (("6" +:+ nl +:+ "6" +:+ nl) +:+
              (float_str x4 +:+ " " +:+ float_str y4 +:+ " "
               +:+ float_str v2 +:+ nl)) ∧
      files w' !! (glacier +:+ "/EUDEM.xy") =
        Some (("6" +:+ nl +:+ "6" +:+ nl) +:+
              (float_str x4 +:+ " " +:+ float_str y4 +:+ " "
               +:+ float_str v3 +:+ nl)) ∧
      files w' !! (glacier +:+ "/EVDEM.xy") =
        Some (("6" +:+ nl +:+ "6" +:+ nl) +:+
              (float_str x4 +:+ " " +:+ float_str y4 +:+ " "
               +:+ float_str v4 +:+ nl)).
Proof.
  intros Ha Hb Hc Hd Hx Hy H2 H3 H4 Hready.
  split; [by apply detect_block5|].
  destruct (lookup_lt_is_Some_2 x 4) as [x4 Hx4]; [lia|].
  destruct (lookup_lt_is_Some_2 y 4) as [y4 Hy4]; [lia|].
  destruct (slice2_last vy 4 4 H2) as (r2 & v2 & Hr2 & Hv2 & Hs2).
  destruct (slice2_last ex 4 4 H3) as (r3 & v3 & Hr3 & Hv3 & Hs3).
  destruct (slice2_last ey 4 4 H4) as (r4 & v4 & Hr4 & Hv4 & Hs4).
  exists x4, y4, v2, v3, v4. split; [done|]. split; [done|].
  split; [by rewrite Hr2|]. split; [by rewrite Hr3|]. split; [by rewrite Hr4|].
  assert (Hcrop :
    crop (Box (-1) 4 (-1) 4) x y (block5 a b c d) vy ex ey =
      Cropped [[sentinel]] [[v2]] [[v3]] [[v4]] [x4] [y4] 6 6).
  { unfold crop. cbn [imin imax jmin jmax].
    change (4 + 1) with (Z.of_nat 5). rewrite Hs2, Hs3, Hs4.
    rewrite (slice_last x 4 x4 Hx Hx4), (slice_last y 4 y4 Hy Hy4).
    reflexivity. }
  split; [exact Hcrop|]. rewrite Hcrop.
  destruct (export_raises_second_row float_str glacier
              (Cropped [[sentinel]] [[v2]] [[v3]] [[v4]] [x4] [y4] 6 6)
              5 4 _ _ _ _ w Hready eq_refl eq_refl eq_refl
              eq_refl eq_refl eq_refl eq_refl) as (w' & Hrun & Hfour).
  exists w'. split; [exact Hrun|]. exact Hfour.
Qed.

End VelocityTheorems.

(** ** [generate_sif_file] *)

Section SifTheorems.

Variable format_sif : float → string → Z → string.

Lemma open_w_result (p : string) (w : world) :
  (∃ w', open_w p w = (Ok p, w')) ∨ open_w p w = (Raise (OSError p), w).
Proof.
  unfold open_w. destruct (is_dir w p); [by right|].
  destruct (dirname p) as [d|]; [|by eauto].
  destruct (bool_decide (d = EmptyString) || is_dir w d); eauto.
Qed.

Lemma glacier_names_spec (name : string) :
  name ∈ glacier_names ↔
  name = "helheim" ∨ name = "jakobshavn" ∨ name = "kangerd".
Proof.
  unfold glacier_names. rewrite !elem_of_cons, elem_of_nil. tauto.
Qed.

(** C9. [generate_sif_file] raises the [ValueError] of an unknown glacier
    exactly when the name is none of helheim, jakobshavn and kangerd; so it
    does for [disko], and each of the three names passes the validation. *)
Theorem generate_sif_file_validates (glacier_name : string)
    (file_name : option string) (regularization : float)
    (max_iterations : Z) (w : world) :
  (fst (generate_sif_file format_sif glacier_name file_name regularization
          max_iterations w)
   = Raise (ValueError
       "Glacier name must be either jakobshavn, helheim or kangerd.")
   ↔ ¬ (glacier_name = "helheim" ∨ glacier_name = "jakobshavn" ∨
        glacier_name = "kangerd")) ∧
  fst (generate_sif_file format_sif "disko" file_name regularization
         max_iterations w)
  = Raise (ValueError
      "Glacier name must be either jakobshavn, helheim or kangerd.").
Proof.
  split; [|reflexivity].
  rewrite <- glacier_names_spec. unfold generate_sif_file.
  destruct (bool_decide (glacier_name ∈ glacier_names)) eqn:Hin; cbn [negb].
  - apply bool_decide_eq_true in Hin. split; [|done].
    unfold mbind, M_bind, bindM.
    match goal with |- context [open_w ?p w] =>
      destruct (open_w_result p w) as [[w' ->]| ->] end; simpl; done.
  - apply bool_decide_eq_false in Hin. done.
Qed.

(** C10. With a glacier name outside the three, [generate_sif_file] raises
    before it opens the destination: the world, and with it every file, is
    what it was. *)
Theorem generate_sif_file_invalid_no_io (glacier_name : string)
    (file_name : option string) (regularization : float)
    (max_iterations : Z) (w : world) :
  ¬ (glacier_name = "helheim" ∨ glacier_name = "jakobshavn" ∨
     glacier_name = "kangerd") →
  generate_sif_file format_sif glacier_name file_name regularization
    max_iterations w
  = (Raise (ValueError
       "Glacier name must be either jakobshavn, helheim or kangerd."), w).
Proof.
  rewrite <- glacier_names_spec. intros Hin. unfold generate_sif_file.
  by rewrite bool_decide_eq_false_2.
Qed.

End SifTheorems.

(** ** The properties at concrete inputs *)

Lemma detect_exact_box_witness :
  ∃ rlo rhi clo chi : nat,
    tightest vx5 rlo rhi clo chi ∧
    detect_margin 2 vx5 =
      Ok (Box (Z.of_nat rlo - 2) (Z.of_nat rhi + 2)
              (Z.of_nat clo - 2) (Z.of_nat chi + 2)) ∧
    detect vx5 =
      Ok (Box (Z.of_nat rlo - 2) (Z.of_nat rhi + 2)
              (Z.of_nat clo - 2) (Z.of_nat chi + 2)).
Proof.
  apply (detect_exact_box 2 vx5). exists 1%nat, 1%nat. reflexivity.
Defined.

(** The end-to-end example on the code: the box is [(-1, 4, -1, 4)], the
    crop returns the single last cell and the last axis values instead of
    raising, and the run goes on into the export, where it stops with
    [IndexError] after the four files were created with the header [6], [6]
    and one line. *)
Lemma block5_crop_does_not_raise :
  detect vx5 = Ok (Box (-1) 4 (-1) 4) ∧
  crop (Box (-1) 4 (-1) 4) x5 y5 vx5 vx5 vx5 vx5 =
    Cropped [[sentinel]] [[sentinel]] [[sentinel]] [[sentinel]]
            [400%float] [50%float] 6 6 ∧
  ∃ w', velocity_body float_repr geodat5 "helheim" world0
        = (Raise IndexError, w') ∧
        files w' !! "helheim/UDEM.xy" =
          Some ("6" +:+ nl +:+ "6" +:+ nl +:+
                "400.0 50.0 -2000000000.0" +:+ nl) ∧
        stdout w' = [].
Proof.
  split; [by vm_compute|]. split; [by vm_compute|].
  eexists. split; [by vm_compute|]. split; by vm_compute.
Qed.

Lemma block5_crop_wraps_witness :
  detect (block5 1 2 3 4) = Ok (Box (-1) 4 (-1) 4) ∧
  ∃ (x4 y4 v2 v3 v4 : float),
    x5 !! 4%nat = Some x4 ∧ y5 !! 4%nat = Some y4 ∧
    flat5 !! 4%nat ≫= (λ row, row !! 4%nat) = Some v2 ∧
    centre5 !! 4%nat ≫= (λ row, row !! 4%nat) = Some v3 ∧
    vx5 !! 4%nat ≫= (λ row, row !! 4%nat) = Some v4 ∧
    crop (Box (-1) 4 (-1) 4) x5 y5 (block5 1 2 3 4) flat5 centre5 vx5 =
      Cropped [[sentinel]] [[v2]] [[v3]] [[v4]] [x4] [y4] 6 6 ∧
    ∃ w',
      export float_repr "helheim"
        (crop (Box (-1) 4 (-1) 4) x5 y5 (block5 1 2 3 4) flat5 centre5 vx5)
        world_helheim
      = (Raise IndexError, w') ∧
      files w' !! ("helheim" +:+ "/UDEM.xy") =
        Some (("6" +:+ nl +:+ "6" +:+ nl) +:+
              (float_repr x4 +:+ " " +:+ float_repr y4 +:+ " "
               +:+ float_repr sentinel +:+ nl)) ∧
      files w' !! ("helheim" +:+ "/VDEM.xy") =
        Some (("6" +:+ nl +:+ "6" +:+ nl) +:+
              (float_repr x4 +:+ " " +:+ float_repr y4 +:+ " "
               +:+ float_repr v2 +:+ nl)) ∧
      files w' !! ("helheim" +:+ "/EUDEM.xy") =
        Some (("6" +:+ nl +:+ "6" +:+ nl) +:+
              (float_repr x4 +:+ " " +:+ float_repr y4 +:+ " "
               +:+ float_repr v3 +:+ nl)) ∧
      files w' !! ("helheim" +:+ "/EVDEM.xy") =
        Some (("6" +:+ nl +:+ "6" +:+ nl) +:+
              (float_repr x4 +:+ " " +:+ float_repr y4 +:+ " "
               +:+ float_repr v4 +:+ nl)).
Proof.
  apply (block5_crop_wraps float_repr 1 2 3 4 x5 y5 flat5 centre5 vx5
           "helheim" world_helheim); by vm_compute.
Defined.

Lemma export_point_list_witness :
  ∃ w', export float_repr "helheim" cropped22 world_helheim = (Ok tt, w') ∧
    ∀ name f,
      (name, f) ∈ [("/UDEM.xy", c_vx cropped22); ("/VDEM.xy", c_vy cropped22);
                   ("/EUDEM.xy", c_ex cropped22);
                   ("/EVDEM.xy", c_ey cropped22)] →
      ∃ lines : list string,
        files w' !! ("helheim" +:+ name) =
          Some (pretty (Z.of_nat 2) +:+ nl +:+ pretty (Z.of_nat 2) +:+ nl
                +:+ cat lines) ∧
        length lines = (2 * 2)%nat ∧
        ∀ (j i : nat) (xj yi : float) (row : list float) (v : float),
          c_x cropped22 !! j = Some xj → c_y cropped22 !! i = Some yi →
          f !! i = Some row → row !! j = Some v →
          lines !! (j * 2 + i)%nat =
            Some (float_repr xj +:+ " " +:+ float_repr yi +:+ " "
                  +:+ float_repr v +:+ nl).
Proof.
  apply (export_point_list float_repr "helheim" cropped22 2 2 world_helheim);
    by vm_compute.
Defined.

Lemma crop_export_consistent_witness :
  in_range (Box 1 3 0 2) 5 5 ∧
  let c := crop (Box 1 3 0 2) x5 y5 vx5 vx5 vx5 vx5 in
  has_shape (c_vx c) 3 3 = true ∧ has_shape (c_vy c) 3 3 = true ∧
  has_shape (c_ex c) 3 3 = true ∧ has_shape (c_ey c) 3 3 = true ∧
  length (c_y c) = 3%nat ∧ length (c_x c) = 3%nat ∧
  c_nx c = 3 ∧ c_ny c = 3 ∧
  ∃ w', export float_repr "helheim" c world_helheim = (Ok tt, w') ∧
        exported float_repr w' "helheim" 3 3 c.
Proof.
  assert (Hb : in_range (Box 1 3 0 2) 5 5) by (unfold in_range; simpl; lia).
  split; [exact Hb|].
  apply (crop_export_consistent float_repr "helheim" (Box 1 3 0 2) x5 y5
           vx5 vx5 vx5 vx5 5 5 world_helheim);
    try exact Hb; by vm_compute.
Defined.

Lemma detect_all_sentinel_raises_witness :
  detect empty22 = Raise (ValueError "min() arg is an empty sequence") ∧
  ∀ m, detect_margin m empty22
       = Raise (ValueError "min() arg is an empty sequence").
Proof.
  apply (detect_all_sentinel_raises empty22). by vm_compute.
Defined.

(** Fields of different shapes, 5x5 and 6x6, go through the crop and the
    export without any failure: the 6x6 field is cut to the 5x5 box like the
    others. *)
Lemma crop_mixed_shapes_no_failure :
  has_shape centre5 5 5 = true ∧ has_shape wide6 6 6 = true ∧
  detect centre5 = Ok (Box 0 4 0 4) ∧
  has_shape (c_vy (crop (Box 0 4 0 4) x5 y5 centre5 wide6 centre5 centre5))
            5 5 = true ∧
  ∃ w', velocity_body float_repr geodat_mixed "helheim" world0 = (Ok tt, w') ∧
        stdout w' = ["Done making velocity data for helheim"] ∧
        is_file w' "helheim/VDEM.xy" = true.
Proof.
  split; [by vm_compute|]. split; [by vm_compute|]. split; [by vm_compute|].
  split; [by vm_compute|].
  eexists. split; [by vm_compute|]. split; by vm_compute.
Qed.

Lemma crop_checks_no_shape_witness :
  let c := crop (Box 0 4 0 4) x5 y5 centre5 wide6 centre5 centre5 in
  has_shape (c_vx c) 5 5 = true ∧ has_shape (c_vy c) 5 5 = true ∧
  has_shape (c_ex c) 5 5 = true ∧ has_shape (c_ey c) 5 5 = true ∧
  ∃ w', export float_repr "helheim" c world_helheim = (Ok tt, w') ∧
        exported float_repr w' "helheim" 5 5 c.
Proof.
  assert (H5 : in_range (Box 0 4 0 4) 5 5) by (unfold in_range; simpl; lia).
  assert (H6 : in_range (Box 0 4 0 4) 6 6) by (unfold in_range; simpl; lia).
  apply (crop_checks_no_shape float_repr "helheim" (Box 0 4 0 4) x5 y5
           centre5 wide6 centre5 centre5 5 5 6 6 5 5 5 5 world_helheim);
    try exact H5; try exact H6; by vm_compute.
Defined.

Lemma velocity_body_skips_when_made_witness :
  ∃ w', velocity_body float_repr geodat5 "helheim" world_made = (Ok tt, w') ∧
        files w' = files world_made ∧
        geodat_reads w' = geodat_reads world_made ∧
        stdout w' = stdout world_made
                    ++ ["Done making velocity data for " +:+ "helheim"].
Proof.
  apply (velocity_body_skips_when_made float_repr geodat5 "helheim" world_made);
    by vm_compute.
Defined.

Lemma generate_sif_file_invalid_no_io_witness :
  generate_sif_file (λ _ _ _, "text") "disko" None 1.0e10%float 50 world0
  = (Raise (ValueError
       "Glacier name must be either jakobshavn, helheim or kangerd."), world0).
Proof.
  apply (generate_sif_file_invalid_no_io (λ _ _ _, "text") "disko" None
           1.0e10%float 50 world0).
  intros [H|[H|H]]; discriminate H.
Defined.

(** ** More on the detection and the crop *)

(** A box is returned only for a field with a valid cell, and it is the
    tightest rectangle widened by the margin. *)
Lemma detect_margin_ok_inv (m : Z) (f : field) (b : box) :
  detect_margin m f = Ok b →
  ∃ rlo rhi clo chi : nat,
    tightest f rlo rhi clo chi ∧
    b = Box (Z.of_nat rlo - m) (Z.of_nat rhi + m)
            (Z.of_nat clo - m) (Z.of_nat chi + m).
Proof.
  intros Hd.
  destruct (where_from 0 (map (map ne_sentinel) f)) as [|[a c] hits] eqn:Hh.
  - unfold detect_margin, np_where in Hd. by rewrite Hh in Hd.
  - assert (Hin : (a, c) ∈ where_from 0 (map (map ne_sentinel) f))
      by (rewrite Hh; constructor).
    apply hits_valid in Hin as (i & j & _ & _ & Hv).
    destruct (detect_margin_tightest m f) as (rlo & rhi & clo & chi & Hd' & Ht);
      [by eauto|].
    exists rlo, rhi, clo, chi. split; [done|]. congruence.
Qed.

Lemma tightest_ordered (f : field) (a b c d : nat) :
  tightest f a b c d → (a ≤ b)%nat ∧ (c ≤ d)%nat.
Proof.
  intros (Hin & [ja Ha] & _). pose proof (Hin _ _ Ha). lia.
Qed.



(** The detected box lies inside the array exactly when every valid cell is
    at least two cells away from each border: this is the padding that the
    fixed margin of 2 needs. *)
Theorem detect_in_range_iff_padded (f : field) (ny nx : nat) (b : box) :
  has_shape f ny nx = true →
  detect f = Ok b →
  in_range b ny nx ↔ padded2 f ny nx.
Proof.
  intros Hs Hd.
  apply detect_margin_ok_inv in Hd as (rlo & rhi & clo & chi & Ht & ->).
  pose proof (tightest_ordered _ _ _ _ _ Ht).
  pose proof Ht as (Hin & [ja Ha] & [jb Hb] & [ic Hc] & [id Hdd]).
  unfold in_range, padded2; simpl. split.
  - intros Hr i j Hv. pose proof (Hin _ _ Hv). lia.
  - intros Hp. pose proof (Hp _ _ Ha). pose proof (Hp _ _ Hb).
    pose proof (Hp _ _ Hc). pose proof (Hp _ _ Hdd). lia.
Qed.

(** The crop keeps the fields and the axes aligned: inside the box, the cell
    [(i, j)] of each cropped field is the cell [(imin + i, jmin + j)] of the
    field, and the cropped axes are shifted in the same way. *)
Theorem crop_keeps_alignment (b : box) (x y : axis) (vx vy ex ey : field)
    (i j : nat) :
  0 ≤ imin b → 0 ≤ jmin b →
  Z.of_nat i ≤ imax b - imin b → Z.of_nat j ≤ jmax b - jmin b →
  let c := crop b x y vx vy ex ey in
  let i0 := Z.to_nat (imin b + Z.of_nat i) in
  let j0 := Z.to_nat (jmin b + Z.of_nat j) in
  c_x c !! j = x !! j0 ∧ c_y c !! i = y !! i0 ∧
  c_vx c !! i ≫= (λ row, row !! j) = vx !! i0 ≫= (λ row, row !! j0) ∧
  c_vy c !! i ≫= (λ row, row !! j) = vy !! i0 ≫= (λ row, row !! j0) ∧
  c_ex c !! i ≫= (λ row, row !! j) = ex !! i0 ≫= (λ row, row !! j0) ∧
  c_ey c !! i ≫= (λ row, row !! j) = ey !! i0 ≫= (λ row, row !! j0).
Proof.
  intros Hi0 Hj0 Hi Hj c i0 j0. subst c. unfold crop; simpl.
  destruct b as [a a' k k']; simpl in *.
  replace a with (Z.of_nat (Z.to_nat a)) at 1 2 3 4 5 by lia.
  replace (a' + 1) with (Z.of_nat (Z.to_nat (a' + 1))) by lia.
  replace k with (Z.of_nat (Z.to_nat k)) at 1 2 3 4 5 by lia.
  replace (k' + 1) with (Z.of_nat (Z.to_nat (k' + 1))) by lia.
  replace i0 with (Z.to_nat a + i)%nat by (subst i0; lia).
  replace j0 with (Z.to_nat k + j)%nat by (subst j0; lia).
  split_and!; (apply slice_lookup || apply slice2_lookup); lia.
Qed.


(** The detected box inside the array, in natural numbers. *)
Lemma detect_in_range_inv (f : field) (ny nx : nat) (b : box) :
  has_shape f ny nx = true → detect f = Ok b → in_range b ny nx →
  ∃ rlo rhi clo chi : nat,
    tightest f rlo rhi clo chi ∧
    (2 ≤ rlo)%nat ∧ (rlo ≤ rhi)%nat ∧ (rhi + 2 < ny)%nat ∧
    (2 ≤ clo)%nat ∧ (clo ≤ chi)%nat ∧ (chi + 2 < nx)%nat ∧
    b = Box (Z.of_nat (rlo - 2)) (Z.of_nat (rhi + 2))
            (Z.of_nat (clo - 2)) (Z.of_nat (chi + 2)).
Proof.
  intros Hs Hd Hr.
  apply detect_margin_ok_inv in Hd as (rlo & rhi & clo & chi & Ht & ->).
  pose proof (tightest_ordered _ _ _ _ _ Ht).
  unfold in_range in Hr; simpl in Hr.
  exists rlo, rhi, clo, chi. split_and!; try done; try lia.
  f_equal; lia.
Qed.


(** Cropping the velocity by the box detected on it, when the box lies
    inside the array: the cropped velocity has the shape of the box, no
    valid cell is lost, and the two outermost rows and columns of the
    cropped velocity hold no valid cell, the margin being made of cells
    without data. *)
Theorem crop_keeps_valid_cells (b : box) (x y : axis) (vx vy ex ey : field)
    (ny nx : nat) :
  has_shape vx ny nx = true →
  detect vx = Ok b →
  in_range b ny nx →
  let f' := c_vx (crop b x y vx vy ex ey) in
  has_shape f' (box_ny b) (box_nx b) = true ∧
  (∀ i j, valid_cell vx i j = true →
     valid_cell f' (i - Z.to_nat (imin b)) (j - Z.to_nat (jmin b)) = true) ∧
  padded2 f' (box_ny b) (box_nx b).
Proof.
  intros Hs Hd Hr f'. subst f'.
  split; [unfold crop; simpl; by apply (slice2_in_range b vx ny nx)|].
  destruct (detect_in_range_inv vx ny nx b Hs Hd Hr)
    as (rlo & rhi & clo & chi & Ht & ? & ? & ? & ? & ? & ? & ->).
  unfold crop, box_ny, box_nx, padded2; simpl.
  replace (Z.of_nat (rhi + 2) + 1) with (Z.of_nat (S (rhi + 2))) by lia.
  replace (Z.of_nat (chi + 2) + 1) with (Z.of_nat (S (chi + 2))) by lia.
  destruct Ht as (Hin & _). split.
  - intros i j Hv. pose proof (Hin _ _ Hv).
    rewrite valid_cell_slice2, decide_True by lia.
    rewrite <- Hv. f_equal; lia.
  - intros i j. rewrite valid_cell_slice2. case_decide; [|done].
    intros Hv. pose proof (Hin _ _ Hv). lia.
Qed.

(** ** What the statements do to the world *)

Section Effects.

Variable R : world → world → Prop.
Hypothesis R_refl : ∀ w, R w w.
Hypothesis R_trans : ∀ a b c, R a b → R b c → R a c.

Lemma respects_ret {A} (a : A) : respects R (retM a).
Proof. intros w. apply R_refl. Qed.

Lemma respects_raise {A} (e : exn) : respects R (@raiseM A e).
Proof. intros w. apply R_refl. Qed.

Lemma respects_lift {A} (r : result A) : respects R (liftM r).
Proof. intros w. apply R_refl. Qed.

Lemma respects_bind {A B} (m : M A) (k : A → M B) :
  respects R m →
  (∀ a w w', m w = (Ok a, w') → respects R (k a)) →
  respects R (bindM m k).
Proof.
  intros Hm Hk w. unfold bindM. specialize (Hm w).
  destruct (m w) as [[a|e] w1] eqn:Hmw; simpl in *; [|done].
  eapply R_trans; [exact Hm|]. by apply (Hk a w w1).
Qed.

Lemma respects_for_each {A} (l : list A) (body : A → M unit) :
  (∀ v, v ∈ l → respects R (body v)) → respects R (for_each l body).
Proof.
  induction l as [|v l IH]; intros Hbody; simpl.
  - apply respects_ret.
  - apply respects_bind.
    + apply Hbody. constructor.
    + intros _ _ _ _. apply IH. intros u Hu. apply Hbody. by constructor.
Qed.

Lemma respects_if {A} (c : bool) (m1 m2 : M A) :
  respects R m1 → respects R m2 → respects R (if c then m1 else m2).
Proof. by destruct c. Qed.

End Effects.

Lemma only_files_refl (P : string → Prop) (w : world) : only_files P w w.
Proof. by unfold only_files. Qed.

Lemma only_files_trans (P : string → Prop) (a b c : world) :
  only_files P a b → only_files P b c → only_files P a c.
Proof.
  intros (Hd1 & Ho1 & Hr1 & Hf1 & Hm1) (Hd2 & Ho2 & Hr2 & Hf2 & Hm2).
  unfold only_files. split_and!; try congruence.
  - intros p Hp. by rewrite Hf2, Hf1.
  - intros p Hp. by apply Hm2, Hm1.
Qed.

Lemma open_w_value (p a : string) (w w' : world) :
  open_w p w = (Ok a, w') → a = p ∧ is_file w' p = true.
Proof.
  unfold open_w. intros Ho.
  assert (Hins : is_file (set_files (<[p:=EmptyString]> (files w)) w) p = true).
  { unfold is_file. simpl. apply bool_decide_eq_true.
    rewrite lookup_insert_eq. by eexists. }
  destruct (is_dir w p); [done|].
  destruct (dirname p) as [d|].
  - destruct (bool_decide (d = EmptyString) || is_dir w d); [|done].
    by injection Ho as <- <-.
  - by injection Ho as <- <-.
Qed.

Lemma insert_only_files (P : string → Prop) (p c : string) (w : world) :
  P p → only_files P w (set_files (<[p:=c]> (files w)) w).
Proof.
  intros Hp. unfold only_files, is_file; simpl. split_and!; try done.
  - intros q Hq. apply lookup_insert_ne. by intros ->.
  - intros q. rewrite !bool_decide_eq_true. intros Hq.
    destruct (decide (p = q)) as [->|Hne].
    + rewrite lookup_insert_eq. by eexists.
    + by rewrite lookup_insert_ne.
Qed.

Lemma open_w_only_files (P : string → Prop) (p : string) :
  P p → respects (only_files P) (open_w p).
Proof.
  intros Hp w. unfold open_w.
  destruct (is_dir w p); [apply only_files_refl|].
  destruct (dirname p) as [d|].
  - destruct (bool_decide (d = EmptyString) || is_dir w d); simpl.
    + by apply insert_only_files.
    + apply only_files_refl.
  - by apply insert_only_files.
Qed.

Lemma file_write_only_files (P : string → Prop) (fid s : string) :
  P fid → respects (only_files P) (file_write fid s).
Proof.
  intros Hp w. unfold file_write, only_files, is_file; simpl.
  split_and!; try done.
  - intros q Hq. apply lookup_alter_ne. by intros ->.
  - intros q. rewrite !bool_decide_eq_true. intros Hq.
    destruct (decide (fid = q)) as [->|Hne].
    + rewrite lookup_alter_eq. destruct Hq as [c ->]. by eexists.
    + by rewrite lookup_alter_ne.
Qed.

Lemma only_files_bind (P : string → Prop) {A B} (m : M A) (k : A → M B) :
  respects (only_files P) m →
  (∀ a w w', m w = (Ok a, w') → respects (only_files P) (k a)) →
  respects (only_files P) (bindM m k).
Proof. apply respects_bind, only_files_trans. Qed.

Lemma only_files_for_each (P : string → Prop) {A} (l : list A)
    (body : A → M unit) :
  (∀ v, v ∈ l → respects (only_files P) (body v)) →
  respects (only_files P) (for_each l body).
Proof.
  apply respects_for_each; [apply only_files_refl | apply only_files_trans].
Qed.

Lemma write_point_only_files (P : string → Prop) (float_str : float → string)
    (fid : string) (x y : axis) (f : field) (i j : Z) :
  P fid → respects (only_files P) (write_point float_str fid x y f i j).
Proof.
  intros Hp. unfold write_point, mbind, M_bind.
  repeat (apply only_files_bind;
    [apply respects_lift, only_files_refl | intros ? _ _ _]).
  by apply file_write_only_files.
Qed.

Lemma export_only_files (float_str : float → string) (glacier : string)
    (c : cropped) :
  respects (only_files (λ p, p ∈ outputs glacier))
           (export float_str glacier c).
Proof.
  set (P := λ p, p ∈ outputs glacier).
  assert (Hfour : ∀ fid, fid ∈ outputs glacier → P fid) by done.
  assert (Pu : P (glacier +:+ "/UDEM.xy")) by (apply Hfour; unfold outputs; rewrite !elem_of_cons; auto 6).
  assert (Pv : P (glacier +:+ "/VDEM.xy")) by (apply Hfour; unfold outputs; rewrite !elem_of_cons; auto 6).
  assert (Peu : P (glacier +:+ "/EUDEM.xy")) by (apply Hfour; unfold outputs; rewrite !elem_of_cons; auto 6).
  assert (Pev : P (glacier +:+ "/EVDEM.xy")) by (apply Hfour; unfold outputs; rewrite !elem_of_cons; auto 6).
  unfold export, mbind, M_bind.
  do 4 (apply only_files_bind;
    [by apply open_w_only_files | intros ? ? ? [-> _]%open_w_value]).
  apply only_files_bind; [|intros _ _ _ _].
  { apply only_files_for_each. intros fid Hfid.
    apply file_write_only_files. by apply Hfour. }
  apply only_files_bind; [|intros _ _ _ _].
  { apply only_files_for_each. intros j _.
    apply only_files_for_each. intros i _.
    repeat (apply only_files_bind;
      [by apply write_point_only_files | intros _ _ _ _]).
    by apply write_point_only_files. }
  apply only_files_for_each. intros fid _. apply respects_ret, only_files_refl.
Qed.

(** The export past the four [open]s, for any four handles. *)
Lemma export_tail_only_files (P : string → Prop) (float_str : float → string)
    (p1 p2 p3 p4 header : string) (c : cropped) :
  P p1 → P p2 → P p3 → P p4 →
  respects (only_files P)
    (bindM (for_each [p1; p2; p3; p4] (λ fid, file_write fid header))
       (λ _, bindM
          (for_each (py_range (c_nx c)) (λ j,
             for_each (py_range (c_ny c)) (λ i,
               bindM (write_point float_str p1 (c_x c) (c_y c) (c_vx c) i j)
                 (λ _, bindM
                    (write_point float_str p2 (c_x c) (c_y c) (c_vy c) i j)
                    (λ _, bindM
                       (write_point float_str p3 (c_x c) (c_y c) (c_ex c) i j)
                       (λ _,
                          write_point float_str p4 (c_x c) (c_y c) (c_ey c)
                            i j))))))
          (λ _, for_each [p1; p2; p3; p4] file_close))).
Proof.
  intros H1 H2 H3 H4.
  assert (Hfour : ∀ fid, fid ∈ [p1; p2; p3; p4] → P fid).
  { intros fid. rewrite !elem_of_cons, elem_of_nil.
    intros [->|[->|[->|[->|[]]]]]; done. }
  apply only_files_bind; [|intros _ _ _ _].
  { apply only_files_for_each. intros fid Hfid.
    apply file_write_only_files. by apply Hfour. }
  apply only_files_bind; [|intros _ _ _ _].
  { apply only_files_for_each. intros j _.
    apply only_files_for_each. intros i _.
    repeat (apply only_files_bind;
      [by apply write_point_only_files | intros _ _ _ _]).
    by apply write_point_only_files. }
  apply only_files_for_each. intros fid _. apply respects_ret, only_files_refl.
Qed.

(** Once the four files are open they exist, however the export ends. *)
Lemma export_opened (float_str : float → string) (glacier : string)
    (c : cropped) (w : world) :
  out_ready w glacier = true →
  ∀ p, p ∈ outputs glacier →
       is_file (snd (export float_str glacier c w)) p = true.
Proof.
  intros Hready p Hp.
  unfold out_ready in Hready. rewrite !andb_true_iff, !negb_true_iff in Hready.
  destruct Hready as ((((Hdir & Hu) & Hv) & Heu) & Hev).
  unfold export, mbind, M_bind.
  erewrite bindM_ok by
    (apply (open_w_ok _ glacier);
     [exact Hu | exact (dirname_app glacier "UDEM.xy" eq_refl) | exact Hdir]).
  erewrite bindM_ok by
    (apply (open_w_ok _ glacier);
     [exact Hv | exact (dirname_app glacier "VDEM.xy" eq_refl) | exact Hdir]).
  erewrite bindM_ok by
    (apply (open_w_ok _ glacier);
     [exact Heu | exact (dirname_app glacier "EUDEM.xy" eq_refl) | exact Hdir]).
  erewrite bindM_ok by
    (apply (open_w_ok _ glacier);
     [exact Hev | exact (dirname_app glacier "EVDEM.xy" eq_refl) | exact Hdir]).
  match goal with |- is_file (snd (_ ?w0)) p = true => set (w1 := w0) end.
  pose proof (export_tail_only_files (λ _, True) float_str
                (glacier +:+ "/UDEM.xy") (glacier +:+ "/VDEM.xy")
                (glacier +:+ "/EUDEM.xy") (glacier +:+ "/EVDEM.xy")
                (pretty (c_nx c) +:+ nl +:+ pretty (c_ny c) +:+ nl) c
                I I I I w1) as (_ & _ & _ & _ & Hmono).
  apply Hmono. subst w1. unfold is_file. simpl. apply bool_decide_eq_true.
  unfold outputs in Hp. rewrite !elem_of_cons, elem_of_nil in Hp.
  destruct Hp as [->|[->|[->|[->|[]]]]].
  - destruct (decide (glacier +:+ "/EVDEM.xy" = glacier +:+ "/UDEM.xy"))
      as [->|?]; [rewrite lookup_insert_eq; by eexists|].
    rewrite lookup_insert_ne by done.
    destruct (decide (glacier +:+ "/EUDEM.xy" = glacier +:+ "/UDEM.xy"))
      as [->|?]; [rewrite lookup_insert_eq; by eexists|].
    rewrite lookup_insert_ne by done.
    destruct (decide (glacier +:+ "/VDEM.xy" = glacier +:+ "/UDEM.xy"))
      as [->|?]; [rewrite lookup_insert_eq; by eexists|].
    rewrite lookup_insert_ne by done.
    rewrite lookup_insert_eq; by eexists.
  - destruct (decide (glacier +:+ "/EVDEM.xy" = glacier +:+ "/VDEM.xy"))
      as [->|?]; [rewrite lookup_insert_eq; by eexists|].
    rewrite lookup_insert_ne by done.
    destruct (decide (glacier +:+ "/EUDEM.xy" = glacier +:+ "/VDEM.xy"))
      as [->|?]; [rewrite lookup_insert_eq; by eexists|].
    rewrite lookup_insert_ne by done.
    rewrite lookup_insert_eq; by eexists.
  - destruct (decide (glacier +:+ "/EVDEM.xy" = glacier +:+ "/EUDEM.xy"))
      as [->|?]; [rewrite lookup_insert_eq; by eexists|].
    rewrite lookup_insert_ne by done.
    rewrite lookup_insert_eq; by eexists.
  - rewrite lookup_insert_eq; by eexists.
Qed.

(** The export changes or creates nothing but the four outputs of the
    glacier, removes no file, makes no directory, prints nothing and reads
    no grid file, whether it succeeds or raises. *)
Theorem export_touches_only_outputs (float_str : float → string)
    (glacier : string) (c : cropped) (w : world) :
  let w' := snd (export float_str glacier c w) in
  dirs w' = dirs w ∧ stdout w' = stdout w ∧
  geodat_reads w' = geodat_reads w ∧
  (∀ p, p ∉ outputs glacier → files w' !! p = files w !! p) ∧
  (∀ p, is_file w p = true → is_file w' p = true).
Proof.
  intros w'. subst w'.
  destruct (export_only_files float_str glacier c w) as (Hd & Ho & Hr & Hf & Hm).
  by split_and!.
Qed.

(** ** When the export fails *)

Lemma py_index_beyond {A} (l : list A) (k : nat) :
  (length l ≤ k)%nat → py_index l (Z.of_nat k) = Raise IndexError.
Proof.
  intros Hk. unfold py_index.
  destruct (Z.ltb_spec (Z.of_nat k) 0); [lia|].
  destruct (Z.ltb_spec (Z.of_nat k) 0); [lia|].
  destruct (Z.leb_spec (Z.of_nat (length l)) (Z.of_nat k)); [|lia].
  by rewrite orb_true_r.
Qed.

(** An index either gives a value or raises [IndexError]. *)
Lemma py_index_cases {A} (l : list A) (k : Z) :
  (∃ v, py_index l k = Ok v) ∨ py_index l k = Raise IndexError.
Proof.
  unfold py_index.
  destruct ((_ <? 0) || (_ <=? _)); [by right|].
  destruct (l !! _); [left; by eexists|by right].
Qed.

Lemma write_point_cases (float_str : float → string) (fid : string)
    (x y : axis) (f : field) (i j : Z) (w : world) :
  (∃ w', write_point float_str fid x y f i j w = (Ok tt, w')) ∨
  write_point float_str fid x y f i j w = (Raise IndexError, w).
Proof.
  unfold write_point, py_index2, mbind, M_bind, bindM, liftM.
  destruct (py_index_cases x j) as [[xj ->]| ->]; [|by right].
  destruct (py_index_cases y i) as [[yi ->]| ->]; [|by right].
  destruct (py_index_cases f i) as [[row ->]| ->]; [|by right]. simpl.
  destruct (py_index_cases row j) as [[v ->]| ->]; [|by right].
  left. by eexists.
Qed.

(** A point outside one of the axes is not written. *)
Lemma write_point_raises (float_str : float → string) (fid : string)
    (x y : axis) (f : field) (i j : nat) (w : world) :
  (length x ≤ j)%nat ∨ (length y ≤ i)%nat →
  write_point float_str fid x y f (Z.of_nat i) (Z.of_nat j) w
  = (Raise IndexError, w).
Proof.
  intros Hout. unfold write_point, mbind, M_bind, bindM, liftM.
  destruct (py_index_cases x (Z.of_nat j)) as [[xj Hx]|Hx]; rewrite Hx;
    [|done].
  destruct Hout as [Hj|Hi].
  - by rewrite py_index_beyond in Hx.
  - by rewrite (py_index_beyond y i Hi).
Qed.

(** A loop whose passes end well or with [IndexError] ends in one of the
    two ways, and with [IndexError] if some pass cannot end well. *)
Lemma for_each_cases {A} (l : list A) (body : A → M unit) :
  (∀ v w, (∃ w', body v w = (Ok tt, w')) ∨
          (∃ w', body v w = (Raise IndexError, w'))) →
  ∀ w, (∃ w', for_each l body w = (Ok tt, w')) ∨
       (∃ w', for_each l body w = (Raise IndexError, w')).
Proof.
  intros Hbody. induction l as [|v l IH]; intros w; simpl.
  - left. by eexists.
  - unfold bindM. destruct (Hbody v w) as [[w1 ->]|[w1 ->]]; [apply IH|].
    right. by eexists.
Qed.

Lemma for_each_raises {A} (l : list A) (body : A → M unit) (u : A) :
  u ∈ l →
  (∀ v w, (∃ w', body v w = (Ok tt, w')) ∨
          (∃ w', body v w = (Raise IndexError, w'))) →
  (∀ w, ∃ w', body u w = (Raise IndexError, w')) →
  ∀ w, ∃ w', for_each l body w = (Raise IndexError, w').
Proof.
  intros Hin Hbody Hu. induction l as [|v l IH]; intros w.
  - by apply elem_of_nil in Hin.
  - simpl. unfold bindM. apply elem_of_cons in Hin as [<-|Hin].
    + destruct (Hu w) as [w1 ->]. by eexists.
    + destruct (Hbody v w) as [[w1 ->]|[w1 ->]]; [by apply IH|by eexists].
Qed.

Lemma elem_of_py_range (n : Z) (k : nat) :
  Z.of_nat k < n → Z.of_nat k ∈ py_range n.
Proof.
  intros Hk. unfold py_range. apply list_elem_of_fmap. exists k.
  split; [done|]. apply elem_of_seq. lia.
Qed.

Lemma py_range_elem (n z : Z) :
  z ∈ py_range n → ∃ k : nat, z = Z.of_nat k ∧ Z.of_nat k < n.
Proof.
  unfold py_range. intros (k & -> & Hk)%list_elem_of_fmap.
  apply elem_of_seq in Hk. exists k. split; [done|lia].
Qed.

Section ExportFailure.

Variable float_str : float → string.

(** One pass of the inner body of the export. *)
Lemma points_cases (p1 p2 p3 p4 : string) (x y : axis) (f1 f2 f3 f4 : field)
    (i j : Z) (w : world) :
  (∃ w',
     bindM (write_point float_str p1 x y f1 i j)
       (λ _, bindM (write_point float_str p2 x y f2 i j)
          (λ _, bindM (write_point float_str p3 x y f3 i j)
             (λ _, write_point float_str p4 x y f4 i j))) w = (Ok tt, w')) ∨
  (∃ w',
     bindM (write_point float_str p1 x y f1 i j)
       (λ _, bindM (write_point float_str p2 x y f2 i j)
          (λ _, bindM (write_point float_str p3 x y f3 i j)
             (λ _, write_point float_str p4 x y f4 i j))) w
     = (Raise IndexError, w')).
Proof.
  unfold bindM.
  destruct (write_point_cases float_str p1 x y f1 i j w) as [[w1 ->]| ->];
    [|right; by eexists].
  destruct (write_point_cases float_str p2 x y f2 i j w1) as [[w2 ->]| ->];
    [|right; by eexists].
  destruct (write_point_cases float_str p3 x y f3 i j w2) as [[w3 ->]| ->];
    [|right; by eexists].
  destruct (write_point_cases float_str p4 x y f4 i j w3) as [[w4 ->]| ->];
    [left|right]; by eexists.
Qed.

(** With an axis shorter than the box says, the two loops of the export
    raise [IndexError]. *)
Lemma loops_raise (p1 p2 p3 p4 : string) (x y : axis) (f1 f2 f3 f4 : field)
    (nx ny : Z) (w : world) :
  0 < nx → 0 < ny →
  Z.of_nat (length x) < nx ∨ Z.of_nat (length y) < ny →
  ∃ w',
    for_each (py_range nx) (λ j,
      for_each (py_range ny) (λ i,
        bindM (write_point float_str p1 x y f1 i j)
          (λ _, bindM (write_point float_str p2 x y f2 i j)
             (λ _, bindM (write_point float_str p3 x y f3 i j)
                (λ _, write_point float_str p4 x y f4 i j))))) w
    = (Raise IndexError, w').
Proof.
  intros Hnx Hny Hshort.
  set (body := λ j i,
    bindM (write_point float_str p1 x y f1 i j)
      (λ _, bindM (write_point float_str p2 x y f2 i j)
         (λ _, bindM (write_point float_str p3 x y f3 i j)
            (λ _, write_point float_str p4 x y f4 i j)))).
  assert (Hcases : ∀ j i w, (∃ w', body j i w = (Ok tt, w')) ∨
                            (∃ w', body j i w = (Raise IndexError, w')))
    by (intros; apply points_cases).
  assert (Hout : ∀ (j i : nat) w,
            (length x ≤ j)%nat ∨ (length y ≤ i)%nat →
            ∃ w', body (Z.of_nat j) (Z.of_nat i) w = (Raise IndexError, w')).
  { intros j i w0 Hji. exists w0. unfold body, bindM.
    by rewrite write_point_raises. }
  change (∃ w', for_each (py_range nx) (λ j, for_each (py_range ny) (body j)) w
                = (Raise IndexError, w')).
  destruct (decide (Z.of_nat (length y) < ny)) as [Hy|Hy].
  - apply (for_each_raises _ _ (Z.of_nat 0)).
    + apply elem_of_py_range. lia.
    + intros j w0. by apply for_each_cases.
    + intros w0. apply (for_each_raises _ _ (Z.of_nat (length y))).
      * by apply elem_of_py_range.
      * apply Hcases.
      * intros w1. apply Hout. by right.
  - assert (Hx : Z.of_nat (length x) < nx) by (destruct Hshort; [done|lia]).
    apply (for_each_raises _ _ (Z.of_nat (length x))).
    + by apply elem_of_py_range.
    + intros j w0. by apply for_each_cases.
    + intros w0. apply (for_each_raises _ _ (Z.of_nat 0)).
      * apply elem_of_py_range. lia.
      * apply Hcases.
      * intros w1. apply Hout. by left.
Qed.

Lemma export_short_axis_run (glacier : string) (c : cropped) (w : world) :
  out_ready w glacier = true →
  0 < c_nx c → 0 < c_ny c →
  Z.of_nat (length (c_x c)) < c_nx c ∨ Z.of_nat (length (c_y c)) < c_ny c →
  ∃ w', export float_str glacier c w = (Raise IndexError, w').
Proof.
  intros Hready Hnx Hny Hshort.
  unfold out_ready in Hready.
  rewrite !andb_true_iff, !negb_true_iff in Hready.
  destruct Hready as ((((Hdir & Hu) & Hv) & Heu) & Hev).
  unfold export, mbind, M_bind.
  erewrite bindM_ok by
    (apply (open_w_ok _ glacier);
     [exact Hu | exact (dirname_app glacier "UDEM.xy" eq_refl) | exact Hdir]).
  erewrite bindM_ok by
    (apply (open_w_ok _ glacier);
     [exact Hv | exact (dirname_app glacier "VDEM.xy" eq_refl) | exact Hdir]).
  erewrite bindM_ok by
    (apply (open_w_ok _ glacier);
     [exact Heu | exact (dirname_app glacier "EUDEM.xy" eq_refl)
     | exact Hdir]).
  erewrite bindM_ok by
    (apply (open_w_ok _ glacier);
     [exact Hev | exact (dirname_app glacier "EVDEM.xy" eq_refl)
     | exact Hdir]).
  erewrite bindM_ok by reflexivity.
  match goal with |- ∃ w', bindM _ _ ?w0 = _ => set (w2 := w0) end.
  destruct (loops_raise (glacier +:+ "/UDEM.xy") (glacier +:+ "/VDEM.xy")
              (glacier +:+ "/EUDEM.xy") (glacier +:+ "/EVDEM.xy")
              (c_x c) (c_y c) (c_vx c) (c_vy c) (c_ex c) (c_ey c)
              (c_nx c) (c_ny c) w2 Hnx Hny Hshort) as (w3 & Hloops).
  exists w3. by apply bindM_raise.
Qed.

(** When a cropped axis is shorter than [nx] or [ny], as it is after a crop
    by a box that leaves the array, the export cannot end well: it raises
    [IndexError], and the four output files are left behind. *)
Theorem export_short_axis_raises (glacier : string) (c : cropped) (w : world) :
  out_ready w glacier = true →
  0 < c_nx c → 0 < c_ny c →
  Z.of_nat (length (c_x c)) < c_nx c ∨ Z.of_nat (length (c_y c)) < c_ny c →
  ∃ w', export float_str glacier c w = (Raise IndexError, w') ∧
        ∀ p, p ∈ outputs glacier → is_file w' p = true.
Proof.
  intros Hready Hnx Hny Hshort.
  pose proof (export_opened float_str glacier c w Hready) as Hfiles.
  destruct (export_short_axis_run glacier c w Hready Hnx Hny Hshort)
    as (w' & Hrun).
  exists w'. split; [done|].
  intros p Hp. specialize (Hfiles p Hp). by rewrite Hrun in Hfiles.
Qed.

End ExportFailure.

(** ** The whole work on one glacier *)

Lemma string_app_neq_self (g t : string) : t ≠ EmptyString → g +:+ t ≠ g.
Proof.
  intros Ht Heq. apply Ht. apply (inj (String.app g)).
  by rewrite string_app_nil_r.
Qed.

(** Outside the box of the array a slice is shorter than the box. *)
Lemma slice_short {A} (l : list A) (lo hi : Z) :
  lo ≤ hi → 0 ≤ hi →
  ¬ (0 ≤ lo ∧ hi < Z.of_nat (length l)) →
  Z.of_nat (length (slice l lo (hi + 1))) < hi - lo + 1.
Proof.
  intros Hle Hhi Hout. unfold slice, slice_bound.
  rewrite length_take, length_drop.
  destruct (Z.ltb_spec lo 0), (Z.ltb_spec (hi + 1) 0); lia.
Qed.

Lemma exported_same_files (float_str : float → string) (w1 w2 : world)
    (glacier : string) (nx ny : nat) (c : cropped) :
  files w2 = files w1 →
  exported float_str w1 glacier nx ny c → exported float_str w2 glacier nx ny c.
Proof.
  intros Hf (cu & cv & ceu & cev & Hh & Hx). exists cu, cv, ceu, cev.
  split; [|done]. unfold holds4 in *. by rewrite Hf.
Qed.

Lemma bindM_inv_ok {A B} (m : M A) (k : A → M B) (b : B) (w w' : world) :
  bindM m k w = (Ok b, w') →
  ∃ a w1, m w = (Ok a, w1) ∧ k a w1 = (Ok b, w').
Proof.
  unfold bindM. destruct (m w) as [[a|e] w1]; [|done]. intros Hk.
  by exists a, w1.
Qed.

(** An export that ends well has created its first output. *)
Lemma export_ok_created (float_str : float → string) (glacier : string)
    (c : cropped) (w w' : world) :
  export float_str glacier c w = (Ok tt, w') →
  is_file w' (glacier +:+ "/UDEM.xy") = true.
Proof.
  unfold export, mbind, M_bind. intros Hrun.
  apply bindM_inv_ok in Hrun as (fidu & w1 & Hopen & Hrest).
  apply open_w_value in Hopen as [-> Hfile].
  match type of Hrest with ?m _ = _ =>
    assert (Hr : respects (only_files (λ _, True)) m) end.
  { do 3 (apply only_files_bind;
      [by apply open_w_only_files | intros ? ? ? _]).
    by apply export_tail_only_files. }
  destruct (Hr w1) as (_ & _ & _ & _ & Hmono).
  rewrite Hrest in Hmono. by apply Hmono.
Qed.

Lemma glacier_rel_refl (glacier : string) (w : world) : glacier_rel glacier w w.
Proof. unfold glacier_rel. split_and!; try done. intros d. tauto. Qed.

Lemma glacier_rel_trans (glacier : string) (a b c : world) :
  glacier_rel glacier a b → glacier_rel glacier b c → glacier_rel glacier a c.
Proof.
  intros (Hf1 & Hm1 & Hd1) (Hf2 & Hm2 & Hd2). unfold glacier_rel. split_and!.
  - intros p Hp. by rewrite Hf2, Hf1.
  - intros p Hp. by apply Hm2, Hm1.
  - intros d. specialize (Hd1 d). specialize (Hd2 d). tauto.
Qed.

Lemma glacier_rel_bind (glacier : string) {A B} (m : M A) (k : A → M B) :
  respects (glacier_rel glacier) m →
  (∀ a, respects (glacier_rel glacier) (k a)) →
  respects (glacier_rel glacier) (bindM m k).
Proof.
  intros Hm Hk. apply respects_bind; [apply glacier_rel_trans|done|].
  intros a _ _ _. apply Hk.
Qed.

Lemma glacier_rel_same_fs (glacier : string) {A} (m : M A) :
  (∀ w, files (snd (m w)) = files w ∧ dirs (snd (m w)) = dirs w) →
  respects (glacier_rel glacier) m.
Proof.
  intros Hm w. destruct (Hm w) as [Hf Hd]. unfold glacier_rel, is_file.
  rewrite Hf, Hd. split_and!; try done. intros d. tauto.
Qed.

Lemma export_glacier_rel (float_str : float → string) (glacier : string)
    (c : cropped) :
  respects (glacier_rel glacier) (export float_str glacier c).
Proof.
  intros w.
  destruct (export_only_files float_str glacier c w) as (Hd & _ & _ & Hf & Hm).
  unfold glacier_rel. rewrite Hd. split_and!; try done. intros d. tauto.
Qed.

Section GlacierTheorems.

Variable float_str : float → string.
Variable read_geodat : string → result (axis * axis * field).

(** The world once the four grid files of the glacier were read. *)
Lemma make_velocity_reads (glacier name : string) (x y x2 y2 x3 y3 x4 y4 : axis)
    (vx vy ex ey : field) (w : world) :
  dict_get velocity_data glacier = Ok name →
  read_geodat ("../data/" +:+ glacier +:+ "/" +:+ name +:+ ".vx")
    = Ok (x, y, vx) →
  read_geodat ("../data/" +:+ glacier +:+ "/" +:+ name +:+ ".vy")
    = Ok (x2, y2, vy) →
  read_geodat ("../data/" +:+ glacier +:+ "/" +:+ name +:+ ".ex")
    = Ok (x3, y3, ex) →
  read_geodat ("../data/" +:+ glacier +:+ "/" +:+ name +:+ ".ey")
    = Ok (x4, y4, ey) →
  make_velocity float_str read_geodat glacier w =
    bindM (liftM (detect vx)) (λ b,
      export float_str glacier (crop b x y vx vy ex ey))
      (set_geodat_reads
         (geodat_reads w ++
          ["../data/" +:+ glacier +:+ "/" +:+ name +:+ ".vx";
           "../data/" +:+ glacier +:+ "/" +:+ name +:+ ".vy";
           "../data/" +:+ glacier +:+ "/" +:+ name +:+ ".ex";
           "../data/" +:+ glacier +:+ "/" +:+ name +:+ ".ey"]) w).
Proof.
  intros Hname Hvx Hvy Hex Hey.
  unfold make_velocity, mbind, M_bind.
  unfold bindM at 1, liftM at 1. rewrite Hname.
  unfold bindM at 1, read_geodat_M at 1.
  replace (("../data/" +:+ glacier +:+ "/" +:+ name) +:+ ".vx")
    with ("../data/" +:+ glacier +:+ "/" +:+ name +:+ ".vx")
    by (by rewrite !string_app_assoc).
  rewrite Hvx.
  unfold bindM at 1, read_geodat_M at 1.
  replace (("../data/" +:+ glacier +:+ "/" +:+ name) +:+ ".vy")
    with ("../data/" +:+ glacier +:+ "/" +:+ name +:+ ".vy")
    by (by rewrite !string_app_assoc).
  rewrite Hvy.
  unfold bindM at 1, read_geodat_M at 1.
  replace (("../data/" +:+ glacier +:+ "/" +:+ name) +:+ ".ex")
    with ("../data/" +:+ glacier +:+ "/" +:+ name +:+ ".ex")
    by (by rewrite !string_app_assoc).
  rewrite Hex.
  unfold bindM at 1, read_geodat_M at 1.
  replace (("../data/" +:+ glacier +:+ "/" +:+ name) +:+ ".ey")
    with ("../data/" +:+ glacier +:+ "/" +:+ name +:+ ".ey")
    by (by rewrite !string_app_assoc).
  rewrite Hey.
  unfold set_geodat_reads; simpl. by rewrite <- !app_assoc.
Qed.

(** Where nothing of the glacier is made yet, the body makes the directory
    if need be and goes on to the work. *)
Lemma velocity_body_fresh (glacier : string) (w : world) :
  is_file w glacier = false →
  (∀ p, p ∈ outputs glacier → path_exists w p = false) →
  ∃ w1,
    out_ready w1 glacier = true ∧ files w1 = files w ∧
    stdout w1 = stdout w ∧ geodat_reads w1 = geodat_reads w ∧
    velocity_body float_str read_geodat glacier w =
      bindM (make_velocity float_str read_geodat glacier)
        (λ _, print ("Done making velocity data for " +:+ glacier)) w1.
Proof.
  intros Hfile Hout.
  assert (Hu : path_exists w (glacier +:+ "/UDEM.xy") = false)
    by (apply Hout; unfold outputs; rewrite !elem_of_cons; auto 6).
  assert (Hv : path_exists w (glacier +:+ "/VDEM.xy") = false)
    by (apply Hout; unfold outputs; rewrite !elem_of_cons; auto 6).
  assert (Heu : path_exists w (glacier +:+ "/EUDEM.xy") = false)
    by (apply Hout; unfold outputs; rewrite !elem_of_cons; auto 6).
  assert (Hev : path_exists w (glacier +:+ "/EVDEM.xy") = false)
    by (apply Hout; unfold outputs; rewrite !elem_of_cons; auto 6).
  assert (Hfresh : ∀ (w1 : world) t,
    t ≠ EmptyString → files w1 = files w →
    (∀ d, d ∈ dirs w1 → d ∈ dirs w ∨ d = glacier) →
    path_exists w (glacier +:+ t) = false →
    path_exists w1 (glacier +:+ t) = false).
  { intros w1 t Ht Hf Hd. unfold path_exists, is_dir, is_file.
    rewrite Hf, !orb_false_iff, !bool_decide_eq_false.
    intros [Hnd Hnf]. split; [|done]. intros [?|Heq]%Hd; [done|].
    by apply (string_app_neq_self glacier t). }
  unfold velocity_body.
  unfold mbind at 1, M_bind at 1, bindM at 1, os_path_exists at 1.
  destruct (path_exists w glacier) eqn:He; cbn [negb].
  - exists w. unfold path_exists in He. rewrite Hfile, orb_false_r in He.
    split.
    { unfold path_exists in Hu, Hv, Heu, Hev.
      apply orb_false_iff in Hu as [Hu _], Hv as [Hv _], Heu as [Heu _],
        Hev as [Hev _].
      unfold out_ready. by rewrite He, Hu, Hv, Heu, Hev. }
    split_and!; try done.
    unfold mbind, M_bind, orM, bindM, retM, os_path_exists.
    by rewrite Hu, Hv, Heu, Hev.
  - exists (set_dirs ({[glacier]} ∪ dirs w) w).
    assert (Hd : ∀ d, d ∈ dirs (set_dirs ({[glacier]} ∪ dirs w) w) →
                      d ∈ dirs w ∨ d = glacier).
    { simpl. intros d [->%elem_of_singleton|?]%elem_of_union; auto. }
    pose proof (Hfresh (set_dirs ({[glacier]} ∪ dirs w) w) "/UDEM.xy"
                  ltac:(done) eq_refl Hd Hu) as Hu1.
    pose proof (Hfresh (set_dirs ({[glacier]} ∪ dirs w) w) "/VDEM.xy"
                  ltac:(done) eq_refl Hd Hv) as Hv1.
    pose proof (Hfresh (set_dirs ({[glacier]} ∪ dirs w) w) "/EUDEM.xy"
                  ltac:(done) eq_refl Hd Heu) as Heu1.
    pose proof (Hfresh (set_dirs ({[glacier]} ∪ dirs w) w) "/EVDEM.xy"
                  ltac:(done) eq_refl Hd Hev) as Hev1.
    split.
    { unfold path_exists in Hu1, Hv1, Heu1, Hev1.
      apply orb_false_iff in Hu1 as [Hu1 _], Hv1 as [Hv1 _],
        Heu1 as [Heu1 _], Hev1 as [Hev1 _].
      unfold out_ready. rewrite Hu1, Hv1, Heu1, Hev1.
      unfold is_dir; simpl. rewrite bool_decide_eq_true_2; [done|].
      apply elem_of_union. left. by apply elem_of_singleton. }
    split_and!; try done.
    unfold mbind at 1, M_bind at 1, bindM at 1, os_makedirs. rewrite He.
    unfold mbind, M_bind, orM, bindM, os_path_exists.
    by rewrite Hu1, Hv1, Heu1, Hev1.
Qed.

(** The padding is enough for the box to lie inside the array. *)
Lemma detect_padded (f : field) (ny nx : nat) :
  has_shape f ny nx = true →
  (∃ i j, valid_cell f i j = true) → padded2 f ny nx →
  ∃ b, detect f = Ok b ∧ in_range b ny nx.
Proof.
  intros Hs Hv Hp.
  destruct (detect_margin_tightest 2 f Hv) as (rlo & rhi & clo & chi & Hd & Ht).
  eexists. split; [exact Hd|].
  pose proof (tightest_ordered _ _ _ _ _ Ht).
  destruct Ht as (_ & [ja Ha] & [jb Hb] & [ic Hc] & [id Hdd]).
  pose proof (Hp _ _ Ha). pose proof (Hp _ _ Hb).
  pose proof (Hp _ _ Hc). pose proof (Hp _ _ Hdd).
  unfold in_range; simpl. lia.
Qed.

(** From nothing to the four point lists. With co-registered fields of one
    shape, a valid velocity cell, and every valid cell at least two cells
    from the borders, the work on a glacier whose outputs are not there
    reads the four grid files, detects a box inside the array, and ends well
    with the four outputs holding the point lists of the cropped fields. *)
Theorem velocity_body_makes_outputs (glacier name : string)
    (x y x2 y2 x3 y3 x4 y4 : axis) (vx vy ex ey : field) (ny0 nx0 : nat)
    (w : world) :
  dict_get velocity_data glacier = Ok name →
  read_geodat ("../data/" +:+ glacier +:+ "/" +:+ name +:+ ".vx")
    = Ok (x, y, vx) →
  read_geodat ("../data/" +:+ glacier +:+ "/" +:+ name +:+ ".vy")
    = Ok (x2, y2, vy) →
  read_geodat ("../data/" +:+ glacier +:+ "/" +:+ name +:+ ".ex")
    = Ok (x3, y3, ex) →
  read_geodat ("../data/" +:+ glacier +:+ "/" +:+ name +:+ ".ey")
    = Ok (x4, y4, ey) →
  has_shape vx ny0 nx0 = true → has_shape vy ny0 nx0 = true →
  has_shape ex ny0 nx0 = true → has_shape ey ny0 nx0 = true →
  length x = nx0 → length y = ny0 →
  (∃ i j, valid_cell vx i j = true) → padded2 vx ny0 nx0 →
  is_file w glacier = false →
  (∀ p, p ∈ outputs glacier → path_exists w p = false) →
  ∃ b w',
    detect vx = Ok b ∧ in_range b ny0 nx0 ∧
    velocity_body float_str read_geodat glacier w = (Ok tt, w') ∧
    exported float_str w' glacier (box_nx b) (box_ny b)
      (crop b x y vx vy ex ey) ∧
    stdout w' = stdout w ++ ["Done making velocity data for " +:+ glacier] ∧
    geodat_reads w' =
      geodat_reads w ++
        ["../data/" +:+ glacier +:+ "/" +:+ name +:+ ".vx";
         "../data/" +:+ glacier +:+ "/" +:+ name +:+ ".vy";
         "../data/" +:+ glacier +:+ "/" +:+ name +:+ ".ex";
         "../data/" +:+ glacier +:+ "/" +:+ name +:+ ".ey"].
Proof.
  intros Hname Hvx Hvy Hex Hey H1 H2 H3 H4 Hx Hy Hvalid Hpad Hfile Hout.
  destruct (detect_padded vx ny0 nx0 H1 Hvalid Hpad) as (b & Hb & Hr).
  destruct (velocity_body_fresh glacier w Hfile Hout)
    as (w1 & Hready & Hf1 & Ho1 & Hr1 & ->).
  exists b.
  assert (Hxy : in_range b (length y) (length x)) by by rewrite Hx, Hy.
  set (wr := set_geodat_reads
               (geodat_reads w1 ++
                ["../data/" +:+ glacier +:+ "/" +:+ name +:+ ".vx";
                 "../data/" +:+ glacier +:+ "/" +:+ name +:+ ".vy";
                 "../data/" +:+ glacier +:+ "/" +:+ name +:+ ".ex";
                 "../data/" +:+ glacier +:+ "/" +:+ name +:+ ".ey"]) w1).
  destruct (crop_export_ok float_str glacier b x y vx vy ex ey
              _ _ _ _ _ _ _ _ wr H1 H2 H3 H4 Hr Hr Hr Hr Hxy Hready)
    as (_ & w2 & Hrun & Hexp).
  pose proof (export_only_files float_str glacier (crop b x y vx vy ex ey) wr)
    as (_ & Ho2 & Hr2 & _). rewrite Hrun in Ho2, Hr2. simpl in Ho2, Hr2.
  eexists. split; [done|]. split; [done|]. split.
  { unfold bindM at 1.
    rewrite (make_velocity_reads glacier name x y x2 y2 x3 y3 x4 y4
               vx vy ex ey w1 Hname Hvx Hvy Hex Hey).
    unfold bindM at 1, liftM. rewrite Hb. fold wr. rewrite Hrun.
    reflexivity. }
  split; [by apply (exported_same_files float_str w2)|].
  simpl. rewrite Ho2, Hr2, Ho1, Hr1. done.
Qed.

Lemma velocity_body_glacier_rel (glacier : string) :
  respects (glacier_rel glacier)
           (velocity_body float_str read_geodat glacier).
Proof.
  unfold velocity_body, mbind, M_bind.
  apply glacier_rel_bind; [by apply glacier_rel_same_fs|intros e].
  apply glacier_rel_bind; [|intros _].
  { destruct e; cbn [negb]; [by apply glacier_rel_same_fs|].
    intros w. unfold os_makedirs.
    destruct (path_exists w glacier); [apply glacier_rel_refl|].
    unfold glacier_rel, is_file; simpl. split_and!; try done.
    intros d. rewrite elem_of_union, elem_of_singleton. tauto. }
  apply glacier_rel_bind; [|intros made].
  { unfold orM.
    repeat (apply glacier_rel_bind;
      [by apply glacier_rel_same_fs
      |intros []; [by apply glacier_rel_same_fs|]]).
    by apply glacier_rel_same_fs. }
  apply glacier_rel_bind; [|intros _; by apply glacier_rel_same_fs].
  destruct made; cbn [negb]; [by apply glacier_rel_same_fs|].
  unfold make_velocity, mbind, M_bind.
  apply glacier_rel_bind; [by apply glacier_rel_same_fs|intros name].
  do 4 (apply glacier_rel_bind;
    [by apply glacier_rel_same_fs|intros [[? ?] ?]]).
  apply glacier_rel_bind; [by apply glacier_rel_same_fs|intros b].
  apply export_glacier_rel.
Qed.

(** The work on one glacier, however it ends, changes or creates no file
    but the four outputs of that glacier, removes no file, and makes no
    directory but the one of the glacier: the outputs of the other glaciers
    are out of its reach. *)
Theorem velocity_body_touches_only_own (glacier : string) (w : world) :
  let w' := snd (velocity_body float_str read_geodat glacier w) in
  (∀ p, p ∉ outputs glacier → files w' !! p = files w !! p) ∧
  (∀ p, is_file w p = true → is_file w' p = true) ∧
  (∀ d, d ∈ dirs w → d ∈ dirs w') ∧
  (∀ d, d ∈ dirs w' → d ∈ dirs w ∨ d = glacier).
Proof.
  destruct (velocity_body_glacier_rel glacier w) as (Hf & Hm & Hd).
  split_and!; try done.
  - intros d Hin. apply Hd. by left.
  - intros d Hin. apply Hd in Hin. tauto.
Qed.

(** After a run that ended well, one of the outputs exists. *)
Lemma velocity_body_ok_made (glacier : string) (w w1 : world) :
  velocity_body float_str read_geodat glacier w = (Ok tt, w1) →
  path_exists w1 (glacier +:+ "/UDEM.xy") = true ∨
  path_exists w1 (glacier +:+ "/VDEM.xy") = true ∨
  path_exists w1 (glacier +:+ "/EUDEM.xy") = true ∨
  path_exists w1 (glacier +:+ "/EVDEM.xy") = true.
Proof.
  unfold velocity_body, mbind, M_bind. intros Hrun.
  apply bindM_inv_ok in Hrun as (e & wa & _ & Hrun).
  apply bindM_inv_ok in Hrun as ([] & wb & _ & Hrun).
  apply bindM_inv_ok in Hrun as (made & wc & Hmade & Hrun).
  apply bindM_inv_ok in Hrun as ([] & wd & Hwork & Hprint).
  injection Hprint as <-.
  change (path_exists wd (glacier +:+ "/UDEM.xy") = true ∨
          path_exists wd (glacier +:+ "/VDEM.xy") = true ∨
          path_exists wd (glacier +:+ "/EUDEM.xy") = true ∨
          path_exists wd (glacier +:+ "/EVDEM.xy") = true).
  destruct made; cbn [negb] in Hwork.
  - injection Hwork as <-.
    unfold orM, bindM, os_path_exists, retM in Hmade.
    destruct (path_exists wb (glacier +:+ "/UDEM.xy")) eqn:H1;
      [injection Hmade as <-; auto|].
    destruct (path_exists wb (glacier +:+ "/VDEM.xy")) eqn:H2;
      [injection Hmade as <-; auto|].
    destruct (path_exists wb (glacier +:+ "/EUDEM.xy")) eqn:H3;
      [injection Hmade as <-; auto|].
    injection Hmade as Hm <-. auto.
  - unfold make_velocity, mbind, M_bind in Hwork.
    apply bindM_inv_ok in Hwork as (name & w2 & _ & Hwork).
    apply bindM_inv_ok in Hwork as ([[x y] vx] & w3 & _ & Hwork).
    apply bindM_inv_ok in Hwork as ([[x2 y2] vy] & w4 & _ & Hwork).
    apply bindM_inv_ok in Hwork as ([[x3 y3] ex] & w5 & _ & Hwork).
    apply bindM_inv_ok in Hwork as ([[x4 y4] ey] & w6 & _ & Hwork).
    apply bindM_inv_ok in Hwork as (b & w7 & _ & Hwork).
    apply export_ok_created in Hwork. left. unfold path_exists.
    by rewrite Hwork, orb_true_r.
Qed.

(** A second run after one that ended well does nothing: it reads no grid
    file and leaves every file as it is, and only prints its message. *)
Theorem velocity_body_idempotent (glacier : string) (w w1 : world) :
  velocity_body float_str read_geodat glacier w = (Ok tt, w1) →
  ∃ w2, velocity_body float_str read_geodat glacier w1 = (Ok tt, w2) ∧
        files w2 = files w1 ∧ geodat_reads w2 = geodat_reads w1 ∧
        stdout w2 = stdout w1 ++ ["Done making velocity data for " +:+ glacier].
Proof.
  intros Hrun. apply velocity_body_skip_any.
  by apply (velocity_body_ok_made glacier w).
Qed.

(** When the margin does not fit: if the detected box leaves the array, the
    work on the glacier stops with [IndexError] in the export, without its
    final message, and leaves the four (incomplete) outputs behind; the next
    run then takes the glacier for made and does nothing. *)
Theorem velocity_body_out_of_range (glacier name : string)
    (x y x2 y2 x3 y3 x4 y4 : axis) (vx vy ex ey : field) (ny0 nx0 : nat)
    (b : box) (w : world) :
  dict_get velocity_data glacier = Ok name →
  read_geodat ("../data/" +:+ glacier +:+ "/" +:+ name +:+ ".vx")
    = Ok (x, y, vx) →
  read_geodat ("../data/" +:+ glacier +:+ "/" +:+ name +:+ ".vy")
    = Ok (x2, y2, vy) →
  read_geodat ("../data/" +:+ glacier +:+ "/" +:+ name +:+ ".ex")
    = Ok (x3, y3, ex) →
  read_geodat ("../data/" +:+ glacier +:+ "/" +:+ name +:+ ".ey")
    = Ok (x4, y4, ey) →
  has_shape vx ny0 nx0 = true → length x = nx0 → length y = ny0 →
  detect vx = Ok b → ¬ in_range b ny0 nx0 →
  is_file w glacier = false →
  (∀ p, p ∈ outputs glacier → path_exists w p = false) →
  ∃ w',
    velocity_body float_str read_geodat glacier w = (Raise IndexError, w') ∧
    (∀ p, p ∈ outputs glacier → is_file w' p = true) ∧
    stdout w' = stdout w ∧
    ∃ w'',
      velocity_body float_str read_geodat glacier w' = (Ok tt, w'') ∧
      files w'' = files w' ∧ geodat_reads w'' = geodat_reads w' ∧
      stdout w'' = stdout w ++ ["Done making velocity data for " +:+ glacier].
Proof.
  intros Hname Hvx Hvy Hex Hey H1 Hx Hy Hb Hout Hfile Habsent.
  destruct (velocity_body_fresh glacier w Hfile Habsent)
    as (w1 & Hready & Hf1 & Ho1 & Hr1 & Hbody).
  set (wr := set_geodat_reads
               (geodat_reads w1 ++
                ["../data/" +:+ glacier +:+ "/" +:+ name +:+ ".vx";
                 "../data/" +:+ glacier +:+ "/" +:+ name +:+ ".vy";
                 "../data/" +:+ glacier +:+ "/" +:+ name +:+ ".ex";
                 "../data/" +:+ glacier +:+ "/" +:+ name +:+ ".ey"]) w1).
  set (c := crop b x y vx vy ex ey).
  pose proof Hb as Hinv.
  apply detect_margin_ok_inv in Hinv as (rlo & rhi & clo & chi & Ht & Hbox).
  pose proof (tightest_ordered _ _ _ _ _ Ht) as [Hrows Hcols].
  assert (Hshort : Z.of_nat (length (c_x c)) < c_nx c ∨
                   Z.of_nat (length (c_y c)) < c_ny c).
  { subst c. unfold crop; simpl.
    destruct (decide (0 ≤ jmin b ∧ jmax b < Z.of_nat (length x))) as [Hj|Hj].
    - right. apply slice_short; [subst b; simpl; lia..|].
      rewrite Hy. intros Hi. apply Hout. unfold in_range.
      rewrite Hx in Hj. subst b; simpl in *. lia.
    - left. apply slice_short; [subst b; simpl; lia..|done]. }
  assert (Hnx : 0 < c_nx c) by (subst c b; simpl; lia).
  assert (Hny : 0 < c_ny c) by (subst c b; simpl; lia).
  destruct (export_short_axis_run float_str glacier c wr Hready Hnx Hny Hshort)
    as (w' & Hrun).
  pose proof (export_opened float_str glacier c wr Hready) as Hfiles.
  pose proof (export_only_files float_str glacier c wr) as (_ & Ho2 & _).
  rewrite Hrun in Hfiles, Ho2. simpl in Hfiles, Ho2.
  assert (Hfirst : velocity_body float_str read_geodat glacier w
                   = (Raise IndexError, w')).
  { rewrite Hbody. apply bindM_raise.
    rewrite (make_velocity_reads glacier name x y x2 y2 x3 y3 x4 y4
               vx vy ex ey w1 Hname Hvx Hvy Hex Hey).
    unfold bindM at 1, liftM. rewrite Hb. exact Hrun. }
  exists w'. split; [exact Hfirst|]. split; [exact Hfiles|].
  assert (Hout' : stdout w' = stdout w) by (by rewrite Ho2, <- Ho1).
  split; [exact Hout'|].
  destruct (velocity_body_skip_any float_str read_geodat glacier w')
    as (w'' & Hsecond & ? & ? & Ho3).
  { left. unfold path_exists. rewrite (Hfiles (glacier +:+ "/UDEM.xy")).
    - apply orb_true_r.
    - unfold outputs. constructor. }
  exists w''. rewrite Hout' in Ho3. by split_and!.
Qed.

(** An empty dataset stops the work before any output is created: when
    every cell of the velocity is the sentinel, the four grid files are read
    and then [min] raises; no file is created or changed and nothing is
    printed. *)
Theorem velocity_body_empty_dataset (glacier name : string)
    (x y x2 y2 x3 y3 x4 y4 : axis) (vx vy ex ey : field) (w : world) :
  dict_get velocity_data glacier = Ok name →
  read_geodat ("../data/" +:+ glacier +:+ "/" +:+ name +:+ ".vx")
    = Ok (x, y, vx) →
  read_geodat ("../data/" +:+ glacier +:+ "/" +:+ name +:+ ".vy")
    = Ok (x2, y2, vy) →
  read_geodat ("../data/" +:+ glacier +:+ "/" +:+ name +:+ ".ex")
    = Ok (x3, y3, ex) →
  read_geodat ("../data/" +:+ glacier +:+ "/" +:+ name +:+ ".ey")
    = Ok (x4, y4, ey) →
  all_sentinel vx = true →
  is_file w glacier = false →
  (∀ p, p ∈ outputs glacier → path_exists w p = false) →
  ∃ w',
    velocity_body float_str read_geodat glacier w
    = (Raise (ValueError "min() arg is an empty sequence"), w') ∧
    files w' = files w ∧ stdout w' = stdout w ∧
    geodat_reads w' =
      geodat_reads w ++
        ["../data/" +:+ glacier +:+ "/" +:+ name +:+ ".vx";
         "../data/" +:+ glacier +:+ "/" +:+ name +:+ ".vy";
         "../data/" +:+ glacier +:+ "/" +:+ name +:+ ".ex";
         "../data/" +:+ glacier +:+ "/" +:+ name +:+ ".ey"].
Proof.
  intros Hname Hvx Hvy Hex Hey Hall Hfile Habsent.
  destruct (velocity_body_fresh glacier w Hfile Habsent)
    as (w1 & Hready & Hf1 & Ho1 & Hr1 & ->).
  pose proof (all_sentinel_no_valid vx Hall) as Hnone.
  pose proof (detect_margin_empty 2 vx Hnone) as Hd.
  eexists. split.
  { apply bindM_raise.
    rewrite (make_velocity_reads glacier name x y x2 y2 x3 y3 x4 y4
               vx vy ex ey w1 Hname Hvx Hvy Hex Hey).
    unfold bindM at 1, liftM. unfold detect. rewrite Hd. reflexivity. }
  simpl. by rewrite Hr1.
Qed.

End GlacierTheorems.

(** ** The whole of [main] *)

Lemma all_made_spec (w : world) (glacier : string) :
  all_made w = true →
  glacier ∈ ["helheim"; "kangerd"; "jakobshavn"] →
  path_exists w glacier = true ∧
  path_exists w (glacier +:+ "/UDEM.xy") = true ∧
  path_exists w (glacier +:+ "/zbDEM.xy") = true ∧
  path_exists w (glacier +:+ "/zsDEM.xy") = true.
Proof.
  unfold all_made. rewrite forallb_forall. intros Hall Hin.
  apply list_elem_of_In, Hall in Hin. rewrite !andb_true_iff in Hin. tauto.
Qed.

Section MainTheorems.

Variable float_str : float → string.
Variable read_geodat : string → result (axis * axis * field).
Variable os_system : string → world → Z * world.
Variable postprocess_jak_main : M unit.

(** With its directory and one output there, the glacier is skipped and the
    world only gets the message. *)
Lemma velocity_body_skip_exact (glacier : string) (w : world) :
  path_exists w glacier = true →
  path_exists w (glacier +:+ "/UDEM.xy") = true →
  velocity_body float_str read_geodat glacier w =
    (Ok tt,
     set_stdout (stdout w ++ ["Done making velocity data for " +:+ glacier]) w).
Proof.
  intros Hg Hu.
  unfold velocity_body, mbind, M_bind, orM, bindM, os_path_exists, retM, print.
  rewrite Hg. cbn [negb]. by rewrite Hu.
Qed.

Lemma make_velocity_data_all_made (w : world) :
  all_made w = true →
  make_velocity_data float_str read_geodat w =
    (Ok tt,
     set_stdout (stdout w ++ ["Done making velocity data for helheim";
                              "Done making velocity data for kangerd";
                              "Done making velocity data for jakobshavn"]) w).
Proof.
  intros Hall.
  destruct (all_made_spec w "helheim" Hall) as (Hh & Hhu & _);
    [rewrite !elem_of_cons; auto|].
  destruct (all_made_spec w "kangerd" Hall) as (Hk & Hku & _);
    [rewrite !elem_of_cons; auto|].
  destruct (all_made_spec w "jakobshavn" Hall) as (Hj & Hju & _);
    [rewrite !elem_of_cons; auto|].
  unfold make_velocity_data. cbn [map fst velocity_data for_each].
  erewrite bindM_ok by (by apply velocity_body_skip_exact).
  erewrite bindM_ok by (by apply velocity_body_skip_exact).
  erewrite bindM_ok by (by apply velocity_body_skip_exact).
  unfold retM, set_stdout; simpl. by rewrite <- !app_assoc.
Qed.

Lemma bed_dems_all_made (dem_source : string) (w : world) :
  all_made w = true →
  bed_dems os_system dem_source w =
    (Ok tt,
     set_stdout (stdout w ++ ["Done making bed elevation data for helheim";
                              "Done making bed elevation data for kangerd";
                              "Done making bed elevation data for jakobshavn"])
                w).
Proof.
  intros Hall.
  destruct (all_made_spec w "helheim" Hall) as (_ & _ & Hh & _);
    [rewrite !elem_of_cons; auto|].
  destruct (all_made_spec w "kangerd" Hall) as (_ & _ & Hk & _);
    [rewrite !elem_of_cons; auto|].
  destruct (all_made_spec w "jakobshavn" Hall) as (_ & _ & Hj & _);
    [rewrite !elem_of_cons; auto|].
  unfold bed_dems. cbn [for_each].
  unfold mbind, M_bind, bindM, os_path_exists, retM, print.
  rewrite Hh. cbn [negb fst snd].
  change (path_exists (set_stdout ?o w) ?p) with (path_exists w p).
  rewrite Hk. cbn [negb fst snd].
  change (path_exists (set_stdout ?o ?w0) ?p) with (path_exists w p).
  rewrite Hj. cbn [negb fst snd].
  unfold set_stdout; simpl. by rewrite <- !app_assoc.
Qed.

Lemma surface_dems_all_made (w : world) :
  all_made w = true →
  surface_dems os_system w =
    (Ok tt,
     set_stdout (stdout w ++ ["Done making surface elevation for helheim";
                              "Done making surface elevation for kangerd"]) w).
Proof.
  intros Hall.
  destruct (all_made_spec w "helheim" Hall) as (_ & _ & _ & Hh);
    [rewrite !elem_of_cons; auto|].
  destruct (all_made_spec w "kangerd" Hall) as (_ & _ & _ & Hk);
    [rewrite !elem_of_cons; auto|].
  unfold surface_dems. cbn [for_each].
  unfold mbind, M_bind, bindM, os_path_exists, retM, print.
  rewrite Hh. cbn [negb fst snd].
  change (path_exists (set_stdout ?o w) ?p) with (path_exists w p).
  rewrite Hk. cbn [negb fst snd].
  unfold set_stdout; simpl. by rewrite <- !app_assoc.
Qed.

Lemma jakobshavn_surface_made (w : world) :
  all_made w = true →
  jakobshavn_surface float_str read_geodat w =
    (Ok tt,
     set_stdout (stdout w ++ ["Done making surface elevation for Jakobshavn"])
                w).
Proof.
  intros Hall.
  destruct (all_made_spec w "jakobshavn" Hall) as (_ & _ & _ & Hj);
    [rewrite !elem_of_cons; auto|].
  unfold jakobshavn_surface, mbind, M_bind, bindM, os_path_exists, retM, print.
  change ("jakobshavn/zsDEM.xy") with ("jakobshavn" +:+ "/zsDEM.xy").
  by rewrite Hj.
Qed.

(** Run again when everything is made, [main] reads no grid file, runs no
    command and touches no file before the post-processing: it prints its
    nine messages and hands over to the post-processor, whose end is the end
    of [main]. *)
Theorem main_all_made (dem_source : string) (w : world) :
  all_made w = true →
  dem_source = "morlighem" ∨ dem_source = "cresis" →
  main float_str read_geodat os_system postprocess_jak_main dem_source w =
    match postprocess_jak_main (set_stdout (stdout w ++ done_messages) w) with
    | (Ok _, w') =>
        (Returned,
         set_stdout
           (stdout w' ++ ["Done post-processing Jakobshavn velocity data"]) w')
    | (Raise e, w') => (Raised e, w')
    end.
Proof.
  intros Hall Hsrc. unfold main.
  rewrite bool_decide_eq_true_2
    by (rewrite !elem_of_cons; destruct Hsrc; auto).
  cbn [negb]. unfold main_body, mbind, M_bind.
  rewrite (bindM_ok _ _ _ _ _ (make_velocity_data_all_made w Hall)).
  erewrite bindM_ok by (by apply bed_dems_all_made).
  erewrite bindM_ok by (by apply surface_dems_all_made).
  erewrite bindM_ok by (by apply jakobshavn_surface_made).
  unfold set_stdout at 1 2 3 4; simpl. rewrite <- !app_assoc. simpl.
  change (World (dirs w) (files w) (stdout w ++ done_messages) (geodat_reads w))
    with (set_stdout (stdout w ++ done_messages) w).
  unfold bindM, print.
  by destruct (postprocess_jak_main _) as [[[]|e] w'].
Qed.

(** [main] exits with status 1 exactly when the DEM source is neither
    morlighem nor cresis, and then it has done nothing but print the message
    about the unrecognized source. *)
Theorem main_rejects_unknown_dem (dem_source : string) (w : world) :
  (fst (main float_str read_geodat os_system postprocess_jak_main
          dem_source w) = Exited 1
   ↔ ¬ (dem_source = "morlighem" ∨ dem_source = "cresis")) ∧
  (fst (main float_str read_geodat os_system postprocess_jak_main
          dem_source w) = Exited 1 →
   snd (main float_str read_geodat os_system postprocess_jak_main
          dem_source w)
   = set_stdout (stdout w ++ [unrecognized_dem dem_source]) w).
Proof.
  unfold main.
  destruct (bool_decide (dem_source ∈ ["morlighem"; "cresis"])) eqn:Hin;
    cbn [negb].
  - apply bool_decide_eq_true in Hin.
    rewrite !elem_of_cons, elem_of_nil in Hin.
    destruct (main_body _ _ _ _ _ _) as [[u|e] w']; simpl;
      (split; [split; [done|tauto]|done]).
  - apply bool_decide_eq_false in Hin.
    rewrite !elem_of_cons, elem_of_nil in Hin.
    simpl. split; [split; [tauto|done]|done].
Qed.

(** The loops that write the points of one field to one file. *)
Lemma points_loop1 (fid : string) (x y : axis) (f : field) (nx ny : nat)
    (c0 : string) (w : world) :
  covers float_str x y f nx ny →
  files w !! fid = Some c0 →
  ∃ w',
    for_each (py_range (Z.of_nat nx)) (λ j,
      for_each (py_range (Z.of_nat ny)) (λ i,
        write_point float_str fid x y f i j)) w = (Ok tt, w') ∧
    files w' !! fid = Some (c0 +:+ cat (point_lines float_str x y f nx ny)) ∧
    stdout w' = stdout w ∧ geodat_reads w' = geodat_reads w.
Proof.
  intros Hcov Hc0.
  rewrite py_range_nat, for_each_map. unfold point_lines.
  apply (for_each_inv (λ pre w',
    files w' !! fid =
      Some (c0 +:+ cat (flat_map (column_lines float_str x y f ny) pre)) ∧
    stdout w' = stdout w ∧ geodat_reads w' = geodat_reads w)).
  - intros pre j post w1 Hl (Hf1 & Ho1 & Hr1).
    assert (Hj : (j < nx)%nat).
    { assert (Hin : j ∈ seq 0 nx)
        by (rewrite Hl, elem_of_app, elem_of_cons; auto).
      apply elem_of_seq in Hin. lia. }
    rewrite py_range_nat, for_each_map.
    set (line := λ i, default EmptyString (point_text float_str x y f j i)).
    destruct (for_each_inv (λ pre' w',
      files w' !! fid =
        Some ((c0 +:+ cat (flat_map (column_lines float_str x y f ny) pre))
              +:+ cat (map line pre')) ∧
      stdout w' = stdout w ∧ geodat_reads w' = geodat_reads w)
      (λ a, write_point float_str fid x y f (Z.of_nat a) (Z.of_nat j))
      (seq 0 ny)) with w1 as (w2 & Hrun & Hf2 & Ho2 & Hr2).
    + intros pre' i post' w3 Hl' (Hf3 & Ho3 & Hr3).
      assert (Hi : (i < ny)%nat).
      { assert (Hin : i ∈ seq 0 ny)
          by (rewrite Hl', elem_of_app, elem_of_cons; auto).
        apply elem_of_seq in Hin. lia. }
      destruct (Hcov j i Hj Hi) as [s0 Hs0].
      rewrite (write_point_ok float_str _ _ _ _ _ _ _ _ Hs0).
      eexists. split; [reflexivity|]. simpl.
      rewrite lookup_alter_eq, Hf3. simpl. split; [|done].
      rewrite map_app, cat_app. simpl.
      change (line i)
        with (default EmptyString (point_text float_str x y f j i)).
      rewrite Hs0. simpl.
      by rewrite string_app_nil_r, <- !string_app_assoc.
    + simpl. by rewrite string_app_nil_r.
    + exists w2. split; [done|]. split; [|done].
      rewrite Hf2, flat_map_app, cat_app. simpl.
      by rewrite app_nil_r, <- !string_app_assoc.
  - simpl. by rewrite string_app_nil_r.
Qed.

(** The surface of Jakobshavn: when it is not made yet, its directory is
    there and the grid file gives a field of the shape of its axes, the file
    [jakobshavn/zsDEM.xy] becomes the point list of that field, with [nx]
    and [ny] the lengths of the axes. *)
Theorem jakobshavn_surface_format (x y : axis) (s : field) (w : world) :
  path_exists w "jakobshavn/zsDEM.xy" = false →
  is_dir w "jakobshavn" = true →
  read_geodat "../data/jakobshavn/dem13Mar.smooth" = Ok (x, y, s) →
  has_shape s (length y) (length x) = true →
  ∃ w' content,
    jakobshavn_surface float_str read_geodat w = (Ok tt, w') ∧
    files w' !! "jakobshavn/zsDEM.xy" = Some content ∧
    xy_format float_str content (length x) (length y) x y s ∧
    stdout w' = stdout w ++ ["Done making surface elevation for Jakobshavn"] ∧
    geodat_reads w' = geodat_reads w ++ ["../data/jakobshavn/dem13Mar.smooth"].
Proof.
  intros Hnew Hdir Hread Hshape.
  pose proof (covers_of_shape float_str x y s _ _ eq_refl eq_refl Hshape)
    as Hcov.
  assert (Hnd : is_dir w "jakobshavn/zsDEM.xy" = false).
  { unfold path_exists in Hnew. by apply orb_false_iff in Hnew as [? _]. }
  unfold jakobshavn_surface, mbind, M_bind.
  unfold bindM at 1, os_path_exists at 1. rewrite Hnew. cbn [negb].
  unfold bindM at 1 2, read_geodat_M at 1. rewrite Hread.
  set (wr := set_geodat_reads _ w).
  erewrite bindM_ok by
    (apply (open_w_ok _ "jakobshavn"); [exact Hnd|reflexivity|exact Hdir]).
  unfold bindM at 1, file_write at 1.
  match goal with |- context [bindM (for_each _ _) _ ?w0] => set (w1 := w0) end.
  destruct (points_loop1 "jakobshavn/zsDEM.xy" x y s (length x) (length y)
              (pretty (Z.of_nat (length x)) +:+ nl
               +:+ pretty (Z.of_nat (length y)) +:+ nl) w1 Hcov)
    as (w2 & Hloop & Hf2 & Ho2 & Hr2).
  { subst w1. simpl. by rewrite lookup_alter_eq, lookup_insert_eq. }
  rewrite (bindM_ok _ _ _ _ _ Hloop).
  eexists _, _. split; [reflexivity|]. simpl.
  split; [exact Hf2|]. split; [by apply point_lines_format|].
  by rewrite Ho2, Hr2.
Qed.

End MainTheorems.

(** ** More on [generate_sif_file] *)

Section SifWrites.

Variable format_sif : float → string → Z → string.

Lemma default_sif_title (glacier_name : string) :
  glacier_name = "helheim" ∨ glacier_name = "jakobshavn" ∨
  glacier_name = "kangerd" →
  "elmer/Robin_Beta_" +:+ title glacier_name +:+ ".sif"
  = default_sif glacier_name.
Proof. intros [-> | [-> | ->]]; by vm_compute. Qed.

Lemma dirname_default_sif (glacier_name : string) :
  dirname (default_sif glacier_name) = Some "elmer".
Proof.
  unfold default_sif.
  destruct (String.eqb glacier_name "helheim"); [by vm_compute|].
  destruct (String.eqb glacier_name "jakobshavn"); by vm_compute.
Qed.

(** With one of the three names and no file name given, when the directory
    [elmer] is there and the destination [elmer/Robin_Beta_<Name>.sif] is
    not itself a directory, the destination ends up holding exactly the
    filled-in template, whatever it held before, and nothing else
    changes. *)
Theorem generate_sif_file_writes (glacier_name : string)
    (regularization : float) (max_iterations : Z) (w : world) :
  glacier_name = "helheim" ∨ glacier_name = "jakobshavn" ∨
  glacier_name = "kangerd" →
  is_dir w "elmer" = true →
  is_dir w (default_sif glacier_name) = false →
  ∃ w',
    generate_sif_file format_sif glacier_name None regularization
      max_iterations w = (Ok tt, w') ∧
    files w' !! default_sif glacier_name =
      Some (format_sif regularization glacier_name max_iterations) ∧
    (∀ p, p ≠ default_sif glacier_name → files w' !! p = files w !! p) ∧
    dirs w' = dirs w ∧ stdout w' = stdout w.
Proof.
  intros Hname Helmer Hdest. unfold generate_sif_file.
  rewrite bool_decide_eq_true_2
    by (unfold glacier_names; rewrite !elem_of_cons; tauto).
  cbn [negb]. rewrite (default_sif_title _ Hname).
  unfold mbind, M_bind, bindM, open_w.
  rewrite Hdest, dirname_default_sif, Helmer, orb_true_r.
  eexists. split; [reflexivity|]. simpl. split_and!; try done.
  - by rewrite lookup_alter_eq, lookup_insert_eq.
  - intros p Hp. by rewrite lookup_alter_ne, lookup_insert_ne.
Qed.

(** With one of the three names and no file name given, when there is no
    directory [elmer], the function raises the error of [open] for
    [elmer/Robin_Beta_<Name>.sif] and leaves the world as it was. *)
Theorem generate_sif_file_unwritable (glacier_name : string)
    (regularization : float) (max_iterations : Z) (w : world) :
  glacier_name = "helheim" ∨ glacier_name = "jakobshavn" ∨
  glacier_name = "kangerd" →
  is_dir w "elmer" = false →
  generate_sif_file format_sif glacier_name None regularization
    max_iterations w
  = (Raise (OSError (default_sif glacier_name)), w).
Proof.
  intros Hname Helmer. unfold generate_sif_file.
  rewrite bool_decide_eq_true_2
    by (unfold glacier_names; rewrite !elem_of_cons; tauto).
  cbn [negb]. rewrite (default_sif_title _ Hname).
  unfold mbind, M_bind, bindM, open_w.
  destruct (is_dir w (default_sif glacier_name)); [done|].
  by rewrite dirname_default_sif, Helmer.
Qed.

End SifWrites.

(** ** The further properties at concrete inputs *)


Lemma detect_in_range_iff_padded_witness :
  in_range (Box 0 4 0 4) 5 5 ↔ padded2 centre5 5 5.
Proof.
  apply (detect_in_range_iff_padded centre5 5 5 (Box 0 4 0 4)); by vm_compute.
Defined.

Lemma crop_keeps_alignment_witness :
  let c := crop (Box 1 3 0 2) x5 y5 vx5 vx5 vx5 vx5 in
  let i0 := Z.to_nat (imin (Box 1 3 0 2) + Z.of_nat 1) in
  let j0 := Z.to_nat (jmin (Box 1 3 0 2) + Z.of_nat 2) in
  c_x c !! 2%nat = x5 !! j0 ∧ c_y c !! 1%nat = y5 !! i0 ∧
  c_vx c !! 1%nat ≫= (λ row, row !! 2%nat) = vx5 !! i0 ≫= (λ row, row !! j0) ∧
  c_vy c !! 1%nat ≫= (λ row, row !! 2%nat) = vx5 !! i0 ≫= (λ row, row !! j0) ∧
  c_ex c !! 1%nat ≫= (λ row, row !! 2%nat) = vx5 !! i0 ≫= (λ row, row !! j0) ∧
  c_ey c !! 1%nat ≫= (λ row, row !! 2%nat) = vx5 !! i0 ≫= (λ row, row !! j0).
Proof.
  apply (crop_keeps_alignment (Box 1 3 0 2) x5 y5 vx5 vx5 vx5 vx5 1 2);
    simpl; lia.
Defined.

Lemma crop_keeps_valid_cells_witness :
  let f' := c_vx (crop (Box 0 4 0 4) x5 y5 centre5 centre5 centre5 centre5) in
  has_shape f' (box_ny (Box 0 4 0 4)) (box_nx (Box 0 4 0 4)) = true ∧
  (∀ i j, valid_cell centre5 i j = true →
     valid_cell f' (i - Z.to_nat (imin (Box 0 4 0 4)))
                   (j - Z.to_nat (jmin (Box 0 4 0 4))) = true) ∧
  padded2 f' (box_ny (Box 0 4 0 4)) (box_nx (Box 0 4 0 4)).
Proof.
  apply (crop_keeps_valid_cells (Box 0 4 0 4) x5 y5
           centre5 centre5 centre5 centre5 5 5); by vm_compute.
Defined.



Lemma export_short_axis_raises_witness :
  ∃ w',
    export float_repr "helheim"
      (crop (Box (-1) 4 (-1) 4) x5 y5 vx5 vx5 vx5 vx5) world_helheim
    = (Raise IndexError, w') ∧
    ∀ p, p ∈ outputs "helheim" → is_file w' p = true.
Proof.
  apply (export_short_axis_raises float_repr "helheim"
           (crop (Box (-1) 4 (-1) 4) x5 y5 vx5 vx5 vx5 vx5) world_helheim).
  - by vm_compute.
  - by vm_compute.
  - by vm_compute.
  - left. by vm_compute.
Defined.

Lemma padded2_centre5 : padded2 centre5 5 5.
Proof.
  intros i j.
  do 5 (destruct i as [|i]; [do 5 (destruct j as [|j]; [by vm_compute|]);
                             by destruct j|]).
  by destruct i.
Qed.

Lemma velocity_body_makes_outputs_witness :
  ∃ b w',
    detect centre5 = Ok b ∧ in_range b 5 5 ∧
    velocity_body float_repr geodat_centre "helheim" world0 = (Ok tt, w') ∧
    exported float_repr w' "helheim" (box_nx b) (box_ny b)
      (crop b x5 y5 centre5 centre5 centre5 centre5) ∧
    stdout w' =
      stdout world0 ++ ["Done making velocity data for " +:+ "helheim"] ∧
    geodat_reads w' =
      geodat_reads world0 ++
        ["../data/" +:+ "helheim" +:+ "/" +:+ "TSX_E66.50N_27Jan09_07Feb09"
           +:+ ".vx";
         "../data/" +:+ "helheim" +:+ "/" +:+ "TSX_E66.50N_27Jan09_07Feb09"
           +:+ ".vy";
         "../data/" +:+ "helheim" +:+ "/" +:+ "TSX_E66.50N_27Jan09_07Feb09"
           +:+ ".ex";
         "../data/" +:+ "helheim" +:+ "/" +:+ "TSX_E66.50N_27Jan09_07Feb09"
           +:+ ".ey"].
Proof.
  apply (velocity_body_makes_outputs float_repr geodat_centre "helheim"
           "TSX_E66.50N_27Jan09_07Feb09" x5 y5 x5 y5 x5 y5 x5 y5
           centre5 centre5 centre5 centre5 5 5 world0);
    try (by vm_compute).
  - exists 2%nat, 2%nat. by vm_compute.
  - exact padded2_centre5.
Defined.

Lemma velocity_body_idempotent_witness :
  ∃ w2,
    velocity_body float_repr geodat5 "helheim"
      (set_stdout ["Done making velocity data for helheim"] world_made)
    = (Ok tt, w2) ∧
    files w2 =
      files (set_stdout ["Done making velocity data for helheim"] world_made) ∧
    geodat_reads w2 =
      geodat_reads
        (set_stdout ["Done making velocity data for helheim"] world_made) ∧
    stdout w2 =
      stdout (set_stdout ["Done making velocity data for helheim"] world_made)
      ++ ["Done making velocity data for " +:+ "helheim"].
Proof.
  apply (velocity_body_idempotent float_repr geodat5 "helheim" world_made).
  by vm_compute.
Defined.

Lemma velocity_body_out_of_range_witness :
  ∃ w',
    velocity_body float_repr geodat5 "helheim" world0
    = (Raise IndexError, w') ∧
    (∀ p, p ∈ outputs "helheim" → is_file w' p = true) ∧
    stdout w' = stdout world0 ∧
    ∃ w'',
      velocity_body float_repr geodat5 "helheim" w' = (Ok tt, w'') ∧
      files w'' = files w' ∧ geodat_reads w'' = geodat_reads w' ∧
      stdout w'' =
        stdout world0 ++ ["Done making velocity data for " +:+ "helheim"].
Proof.
  apply (velocity_body_out_of_range float_repr geodat5 "helheim"
           "TSX_E66.50N_27Jan09_07Feb09" x5 y5 x5 y5 x5 y5 x5 y5
           vx5 vx5 vx5 vx5 5 5 (Box (-1) 4 (-1) 4) world0);
    try (by vm_compute).
  unfold in_range; simpl; lia.
Defined.

Lemma velocity_body_empty_dataset_witness :
  ∃ w',
    velocity_body float_repr geodat_empty "helheim" world0
    = (Raise (ValueError "min() arg is an empty sequence"), w') ∧
    files w' = files world0 ∧ stdout w' = stdout world0 ∧
    geodat_reads w' =
      geodat_reads world0 ++
        ["../data/" +:+ "helheim" +:+ "/" +:+ "TSX_E66.50N_27Jan09_07Feb09"
           +:+ ".vx";
         "../data/" +:+ "helheim" +:+ "/" +:+ "TSX_E66.50N_27Jan09_07Feb09"
           +:+ ".vy";
         "../data/" +:+ "helheim" +:+ "/" +:+ "TSX_E66.50N_27Jan09_07Feb09"
           +:+ ".ex";
         "../data/" +:+ "helheim" +:+ "/" +:+ "TSX_E66.50N_27Jan09_07Feb09"
           +:+ ".ey"].
Proof.
  apply (velocity_body_empty_dataset float_repr geodat_empty "helheim"
           "TSX_E66.50N_27Jan09_07Feb09"
           [100; 200]%float [10; 20]%float [100; 200]%float [10; 20]%float
           [100; 200]%float [10; 20]%float [100; 200]%float [10; 20]%float
           empty22 empty22 empty22 empty22 world0);
    by vm_compute.
Defined.

Lemma main_all_made_witness :
  main float_repr geodat5 shell_fails postprocess_nothing "cresis"
    world_all_made =
    match postprocess_nothing
            (set_stdout (stdout world_all_made ++ done_messages) world_all_made)
    with
    | (Ok _, w') =>
        (Returned,
         set_stdout
           (stdout w' ++ ["Done post-processing Jakobshavn velocity data"]) w')
    | (Raise e, w') => (Raised e, w')
    end.
Proof.
  apply (main_all_made float_repr geodat5 shell_fails postprocess_nothing
           "cresis" world_all_made).
  - by vm_compute.
  - by right.
Defined.

Lemma jakobshavn_surface_format_witness :
  ∃ w' content,
    jakobshavn_surface float_repr geodat_surface world_jakobshavn
    = (Ok tt, w') ∧
    files w' !! "jakobshavn/zsDEM.xy" = Some content ∧
    xy_format float_repr content 2 2 [100; 200]%float [10; 20]%float
      surface22 ∧
    stdout w' = stdout world_jakobshavn
                ++ ["Done making surface elevation for Jakobshavn"] ∧
    geodat_reads w' = geodat_reads world_jakobshavn
                      ++ ["../data/jakobshavn/dem13Mar.smooth"].
Proof.
  apply (jakobshavn_surface_format float_repr geodat_surface
           [100; 200]%float [10; 20]%float surface22 world_jakobshavn);
    by vm_compute.
Defined.

Lemma generate_sif_file_writes_witness :
  ∃ w',
    generate_sif_file (λ _ _ _, "text") "helheim" None 1.0e10%float 50
      world_elmer = (Ok tt, w') ∧
    files w' !! default_sif "helheim" = Some "text" ∧
    (∀ p, p ≠ default_sif "helheim" → files w' !! p = files world_elmer !! p) ∧
    dirs w' = dirs world_elmer ∧ stdout w' = stdout world_elmer.
Proof.
  apply (generate_sif_file_writes (λ _ _ _, "text") "helheim"
           1.0e10%float 50 world_elmer).
  - by left.
  - by vm_compute.
  - by vm_compute.
Defined.

Lemma generate_sif_file_unwritable_witness :
  generate_sif_file (λ _ _ _, "text") "kangerd" None 1.0e10%float 50 world0
  = (Raise (OSError (default_sif "kangerd")), world0).
Proof.
  apply (generate_sif_file_unwritable (λ _ _ _, "text") "kangerd"
           1.0e10%float 50 world0).
  - right. by right.
  - by vm_compute.
Defined.
